(** * AegisSign (DocSecure): document signing and verification

    A shallow embedding of the backend of the repository

    - [backend/src/utils/cryptoUtils.ts]  (module [CryptoUtils])
    - [backend/src/utils/pdfUtils.ts]     (module [PdfUtils])
    - the two revisions of [backend/src/controllers/documentController.ts]
      (modules [RegistryController] and [CryptoController])

    The third-party packages the backend calls (pdf-lib, node:crypto,
    @noble/ed25519, mongoose) are interfaces here: type classes whose
    methods are the calls the source makes. Every function of the
    repository is defined over these interfaces and runs on any instance. *)

From Stdlib Require Import ZArith NArith Lia Bool.
From Stdlib Require Import Ascii String.
From Stdlib Require Strings.Byte.
From stdpp Require Import base tactics option list strings.

Abbreviation byte := Init.Byte.byte.
Abbreviation bytes := (list Init.Byte.byte).

(* ====================================================================== *)
(** * Exceptions *)

(** A JavaScript computation either returns a value or throws. The payload
    of a thrown value is the error message. *)
Inductive Exc (A : Type) : Type :=
  | Ret (a : A)
  | Throw (e : string).
Arguments Ret {A} a.
Arguments Throw {A} e.

Definition exc_bind {A B} (m : Exc A) (k : A -> Exc B) : Exc B :=
  match m with
  | Ret a => k a
  | Throw e => Throw e
  end.

(** [try { body } catch (e) { handler }] *)
Definition exc_catch {A} (body : Exc A) (handler : string -> Exc A) : Exc A :=
  match body with
  | Ret a => Ret a
  | Throw e => handler e
  end.

Declare Scope exc_scope.
Delimit Scope exc_scope with exc.
Notation "x <- m ;; k" := (exc_bind m (fun x => k))
  (at level 100, m at next level, right associativity) : exc_scope.

(* ====================================================================== *)
(** * JavaScript values used by the backend *)

Module JS.

(** ** Strings *)

(** A string is a sequence of code units below 256; the texts the backend
    builds and matches (hexadecimal digits, the two tags, file names) are
    in that range. *)

(** [o || d] for [o : string | undefined]: the empty string is falsy. *)
Definition or_default (o : option string) (d : string) : string :=
  match o with
  | Some EmptyString => d
  | Some s => s
  | None => d
  end.

(** A truthy string is a non-empty one. *)
Definition truthy (s : string) : bool :=
  match s with
  | EmptyString => false
  | String _ _ => true
  end.

Definition is_space (c : ascii) : bool :=
  let n := N_of_ascii c in
  ((9 <=? n) && (n <=? 13) || (n =? 32) || (n =? 160))%N.

Fixpoint trimStart (s : string) : string :=
  match s with
  | String c r => if is_space c then trimStart r else s
  | EmptyString => EmptyString
  end.

(** [trimEnd] written as one right-to-left pass: a space is dropped when
    everything after it has been dropped. *)
Fixpoint trimEnd (s : string) : string :=
  match s with
  | String c r =>
      match trimEnd r with
      | EmptyString => if is_space c then EmptyString else String c EmptyString
      | r' => String c r'
      end
  | EmptyString => EmptyString
  end.

(** [String.prototype.trim] *)
Definition trim (s : string) : string := trimEnd (trimStart s).

(** [s.split(sep)] for a one-character separator; the result is never
    empty: [''.split(',')] is [['']]. *)
Fixpoint split (sep : ascii) (s : string) : list string :=
  match s with
  | EmptyString => [EmptyString]
  | String c r =>
      if Ascii.eqb c sep then EmptyString :: split sep r
      else match split sep r with
           | w :: ws => String c w :: ws
           | [] => [String c EmptyString]
           end
  end.

(** [a.join(sep)] *)
Fixpoint join (sep : string) (l : list string) : string :=
  match l with
  | [] => EmptyString
  | [w] => w
  | w :: ws => w +:+ sep +:+ join sep ws
  end.

(** [strip_prefix p s] is [Some r] when [s = p ++ r]. *)
Fixpoint strip_prefix (p s : string) : option string :=
  match p, s with
  | EmptyString, _ => Some s
  | String a p', String b s' =>
      if Ascii.eqb a b then strip_prefix p' s' else None
  | String _ _, EmptyString => None
  end.

(** [s.replace(pat, rep)] with a string pattern: the first occurrence
    only. *)
Fixpoint replace (pat rep s : string) : string :=
  match strip_prefix pat s with
  | Some r => rep +:+ r
  | None =>
      match s with
      | String c r => String c (replace pat rep r)
      | EmptyString => EmptyString
      end
  end.

(** [s.includes(pat)] *)
Fixpoint includes (pat s : string) : bool :=
  match strip_prefix pat s with
  | Some _ => true
  | None =>
      match s with
      | String _ r => includes pat r
      | EmptyString => false
      end
  end.

(** ** Buffers *)

Definition hex_digit (n : N) : ascii :=
  if (n <? 10)%N then ascii_of_N (48 + n) else ascii_of_N (87 + n).

(** The value of a hexadecimal digit, either case. *)
Definition hex_value (c : ascii) : option N :=
  let n := N_of_ascii c in
  if ((48 <=? n) && (n <=? 57))%N then Some (n - 48)%N
  else if ((97 <=? n) && (n <=? 102))%N then Some (n - 87)%N
  else if ((65 <=? n) && (n <=? 70))%N then Some (n - 55)%N
  else None.

Definition byte_of_N (n : N) : byte :=
  match Strings.Byte.of_N n with
  | Some b => b
  | None => Init.Byte.x00
  end.

(** [buf.toString('hex')]: two lower-case digits per byte. *)
Fixpoint toString_hex (b : bytes) : string :=
  match b with
  | [] => EmptyString
  | x :: r =>
      let n := Strings.Byte.to_N x in
      String (hex_digit (n / 16)) (String (hex_digit (n mod 16)) (toString_hex r))
  end.

(** [Buffer.from(s, 'hex')]: decodes pairs of digits and stops, without
    throwing, at the first pair that is not hexadecimal; a trailing odd
    digit is dropped. *)
Fixpoint Buffer_from_hex (s : string) : bytes :=
  match s with
  | String a (String b r) =>
      match hex_value a, hex_value b with
      | Some h, Some l => byte_of_N (16 * h + l) :: Buffer_from_hex r
      | _, _ => []
      end
  | _ => []
  end.

(** Index normalisation of [TypedArray.prototype.subarray]: a negative
    index counts from the end, and the result is clamped to [0, len]. *)
Definition clamp_index (len i : Z) : nat :=
  Z.to_nat (if (i <? 0)%Z then Z.max (len + i) 0 else Z.min i len).

(** [buf.subarray(start, end)] *)
Definition subarray (b : bytes) (start stop : Z) : bytes :=
  let len := Z.of_nat (length b) in
  let lo := clamp_index len start in
  let hi := clamp_index len stop in
  take (hi - lo) (drop lo b).

(** [buf.subarray(start)] *)
Definition subarray_from (b : bytes) (start : Z) : bytes :=
  subarray b start (Z.of_nat (length b)).

(** [buf.fill(0)] *)
Definition fill0 (b : bytes) : bytes := replicate (length b) Init.Byte.x00.

End JS.

(* ====================================================================== *)
(** * The third-party packages, as interfaces *)

(** ** pdf-lib *)

(** A parsed document as the backend sees it: the entries of the Info
    dictionary it reads or writes, each absent ([None], what the getters
    return as [undefined]) or present, and everything else of the file.
    An entry is the text the getter returns; the way the file spells that
    text (literal or hexadecimal string) is not part of the model. *)
Record PDFDocument : Type := mkPDFDocument {
  Title : option string;
  Subject : option string;
  Keywords : option string;
  Producer : option string;
  Creator : option string;
  objects : bytes
}.

Definition getTitle (d : PDFDocument) : option string := Title d.
Definition getSubject (d : PDFDocument) : option string := Subject d.
Definition getKeywords (d : PDFDocument) : option string := Keywords d.
Definition getProducer (d : PDFDocument) : option string := Producer d.
Definition getCreator (d : PDFDocument) : option string := Creator d.

Definition setTitle (d : PDFDocument) (v : string) : PDFDocument :=
  mkPDFDocument (Some v) (Subject d) (Keywords d) (Producer d) (Creator d) (objects d).
Definition setSubject (d : PDFDocument) (v : string) : PDFDocument :=
  mkPDFDocument (Title d) (Some v) (Keywords d) (Producer d) (Creator d) (objects d).
(** [setKeywords] takes an array and stores it joined by single spaces. *)
Definition setKeywords (d : PDFDocument) (v : list string) : PDFDocument :=
  mkPDFDocument (Title d) (Subject d) (Some (JS.join " " v)) (Producer d) (Creator d) (objects d).
Definition setProducer (d : PDFDocument) (v : string) : PDFDocument :=
  mkPDFDocument (Title d) (Subject d) (Keywords d) (Some v) (Creator d) (objects d).
Definition setCreator (d : PDFDocument) (v : string) : PDFDocument :=
  mkPDFDocument (Title d) (Subject d) (Keywords d) (Producer d) (Some v) (objects d).

(** [PDFDocument.load(bytes, { updateMetadata })] throws on bytes it cannot
    parse; [pdfDoc.save()] serialises. *)
Class PdfLib : Type := {
  PDFDocument_load : bytes -> bool -> Exc PDFDocument;
  PDFDocument_save : PDFDocument -> bytes
}.

(** What the backend relies on (the comments on [normalizePdf] and on step 1
    of [signDocument]): with [updateMetadata: false], parsing what [save]
    wrote gives back the document that was saved. *)
Class PdfLibLaws {PDF : PdfLib} : Prop := {
  load_save : forall d, PDFDocument_load (PDFDocument_save d) false = Ret d
}.

(** ** node:crypto *)

Class NodeCrypto : Type := {
  (** [createHash('sha256').update(data).digest()] *)
  createHash_sha256 : bytes -> bytes;
  (** [pbkdf2Sync(password, salt, iterations, keylen, digest)] *)
  pbkdf2Sync : string -> bytes -> N -> N -> string -> bytes;
  (** [createCipheriv('aes-256-gcm', key, iv)], [update], [final],
      [getAuthTag]: ciphertext and authentication tag. *)
  aes_256_gcm_encrypt : bytes -> bytes -> bytes -> Exc (bytes * bytes);
  (** [createDecipheriv('aes-256-gcm', key, iv)], [setAuthTag(tag)],
      [update], [final]: [final] throws when the tag does not verify. *)
  aes_256_gcm_decrypt : bytes -> bytes -> bytes -> bytes -> Exc bytes
}.

(** AES-256-GCM as an ideal authenticated cipher: the tag has 16 bytes,
    decryption under the encryption key returns the plaintext, and under
    any other key the tag does not verify. *)
Class NodeCryptoLaws {NC : NodeCrypto} : Prop := {
  gcm_tag_length : forall key iv pt ct tag,
    aes_256_gcm_encrypt key iv pt = Ret (ct, tag) -> length tag = 16;
  gcm_decrypt_encrypt : forall key iv pt ct tag,
    aes_256_gcm_encrypt key iv pt = Ret (ct, tag) ->
    aes_256_gcm_decrypt key iv ct tag = Ret pt;
  gcm_wrong_key : forall key key' iv pt ct tag,
    aes_256_gcm_encrypt key iv pt = Ret (ct, tag) ->
    key' <> key ->
    exists e, aes_256_gcm_decrypt key' iv ct tag = Throw e
}.

(** ** @noble/ed25519 *)

Class Ed25519 : Type := {
  ed_getPublicKey : bytes -> Exc bytes;
  ed_sign : bytes -> bytes -> Exc bytes;
  ed_verify : bytes -> bytes -> bytes -> Exc bool
}.

(** ** mongoose: the [User] and [Document] models *)

Record IUser : Type := mkUser {
  u_id : string;
  u_email : string;
  u_passwordHash : string;
  u_publicKey : string;
  u_encryptedPrivateKey : string;
  u_iv : string;
  u_salt : string
}.

(** The argument of [DocumentModel.create]. *)
Record DocumentInput : Type := mkDocumentInput {
  di_hash : string;
  di_signature : string;
  di_signer : string;
  di_fileName : string
}.

(** A signer as [populate('signer', 'email publicKey')] fills it in. *)
Record PopulatedSigner : Type := mkSigner {
  ps_email : string;
  ps_publicKey : string
}.

(** What [verifyDocument] reads of a registry record: the populated signer
    ([None] when the reference resolves to no user) and [createdAt]. *)
Record DocumentRecord : Type := mkRecord {
  dr_signer : option PopulatedSigner;
  dr_createdAt : N
}.

(** The queries the controllers make. Every one of them can reject (the
    database is unreachable, a validator or a unique index refuses). *)
Class Mongoose : Type := {
  DB : Type;
  User_findById : DB -> string -> Exc (option IUser);
  User_findOne_publicKey : DB -> string -> Exc (option IUser);
  DocumentModel_findOne_signature : DB -> string -> Exc (option DocumentRecord);
  DocumentModel_create : DB -> DocumentInput -> Exc DB
}.

(* ====================================================================== *)
(** * State *)

(** The calls of primitives that the properties below speak about, in the
    order they were made. *)
Inductive Call : Type :=
  | CallSha256 (data : bytes)
  | CallEdSign (hash : bytes) (key : nat)
  | CallEdVerify (signature : string) (hash : bytes) (publicKey : string)
  | CallFill0 (buffer : nat).

(** The database, the [Uint8Array] objects that the controllers hold (an
    object is its index in [heap]), what [randomBytes(n)] returns next, and
    the calls made so far. *)
Record World {DBI : Mongoose} : Type := mkWorld {
  db : DB;
  heap : list bytes;
  random : N -> bytes;
  calls : list Call
}.
Arguments mkWorld {_} _ _ _ _.

(** A computation over a state [S] that returns or throws; the state a
    throwing computation leaves behind is kept. *)
Definition M (S A : Type) : Type := S -> Exc A * S.

Definition ret {S A} (a : A) : M S A := fun s => (Ret a, s).

Definition throw {S A} (e : string) : M S A := fun s => (Throw e, s).

Definition bind {S A B} (m : M S A) (k : A -> M S B) : M S B :=
  fun s =>
    match m s with
    | (Ret a, s') => k a s'
    | (Throw e, s') => (Throw e, s')
    end.

(** [try { body } catch (e) { handler }] *)
Definition try_catch {S A} (body : M S A) (handler : string -> M S A) : M S A :=
  fun s =>
    match body s with
    | (Ret a, s') => (Ret a, s')
    | (Throw e, s') => handler e s'
    end.

(** A call that does not touch the state. *)
Definition lift {S A} (e : Exc A) : M S A := fun s => (e, s).

Declare Scope M_scope.
Delimit Scope M_scope with M.
Notation "x <- m ;; k" := (bind m (fun x => k))
  (at level 100, m at next level, right associativity) : M_scope.
Notation "m ;;; k" := (bind m (fun _ => k))
  (at level 100, right associativity) : M_scope.

Section WorldOps.
Context {DBI : Mongoose}.

Definition set_db (w : World) (d : DB) : World :=
  mkWorld d (heap w) (random w) (calls w).
Definition set_heap (w : World) (h : list bytes) : World :=
  mkWorld (db w) h (random w) (calls w).
Definition record_call (c : Call) (w : World) : World :=
  mkWorld (db w) (heap w) (random w) (calls w ++ [c]).

(** A read-only query. *)
Definition query {A} (q : DB -> Exc A) : M World A :=
  fun w => (q (db w), w).

(** A write: the database changes only when the write succeeds. *)
Definition update (u : DB -> Exc DB) : M World unit :=
  fun w =>
    match u (db w) with
    | Ret d => (Ret tt, set_db w d)
    | Throw e => (Throw e, w)
    end.

(** [new Uint8Array(contents)] *)
Definition alloc (contents : bytes) : M World nat :=
  fun w => (Ret (length (heap w)), set_heap w (heap w ++ [contents])).

(** A primitive call that is recorded. *)
Definition traced {A} (c : Call) (e : Exc A) : M World A :=
  fun w => (e, record_call c w).

End WorldOps.

(* ====================================================================== *)
(** * cryptoUtils.ts *)

Module CryptoUtils.

Record KeyPair : Type := mkKeyPair {
  kp_publicKey : string;
  kp_privateKey : string
}.

Record EncryptedKey : Type := mkEncryptedKey {
  ek_encryptedPrivateKey : string;
  ek_iv : string
}.

Section WithCrypto.
Context {DBI : Mongoose} {NC : NodeCrypto} {ED : Ed25519}.

(** [random32] is what [randomBytes(32)] returns when it is called:
    an absent or empty salt is falsy. *)
Definition deriveKeyFromPassword (random32 : bytes)
    (password : string) (salt : option string) : bytes * string :=
  let saltBuffer :=
    match salt with
    | Some (String _ _ as s) => JS.Buffer_from_hex s
    | _ => random32
    end in
  let dek := pbkdf2Sync password saltBuffer 100000 32 "sha256" in
  (dek, JS.toString_hex saltBuffer).

Definition generateKeyPair (random32 : bytes) : Exc KeyPair :=
  (let privateKeyBytes := random32 in
   publicKeyBytes <- ed_getPublicKey privateKeyBytes ;;
   Ret (mkKeyPair (JS.toString_hex publicKeyBytes)
                  (JS.toString_hex privateKeyBytes)))%exc.

(** [random12] is what [randomBytes(12)] returns. *)
Definition encryptPrivateKey (random12 : bytes)
    (privateKey : string) (dek : bytes) : Exc EncryptedKey :=
  (let iv := random12 in
   let privateKeyBuffer := JS.Buffer_from_hex privateKey in
   sealed <- aes_256_gcm_encrypt dek iv privateKeyBuffer ;;
   let encrypted := fst sealed in
   let authTag := snd sealed in
   let encryptedWithTag := encrypted ++ authTag in
   Ret (mkEncryptedKey (JS.toString_hex encryptedWithTag)
                       (JS.toString_hex iv)))%exc.

(** The bytes [decryptPrivateKey] returns; the [Uint8Array] that holds
    them is allocated by [decryptPrivateKey] below. *)
Definition decryptPrivateKey_bytes
    (encryptedPrivateKey iv : string) (dek : bytes) : Exc bytes :=
  let encryptedBuffer := JS.Buffer_from_hex encryptedPrivateKey in
  let ivBuffer := JS.Buffer_from_hex iv in
  let len := Z.of_nat (length encryptedBuffer) in
  let authTag := JS.subarray_from encryptedBuffer (len - 16) in
  let encryptedData := JS.subarray encryptedBuffer 0 (len - 16) in
  aes_256_gcm_decrypt dek ivBuffer encryptedData authTag.

(** [ed.sign(hash, privateKey)] on the contents of the key. *)
Definition signHash_bytes (hash privateKey : bytes) : Exc string :=
  (signature <- ed_sign hash privateKey ;;
   Ret (JS.toString_hex signature))%exc.

(** The whole body is inside [try]; the handler returns [false]. *)
Definition verifySignature (signature : string) (hash : bytes)
    (publicKey : string) : Exc bool :=
  exc_catch
    (let signatureBytes := JS.Buffer_from_hex signature in
     let publicKeyBytes := JS.Buffer_from_hex publicKey in
     ed_verify signatureBytes hash publicKeyBytes)
    (fun error => Ret false).

Definition sha256 (data : bytes) : bytes := createHash_sha256 data.

(** [decryptPrivateKey] returns [new Uint8Array(decrypted)]. *)
Definition decryptPrivateKey (encryptedPrivateKey iv : string) (dek : bytes)
    : M World nat :=
  (decrypted <- lift (decryptPrivateKey_bytes encryptedPrivateKey iv dek) ;;
   alloc decrypted)%M.

(** [signHash] reads the key out of the array it is given. *)
Definition signHash (hash : bytes) (privateKey : nat) : M World string :=
  fun w =>
    match heap w !! privateKey with
    | Some key => traced (CallEdSign hash privateKey) (signHash_bytes hash key) w
    | None => (Throw "TypeError", w)
    end.

(** Both branches of [secureWipe] are [data.fill(0)]. *)
Definition secureWipe (data : nat) : M World unit :=
  fun w =>
    (Ret tt, record_call (CallFill0 data)
               (set_heap w (alter JS.fill0 data (heap w)))).

End WithCrypto.

End CryptoUtils.

(* ====================================================================== *)
(** * pdfUtils.ts *)

Module PdfUtils.

Record ExtractedSignatureData : Type := mkExtracted {
  signature : string;
  publicKey : string;
  strippedPdfBuffer : bytes
}.


Definition SIGNATURE_KEY : string := "AegisSign_Signature".
Definition OWNER_KEY : string := "AegisSign_Owner".

(** ** The regular expression [\|\|<key>:([a-fA-F0-9]+)]

    [key] is one of the two constants above, which contain no character
    that is special in a regular expression. *)

Definition is_hex (c : ascii) : bool :=
  match JS.hex_value c with
  | Some _ => true
  | None => false
  end.

(** The longest prefix of hexadecimal digits, and what follows it. *)
Fixpoint span_hex (s : string) : string * string :=
  match s with
  | String c r =>
      if is_hex c then
        match span_hex r with
        | (h, t) => (String c h, t)
        end
      else (EmptyString, s)
  | EmptyString => (EmptyString, EmptyString)
  end.

Record RegExpMatch : Type := mkMatch {
  m_before : string;   (* the text before the match *)
  m_group1 : string;   (* the capture group *)
  m_after : string     (* the text after the match *)
}.

(** A match that starts at the first character: the literal prefix, then
    one or more digits, as many as there are. *)
Definition match_here (key s : string) : option (string * string) :=
  match JS.strip_prefix ("||" +:+ key +:+ ":") s with
  | Some r =>
      match span_hex r with
      | (EmptyString, _) => None
      | (h, t) => Some (h, t)
      end
  | None => None
  end.

(** The leftmost match. *)
Fixpoint regexp_exec (key s : string) : option RegExpMatch :=
  match match_here key s with
  | Some (h, t) => Some (mkMatch EmptyString h t)
  | None =>
      match s with
      | String c r =>
          match regexp_exec key r with
          | Some m => Some (mkMatch (String c (m_before m)) (m_group1 m) (m_after m))
          | None => None
          end
      | EmptyString => None
      end
  end.

(** [s.replace(re, '')]: the leftmost match is removed, if there is one. *)
Definition regexp_remove (key s : string) : string :=
  match regexp_exec key s with
  | Some m => m_before m +:+ m_after m
  | None => s
  end.

Section WithLibs.
Context {PDF : PdfLib} {NC : NodeCrypto}.

Definition hashPdfBuffer (buffer : bytes) : bytes :=
  CryptoUtils.sha256 buffer.

Definition injectSignature (pdfBuffer : bytes) (signature publicKey : string)
    : Exc bytes :=
  (pdfDoc <- PDFDocument_load pdfBuffer false ;;
   let pdfDoc := setTitle pdfDoc (JS.or_default (getTitle pdfDoc) "Signed Document") in
   let pdfDoc := setSubject pdfDoc (JS.or_default (getSubject pdfDoc) "") in
   let pdfDoc := setKeywords pdfDoc
     (match getKeywords pdfDoc with
      | Some kw => map JS.trim (JS.split "," kw)
      | None => []
      end) in
   let existingProducer := JS.or_default (getProducer pdfDoc) "" in
   let existingCreator := JS.or_default (getCreator pdfDoc) "" in
   let pdfDoc := setProducer pdfDoc
     (existingProducer +:+ "||" +:+ SIGNATURE_KEY +:+ ":" +:+ signature) in
   let pdfDoc := setCreator pdfDoc
     (existingCreator +:+ "||" +:+ OWNER_KEY +:+ ":" +:+ publicKey) in
   let signedPdfBytes := PDFDocument_save pdfDoc in
   Ret signedPdfBytes)%exc.

Definition normalizePdf (pdfBuffer : bytes) : Exc bytes :=
  (pdfDoc <- PDFDocument_load pdfBuffer false ;;
   Ret (PDFDocument_save pdfDoc))%exc.

(** [None] is the [null] the source returns for an unsigned document. *)
Definition extractAndStripSignature (pdfBuffer : bytes)
    : Exc (option ExtractedSignatureData) :=
  (pdfDoc <- PDFDocument_load pdfBuffer false ;;
   let producer := JS.or_default (getProducer pdfDoc) "" in
   let creator := JS.or_default (getCreator pdfDoc) "" in
   let signatureMatch := regexp_exec SIGNATURE_KEY producer in
   let publicKeyMatch := regexp_exec OWNER_KEY creator in
   match signatureMatch, publicKeyMatch with
   | Some sm, Some pm =>
       let signature := m_group1 sm in
       let publicKey := m_group1 pm in
       let cleanProducer := regexp_remove SIGNATURE_KEY producer in
       let cleanCreator := regexp_remove OWNER_KEY creator in
       let pdfDoc := setProducer pdfDoc cleanProducer in
       let pdfDoc := setCreator pdfDoc cleanCreator in
       let strippedPdfBuffer := PDFDocument_save pdfDoc in
       Ret (Some (mkExtracted signature publicKey strippedPdfBuffer))
   | _, _ => Ret None
   end)%exc.

Definition isSignedDocument (pdfBuffer : bytes) : Exc bool :=
  exc_catch
    (pdfDoc <- PDFDocument_load pdfBuffer false ;;
     let producer := JS.or_default (getProducer pdfDoc) "" in
     let creator := JS.or_default (getCreator pdfDoc) "" in
     Ret (JS.includes SIGNATURE_KEY producer && JS.includes OWNER_KEY creator))%exc
    (fun _ => Ret false).


End WithLibs.

End PdfUtils.

(* ====================================================================== *)
(** * The HTTP boundary of documentController.ts *)

(** [req.file] as multer fills it in. *)
Record File : Type := mkFile {
  buffer : bytes;
  mimetype : string;
  originalname : string
}.

(** An absent [password] and the empty one are both falsy. *)
Record SignRequest : Type := mkSignRequest {
  sr_userId : string;
  sr_file : option File;
  sr_password : string
}.

Record VerifyRequest : Type := mkVerifyRequest {
  vr_file : option File
}.

Record SignResponse : Type := mkSignResponse {
  sg_success : bool;
  sg_message : string
}.

Record VerifyResponse : Type := mkVerifyResponse {
  success : bool;
  message : string;
  verified : option bool;
  signerEmail : option string;
  signerPublicKey : option string;
  signedAt : option N;
  error : option string
}.

Inductive Body : Type :=
  | JsonSign (j : SignResponse)
  | JsonVerify (j : VerifyResponse)
  | Send (b : bytes).

(** What the handler has sent when it returns. *)
Record Response : Type := mkResponse {
  status : nat;
  headers : list (string * string);
  body : Body
}.

Definition sign_json (code : nat) (msg : string) : Response :=
  mkResponse code [] (JsonSign (mkSignResponse false msg)).

Definition double_quote : string := String (ascii_of_nat 34) EmptyString.

(** The local variable [privateKeyBytes] of [signDocument], which its
    [catch] handler reads, next to the world. *)
Record SignFrame {DBI : Mongoose} : Type := mkSignFrame {
  world : World;
  privateKeyBytes : option nat
}.
Arguments mkSignFrame {_} _ _.

Section FrameOps.
Context {DBI : Mongoose}.

Definition in_world {A} (m : M World A) : M SignFrame A :=
  fun f =>
    match m (world f) with
    | (r, w) => (r, mkSignFrame w (privateKeyBytes f))
    end.

Definition get_privateKeyBytes : M SignFrame (option nat) :=
  fun f => (Ret (privateKeyBytes f), f).

Definition set_privateKeyBytes (v : option nat) : M SignFrame unit :=
  fun f => (Ret tt, mkSignFrame (world f) v).

End FrameOps.

(* ====================================================================== *)
(** * documentController.ts, with the Document Registry *)

Module RegistryController.
Section WithLibs.
Context {DBI : Mongoose} {PDF : PdfLib} {NC : NodeCrypto} {ED : Ed25519}.

Definition signDocument (req : SignRequest) : M SignFrame Response :=
  try_catch
    (let password := sr_password req in
     match sr_file req with
     | None => ret (sign_json 400 "No file uploaded. Please upload a PDF document.")
     | Some file =>
     if negb (JS.truthy password) then
       ret (sign_json 400 "Password is required to sign documents.")
     else if negb (String.eqb (mimetype file) "application/pdf") then
       ret (sign_json 400 "Only PDF documents can be signed.")
     else
       user <- in_world (query (fun d => User_findById d (sr_userId req))) ;;
       match user with
       | None => ret (sign_json 404 "User not found.")
       | Some user =>
       (* Step 1 *)
       normalizedPdf <- lift (PdfUtils.normalizePdf (buffer file)) ;;
       pdfHash <- in_world (traced (CallSha256 normalizedPdf)
                              (Ret (PdfUtils.hashPdfBuffer normalizedPdf))) ;;
       let pdfHashHex := JS.toString_hex pdfHash in
       (* Step 2 *)
       random32 <- in_world (fun w => (Ret (random w 32), w)) ;;
       let dek := fst (CryptoUtils.deriveKeyFromPassword random32
                         password (Some (u_salt user))) in
       (* Step 3: the inner try; its handler responds and returns *)
       decrypted <- try_catch
         (key <- in_world (CryptoUtils.decryptPrivateKey
                             (u_encryptedPrivateKey user) (u_iv user) dek) ;;
          set_privateKeyBytes (Some key) ;;;
          ret (inr key))
         (fun decryptError =>
            ret (inl (sign_json 401
              "Invalid password. Unable to decrypt signing key."))) ;;
       match decrypted with
       | inl response => ret response
       | inr key =>
       (* Step 4 *)
       signatureHex <- in_world (CryptoUtils.signHash pdfHash key) ;;
       (* Step 5 *)
       in_world (CryptoUtils.secureWipe key) ;;;
       set_privateKeyBytes None ;;;
       (* Step 6 *)
       signedPdfBytes <- lift (PdfUtils.injectSignature normalizedPdf
                                 signatureHex (u_publicKey user)) ;;
       (* Step 7 *)
       in_world (update (fun d => DocumentModel_create d
         (mkDocumentInput pdfHashHex signatureHex (u_id user)
            (originalname file)))) ;;;
       (* Step 8 *)
       let signedFileName :=
         JS.replace ".pdf" "_signed.pdf" (originalname file) in
       ret (mkResponse 200
              [("Content-Type", "application/pdf");
               ("Content-Disposition",
                "attachment; filename=" +:+ double_quote +:+
                signedFileName +:+ double_quote);
               ("X-AegisSign-Signature", signatureHex);
               ("X-AegisSign-PublicKey", u_publicKey user)]
              (Send signedPdfBytes))
       end
       end
     end)%M
    (fun error =>
       (key <- get_privateKeyBytes ;;
        match key with
        | Some key => in_world (CryptoUtils.secureWipe key)
        | None => ret tt
        end ;;;
        ret (sign_json 500 "An error occurred while signing the document."))%M).

Definition verifyDocument (req : VerifyRequest) : M World Response :=
  try_catch
    (match vr_file req with
     | None =>
         ret (mkResponse 400 [] (JsonVerify (mkVerifyResponse false
           "No file uploaded. Please upload a PDF document to verify."
           (Some false) None None None None)))
     | Some file =>
     if negb (String.eqb (mimetype file) "application/pdf") then
       ret (mkResponse 400 [] (JsonVerify (mkVerifyResponse false
         "Only PDF documents can be verified."
         (Some false) None None None None)))
     else
       (* Step 1 *)
       extractedData <- lift (PdfUtils.extractAndStripSignature (buffer file)) ;;
       match extractedData with
       | None =>
           ret (mkResponse 200 [] (JsonVerify (mkVerifyResponse true
             "This document was not signed with AegisSign."
             (Some false) None None None
             (Some "No AegisSign signature found in document."))))
       | Some extractedData =>
       (* Step 2 *)
       documentRecord <- query (fun d => DocumentModel_findOne_signature d
                                   (PdfUtils.signature extractedData)) ;;
       match documentRecord with
       | Some (mkRecord (Some signer) createdAt) =>
           (* Step 3 *)
           if negb (String.eqb (PdfUtils.publicKey extractedData)
                      (ps_publicKey signer)) then
             ret (mkResponse 200 [] (JsonVerify (mkVerifyResponse true
               "Public key mismatch. Document may have been tampered with."
               (Some false) None (Some (ps_publicKey signer)) None None)))
           else
             ret (mkResponse 200 [] (JsonVerify (mkVerifyResponse true
               ("Document verified! Signed by " +:+ ps_email signer)
               (Some true) (Some (ps_email signer))
               (Some (ps_publicKey signer)) (Some createdAt) None)))
       | _ =>
           ret (mkResponse 200 [] (JsonVerify (mkVerifyResponse true
             "Document signature not found in registry."
             (Some false) None None None
             (Some "Signature not registered in database."))))
       end
       end
     end)%M
    (fun error =>
       ret (mkResponse 500 [] (JsonVerify (mkVerifyResponse false
         "An error occurred while verifying the document."
         (Some false) None None None None)))).

End WithLibs.
End RegistryController.

(* ====================================================================== *)
(** * documentController.ts, signature check only *)

Module CryptoController.
Section WithLibs.
Context {DBI : Mongoose} {PDF : PdfLib} {NC : NodeCrypto} {ED : Ed25519}.

Definition signDocument (req : SignRequest) : M SignFrame Response :=
  try_catch
    (let password := sr_password req in
     match sr_file req with
     | None => ret (sign_json 400 "No file uploaded. Please upload a PDF document.")
     | Some file =>
     if negb (JS.truthy password) then
       ret (sign_json 400 "Password is required to sign documents.")
     else if negb (String.eqb (mimetype file) "application/pdf") then
       ret (sign_json 400 "Only PDF documents can be signed.")
     else
       user <- in_world (query (fun d => User_findById d (sr_userId req))) ;;
       match user with
       | None => ret (sign_json 404 "User not found.")
       | Some user =>
       (* Step 1 *)
       normalizedPdf <- lift (PdfUtils.normalizePdf (buffer file)) ;;
       pdfHash <- in_world (traced (CallSha256 normalizedPdf)
                              (Ret (PdfUtils.hashPdfBuffer normalizedPdf))) ;;
       (* Step 2 *)
       random32 <- in_world (fun w => (Ret (random w 32), w)) ;;
       let dek := fst (CryptoUtils.deriveKeyFromPassword random32
                         password (Some (u_salt user))) in
       (* Step 3: the inner try; its handler responds and returns *)
       decrypted <- try_catch
         (key <- in_world (CryptoUtils.decryptPrivateKey
                             (u_encryptedPrivateKey user) (u_iv user) dek) ;;
          set_privateKeyBytes (Some key) ;;;
          ret (inr key))
         (fun decryptError =>
            ret (inl (sign_json 401
              "Invalid password. Unable to decrypt signing key."))) ;;
       match decrypted with
       | inl response => ret response
       | inr key =>
       (* Step 4 *)
       signatureHex <- in_world (CryptoUtils.signHash pdfHash key) ;;
       (* Step 5 *)
       in_world (CryptoUtils.secureWipe key) ;;;
       set_privateKeyBytes None ;;;
       (* Step 6 *)
       signedPdfBytes <- lift (PdfUtils.injectSignature normalizedPdf
                                 signatureHex (u_publicKey user)) ;;
       (* Step 7 *)
       let signedFileName :=
         JS.replace ".pdf" "_signed.pdf" (originalname file) in
       ret (mkResponse 200
              [("Content-Type", "application/pdf");
               ("Content-Disposition",
                "attachment; filename=" +:+ double_quote +:+
                signedFileName +:+ double_quote);
               ("X-AegisSign-Signature", signatureHex);
               ("X-AegisSign-PublicKey", u_publicKey user)]
              (Send signedPdfBytes))
       end
       end
     end)%M
    (fun error =>
       (key <- get_privateKeyBytes ;;
        match key with
        | Some key => in_world (CryptoUtils.secureWipe key)
        | None => ret tt
        end ;;;
        ret (sign_json 500 "An error occurred while signing the document."))%M).

Definition verifyDocument (req : VerifyRequest) : M World Response :=
  try_catch
    (match vr_file req with
     | None =>
         ret (mkResponse 400 [] (JsonVerify (mkVerifyResponse false
           "No file uploaded. Please upload a signed PDF document."
           (Some false) None None None None)))
     | Some file =>
     if negb (String.eqb (mimetype file) "application/pdf") then
       ret (mkResponse 400 [] (JsonVerify (mkVerifyResponse false
         "Only PDF documents can be verified."
         (Some false) None None None None)))
     else
       (* Step 1 *)
       extractedData <- lift (PdfUtils.extractAndStripSignature (buffer file)) ;;
       match extractedData with
       | None =>
           ret (mkResponse 400 [] (JsonVerify (mkVerifyResponse false
             "This document does not contain a valid AegisSign signature."
             (Some false) None None None None)))
       | Some (PdfUtils.mkExtracted signature publicKey strippedPdfBuffer) =>
       (* Step 2 *)
       cleanHash <- traced (CallSha256 strippedPdfBuffer)
                      (Ret (PdfUtils.hashPdfBuffer strippedPdfBuffer)) ;;
       (* Step 3 *)
       isValid <- traced (CallEdVerify signature cleanHash publicKey)
                    (CryptoUtils.verifySignature signature cleanHash publicKey) ;;
       if (isValid : bool) then
         signer <- query (fun d => User_findOne_publicKey d publicKey) ;;
         ret (mkResponse 200 [] (JsonVerify (mkVerifyResponse true
           (match signer with
            | Some signer => "Document verified! Signed by " +:+ u_email signer
            | None => "Document verified! Signature is valid."
            end)
           (Some true) None (Some publicKey) None None)))
       else
         ret (mkResponse 200 [] (JsonVerify (mkVerifyResponse true
           "Signature verification failed. Document may have been tampered with."
           (Some false) None (Some publicKey) None None)))
       end
     end)%M
    (fun error =>
       ret (mkResponse 500 [] (JsonVerify (mkVerifyResponse false
         "An error occurred while verifying the document."
         (Some false) None None None None)))).

End WithLibs.
End CryptoController.

(* ====================================================================== *)
(** * The path of [signDocument] up to the unwrapping of the key *)

(** Both revisions of [signDocument] begin alike: the request is checked,
    the user is fetched, the upload is normalised and hashed, and the key
    is unwrapped with the key derived from the password and the stored
    salt. The two definitions below name the requests that get that far and
    the unwrapping they then attempt. *)
Section SignPath.
Context {DBI : Mongoose} {PDF : PdfLib} {NC : NodeCrypto} {ED : Ed25519}.

Definition reaches_unwrap (req : SignRequest) (w : World)
    (file : File) (user : IUser) (normalizedPdf : bytes) : Prop :=
  sr_file req = Some file /\
  JS.truthy (sr_password req) = true /\
  mimetype file = "application/pdf" /\
  User_findById (db w) (sr_userId req) = Ret (Some user) /\
  PdfUtils.normalizePdf (buffer file) = Ret normalizedPdf.

Definition unwrap_attempt (req : SignRequest) (w : World) (user : IUser) : Exc bytes :=
  CryptoUtils.decryptPrivateKey_bytes
    (u_encryptedPrivateKey user) (u_iv user)
    (fst (CryptoUtils.deriveKeyFromPassword (random w 32)
            (sr_password req) (Some (u_salt user)))).

(** The three ways in which a run of [signDocument] ends. *)
Definition sign_exits (req : SignRequest) (w : World)
    (r : Exc Response) (f' : SignFrame) : Prop :=
  ((forall file user n, ~ reaches_unwrap req w file user n) /\ world f' = w) \/
  (exists file user n e,
     reaches_unwrap req w file user n /\
     unwrap_attempt req w user = Throw e /\
     r = Ret (sign_json 401 "Invalid password. Unable to decrypt signing key.") /\
     world f' = record_call (CallSha256 n) w) \/
  (exists file user n key,
     reaches_unwrap req w file user n /\
     unwrap_attempt req w user = Ret key /\
     heap (world f') = heap w ++ [JS.fill0 key] /\
     calls (world f') = calls w ++
       [CallSha256 n;
        CallEdSign (PdfUtils.hashPdfBuffer n) (length (heap w));
        CallFill0 (length (heap w))]).

End SignPath.

(* ====================================================================== *)
(** * Texts that the envelope codec handles without loss *)

Module Texts.

Fixpoint all_chars (p : ascii -> bool) (s : string) : bool :=
  match s with
  | EmptyString => true
  | String c r => p c && all_chars p r
  end.

(** A non-empty run of hexadecimal digits: what [toString('hex')] gives
    for a non-empty buffer. *)
Definition hex_text (s : string) : bool :=
  JS.truthy s && all_chars PdfUtils.is_hex s.



End Texts.

(* ====================================================================== *)
(** * The terminal outcomes of a verification *)

(** The five outcomes that the specification of the verification workflow
    names, read off the response a [verifyDocument] sends. A response that
    reports a malformed request or an internal error (400 without an
    envelope verdict, 500) has none of them. *)
Module Outcomes.

Inductive Outcome : Type :=
  | NotSigned
  | Valid
  | Invalid
  | Tampered
  | Unregistered.

Definition outcome_of (r : Response) : option Outcome :=
  match body r with
  | JsonVerify j =>
      match verified j with
      | Some true => if Nat.eqb (status r) 200 then Some Valid else None
      | Some false =>
          if String.eqb (message j)
               "Signature verification failed. Document may have been tampered with."
          then Some Invalid
          else if String.eqb (message j)
               "Public key mismatch. Document may have been tampered with."
          then Some Tampered
          else if String.eqb (message j)
               "Document signature not found in registry."
          then Some Unregistered
          else if String.eqb (message j)
               "This document was not signed with AegisSign."
          then Some NotSigned
          else if String.eqb (message j)
               "This document does not contain a valid AegisSign signature."
          then Some NotSigned
          else None
      | None => None
      end
  | _ => None
  end.

End Outcomes.

(* ====================================================================== *)
(** * Executable stand-ins for the packages *)

(** Small implementations of the four interfaces, on which the controllers
    run by computation. They fix nothing about the real packages; they show
    that the laws assumed above can be met and give concrete runs. *)
Module Sim.

(** ** A serialisation of [PDFDocument] *)

(** A string is written character by character, each behind a [01] byte,
    and closed by [00]. *)
Fixpoint write_string (s : string) : bytes :=
  match s with
  | EmptyString => [Init.Byte.x00]
  | String c r => Init.Byte.x01 :: byte_of_ascii c :: write_string r
  end.

Definition write_field (o : option string) : bytes :=
  match o with
  | None => [Init.Byte.x00]
  | Some s => Init.Byte.x01 :: write_string s
  end.

Definition save (d : PDFDocument) : bytes :=
  write_field (Title d) ++ write_field (Subject d) ++
  write_field (Keywords d) ++ write_field (Producer d) ++
  write_field (Creator d) ++ objects d.

Fixpoint read_string (l : bytes) : option (string * bytes) :=
  match l with
  | t :: r =>
      if Strings.Byte.eqb t Init.Byte.x00 then Some (EmptyString, r)
      else if Strings.Byte.eqb t Init.Byte.x01 then
        match r with
        | c :: r' =>
            match read_string r' with
            | Some (s, rest) => Some (String (ascii_of_byte c) s, rest)
            | None => None
            end
        | [] => None
        end
      else None
  | [] => None
  end.

Definition read_field (l : bytes) : option (option string * bytes) :=
  match l with
  | t :: r =>
      if Strings.Byte.eqb t Init.Byte.x00 then Some (None, r)
      else if Strings.Byte.eqb t Init.Byte.x01 then
        match read_string r with
        | Some (s, rest) => Some (Some s, rest)
        | None => None
        end
      else None
  | [] => None
  end.

Definition parse (l : bytes) : option PDFDocument :=
  match read_field l with
  | Some (t, l1) =>
  match read_field l1 with
  | Some (s, l2) =>
  match read_field l2 with
  | Some (k, l3) =>
  match read_field l3 with
  | Some (p, l4) =>
  match read_field l4 with
  | Some (c, l5) => Some (mkPDFDocument t s k p c l5)
  | None => None end
  | None => None end
  | None => None end
  | None => None end
  | None => None end.

(** With [updateMetadata: true] pdf-lib stamps its own name into the
    Producer entry while loading. *)
Definition load (l : bytes) (updateMetadata : bool) : Exc PDFDocument :=
  match parse l with
  | Some d => Ret (if updateMetadata then setProducer d "pdf-lib" else d)
  | None => Throw "Failed to parse PDF document"
  end.

#[export] Instance pdf : PdfLib := {|
  PDFDocument_load := load;
  PDFDocument_save := save
|}.

(** A serialiser that does not meet [load_save]: it ends the file with a
    line feed, which the parser takes for content. *)
Definition pdf_appending : PdfLib := {|
  PDFDocument_load := load;
  PDFDocument_save := fun d => save d ++ [Init.Byte.x0a]
|}.

(** ** Cryptography without secrecy *)

Definition pad32 (b : bytes) : bytes :=
  take 32 (b ++ replicate 32 Init.Byte.x00).

Fixpoint bytes_eqb (a b : bytes) : bool :=
  match a, b with
  | [], [] => true
  | x :: a', y :: b' => Strings.Byte.eqb x y && bytes_eqb a' b'
  | _, _ => false
  end.

(** The ciphertext carries the key; the tag is sixteen zero bytes. Keys
    have 32 bytes, as [aes-256-gcm] demands. *)
Definition seal (key iv pt : bytes) : Exc (bytes * bytes) :=
  if Nat.eqb (length key) 32 then Ret (key ++ pt, replicate 16 Init.Byte.x00)
  else Throw "Invalid key length".

Definition unseal (key iv ct tag : bytes) : Exc bytes :=
  if negb (Nat.eqb (length key) 32) then Throw "Invalid key length"
  else if negb (Nat.eqb (length tag) 16) then Throw "Invalid authentication tag length"
  else if bytes_eqb (take 32 ct) key && bytes_eqb tag (replicate 16 Init.Byte.x00)
  then Ret (drop 32 ct)
  else Throw "Unsupported state or unable to authenticate data".

#[export] Instance crypto : NodeCrypto := {|
  createHash_sha256 := fun data => data;
  pbkdf2Sync := fun password salt _ _ _ =>
    pad32 (list_byte_of_string password ++ salt);
  aes_256_gcm_encrypt := seal;
  aes_256_gcm_decrypt := unseal
|}.

(** The public key is the private key; a signature is the message
    followed by the key. Keys of another length than 32 are refused. *)
#[export] Instance ed : Ed25519 := {|
  ed_getPublicKey := fun sk =>
    if Nat.eqb (length sk) 32 then Ret sk else Throw "invalid private key";
  ed_sign := fun msg sk =>
    if Nat.eqb (length sk) 32 then Ret (msg ++ sk) else Throw "invalid private key";
  ed_verify := fun sig msg pk =>
    if Nat.eqb (length pk) 32 then Ret (bytes_eqb sig (msg ++ pk))
    else Throw "invalid public key"
|}.

(** ** Collections in memory *)

Record StoredDocument : Type := mkStored {
  sd_input : DocumentInput;
  sd_createdAt : N
}.

Record Store : Type := mkStore {
  users : list IUser;
  documents : list StoredDocument
}.

Definition find_user (p : IUser -> bool) (s : Store) : option IUser :=
  find p (users s).

Definition find_document (sig : string) (s : Store) : option DocumentRecord :=
  match find (fun d => String.eqb (di_signature (sd_input d)) sig) (documents s) with
  | Some d =>
      Some (mkRecord
        (match find_user (fun u => String.eqb (u_id u) (di_signer (sd_input d))) s with
         | Some u => Some (mkSigner (u_email u) (u_publicKey u))
         | None => None
         end)
        (sd_createdAt d))
  | None => None
  end.

(** The unique index on [signature] refuses a second record. *)
Definition create_document (s : Store) (i : DocumentInput) : Exc Store :=
  match find (fun d => String.eqb (di_signature (sd_input d)) (di_signature i))
             (documents s) with
  | Some _ => Throw "E11000 duplicate key error"
  | None =>
      Ret (mkStore (users s)
             (documents s ++ [mkStored i (N.of_nat (length (documents s)))]))
  end.

#[export] Instance store : Mongoose := {|
  DB := Store;
  User_findById := fun s id =>
    Ret (find_user (fun u => String.eqb (u_id u) id) s);
  User_findOne_publicKey := fun s pk =>
    Ret (find_user (fun u => String.eqb (u_publicKey u) pk) s);
  DocumentModel_findOne_signature := fun s sig => Ret (find_document sig s);
  DocumentModel_create := create_document
|}.

End Sim.


(* ====================================================================== *)
(** * A concrete run *)

(** One user, one document and the requests made with them, on the
    stand-ins: the inputs of the examples below. *)
Module Scenario.
Import Sim.

(** A document without any Info entry, and one with all five. *)
Definition bare : PDFDocument :=
  mkPDFDocument None None None None None
    [Init.Byte.x25; Init.Byte.x50; Init.Byte.x44; Init.Byte.x46].

Definition titled : PDFDocument :=
  mkPDFDocument (Some "Lease") (Some "Flat 3") (Some "lease") (Some "Writer")
    (Some "Alice")
    [Init.Byte.x25; Init.Byte.x50; Init.Byte.x44; Init.Byte.x46].

Definition bare_bytes : bytes := PDFDocument_save bare.
Definition titled_bytes : bytes := PDFDocument_save titled.

(** Alice's identity as [signup] stores it. *)
Definition rawKey : bytes := replicate 32 Init.Byte.x07.
Definition password : string := "correct horse".
Definition saltHex : string := JS.toString_hex (replicate 32 Init.Byte.xa5).
Definition nonce : bytes := replicate 12 Init.Byte.x3c.

Definition dek : bytes :=
  fst (CryptoUtils.deriveKeyFromPassword [] password (Some saltHex)).

Definition wrapped : CryptoUtils.EncryptedKey :=
  Eval vm_compute in
    match CryptoUtils.encryptPrivateKey nonce (JS.toString_hex rawKey) dek with
    | Ret e => e
    | Throw _ => CryptoUtils.mkEncryptedKey "" ""
    end.

Definition alice : IUser :=
  mkUser "u1" "alice@example.com" "$2b$12$hash"
    (JS.toString_hex rawKey)
    (CryptoUtils.ek_encryptedPrivateKey wrapped)
    (CryptoUtils.ek_iv wrapped)
    saltHex.

Definition world0 : World :=
  mkWorld (mkStore [alice] []) [] (fun n => replicate (N.to_nat n) Init.Byte.x00) [].

Definition upload (b : bytes) : File := mkFile b "application/pdf" "lease.pdf".

Definition sign_request (b : bytes) (pw : string) : SignRequest :=
  mkSignRequest "u1" (Some (upload b)) pw.

Definition verify_request (b : bytes) : VerifyRequest :=
  mkVerifyRequest (Some (upload b)).

(** The body of a response that carries a file. *)
Definition sent (r : Exc Response) : bytes :=
  match r with
  | Ret (mkResponse _ _ (Send b)) => b
  | _ => []
  end.

(** Alice signs [titled] through the registry-backed controller: the
    signed file and the world afterwards. *)
Definition signed_titled : bytes :=
  Eval vm_compute in
    sent (fst (RegistryController.signDocument (sign_request titled_bytes password)
                 (mkSignFrame world0 None))).

Definition store1 : Store :=
  Eval vm_compute in
    db (world (snd (RegistryController.signDocument
                      (sign_request titled_bytes password)
                      (mkSignFrame world0 None)))).

Definition world1 : World :=
  mkWorld store1 [] (fun n => replicate (N.to_nat n) Init.Byte.x00) [].

(** The signed file with other page content: same Info entries, same
    envelope, different [objects]. *)
Definition forged : bytes :=
  Eval vm_compute in
    match PDFDocument_load signed_titled false with
    | Ret d =>
        PDFDocument_save
          (mkPDFDocument (Title d) (Subject d) (Keywords d) (Producer d) (Creator d)
             [Init.Byte.x25; Init.Byte.x50; Init.Byte.x44; Init.Byte.x46;
              Init.Byte.x21])
    | Throw _ => []
    end.

(** What extraction yields on the signed file and on the forged one. *)
Definition no_envelope : PdfUtils.ExtractedSignatureData :=
  PdfUtils.mkExtracted "" "" [].

Definition extracted_signed : PdfUtils.ExtractedSignatureData :=
  Eval vm_compute in
    match PdfUtils.extractAndStripSignature signed_titled with
    | Ret (Some e) => e
    | _ => no_envelope
    end.

Definition extracted_forged : PdfUtils.ExtractedSignatureData :=
  Eval vm_compute in
    match PdfUtils.extractAndStripSignature forged with
    | Ret (Some e) => e
    | _ => no_envelope
    end.

(** Bob's stored key is one byte short, so that signing with it throws
    after the key has been unwrapped. *)
Definition shortKey : bytes := replicate 31 Init.Byte.x09.

Definition wrapped_short : CryptoUtils.EncryptedKey :=
  Eval vm_compute in
    match CryptoUtils.encryptPrivateKey nonce (JS.toString_hex shortKey) dek with
    | Ret e => e
    | Throw _ => CryptoUtils.mkEncryptedKey "" ""
    end.

Definition bob : IUser :=
  mkUser "u2" "bob@example.com" "$2b$12$hash"
    (JS.toString_hex shortKey)
    (CryptoUtils.ek_encryptedPrivateKey wrapped_short)
    (CryptoUtils.ek_iv wrapped_short)
    saltHex.

Definition world_bob : World :=
  mkWorld (mkStore [bob] []) [] (fun n => replicate (N.to_nat n) Init.Byte.x00) [].

Definition sign_request_bob : SignRequest :=
  mkSignRequest "u2" (Some (upload titled_bytes)) password.

Definition bob_run : Exc Response * SignFrame :=
  CryptoController.signDocument sign_request_bob (mkSignFrame world_bob None).

(** A world whose database knows nobody. *)
Definition empty_world : World :=
  mkWorld (mkStore [] []) [] (fun n => replicate (N.to_nat n) Init.Byte.x00) [].

End Scenario.

(* ====================================================================== *)
(** * More of JavaScript's strings *)

Module JSText.

(** [s.toLowerCase()] on code units below 256: the letters A-Z and the
    accented capitals of Latin-1 (all of C0-DE but the multiplication
    sign). *)
Definition lower_char (c : ascii) : ascii :=
  let n := N_of_ascii c in
  if ((65 <=? n) && (n <=? 90))%N then ascii_of_N (n + 32)
  else if ((192 <=? n) && (n <=? 222) && negb (n =? 215))%N then ascii_of_N (n + 32)
  else c.

Fixpoint toLowerCase (s : string) : string :=
  match s with
  | EmptyString => EmptyString
  | String c r => String (lower_char c) (toLowerCase r)
  end.

Fixpoint take_chars (n : nat) (s : string) : string :=
  match n, s with
  | S n', String c r => String c (take_chars n' r)
  | _, _ => EmptyString
  end.

Fixpoint drop_chars (n : nat) (s : string) : string :=
  match n, s with
  | S n', String _ r => drop_chars n' r
  | _, _ => s
  end.

(** [s.substring(start, end)]: both indices are clamped to [0, length] and
    swapped when the first is the larger. *)
Definition substring (s : string) (start stop : Z) : string :=
  let len := Z.of_nat (String.length s) in
  let a := Z.max 0 (Z.min start len) in
  let b := Z.max 0 (Z.min stop len) in
  let lo := Z.to_nat (Z.min a b) in
  let hi := Z.to_nat (Z.max a b) in
  take_chars (hi - lo) (drop_chars lo s).

(** [s.substring(start)] *)
Definition substring_from (s : string) (start : Z) : string :=
  substring s start (Z.of_nat (String.length s)).

(** The value of a run of hexadecimal digits, most significant first. *)
Fixpoint hex_number (acc : Z) (s : string) : Z :=
  match s with
  | EmptyString => acc
  | String c r =>
      match JS.hex_value c with
      | Some v => hex_number (16 * acc + Z.of_N v) r
      | None => acc
      end
  end.

(** [parseInt(s, 16)]: leading white space is skipped, then a sign, then
    [0x] or [0X], then the longest run of hexadecimal digits is read;
    [None] is NaN, the result when there is no digit. The texts parsed
    here have at most eight digits, so that the number is exact. *)
Definition parseInt16 (s : string) : option Z :=
  let s := JS.trimStart s in
  let signed :=
    match s with
    | String "-" r => (-1, r)
    | String "+" r => (1, r)
    | _ => (1, s)
    end%Z in
  let body :=
    match snd signed with
    | String "0" (String "x" r) => r
    | String "0" (String "X" r) => r
    | r => r
    end in
  match PdfUtils.span_hex body with
  | (EmptyString, _) => None
  | (digits, _) => Some (fst signed * hex_number 0 digits)%Z
  end.

End JSText.

(* ====================================================================== *)
(** * models/User.ts and models/Document.ts: the validators *)

Module Schema.

(** The patterns [/^[a-fA-F0-9]{n}$/]. *)
Definition hex_of_length (n : nat) (s : string) : bool :=
  Nat.eqb (String.length s) n && Texts.all_chars PdfUtils.is_hex s.

Definition publicKey_match : string -> bool := hex_of_length 64.
Definition iv_match : string -> bool := hex_of_length 24.
Definition salt_match : string -> bool := hex_of_length 64.
Definition hash_match : string -> bool := hex_of_length 64.
Definition signature_match : string -> bool := hex_of_length 128.

End Schema.

(* ====================================================================== *)
(** * The packages of the authentication code, as interfaces *)

(** ** bcrypt *)

Class Bcrypt : Type := {
  (** [bcrypt.hash(password, rounds)] *)
  bcrypt_hash : string -> N -> Exc string;
  (** [bcrypt.compare(password, hash)] *)
  bcrypt_compare : string -> string -> Exc bool
}.

(** ** jsonwebtoken *)

Record JwtPayload : Type := mkJwtPayload {
  jp_userId : string;
  jp_email : string
}.

(** What [jwt.verify] does: it returns the payload, which the middleware
    takes to be a [JwtPayload], or throws one of the two errors that the
    middleware tells apart ([TokenExpiredError] is tested first, being a
    [JsonWebTokenError] itself), or something else. *)
Inductive JwtVerify : Type :=
  | Decoded (p : JwtPayload)
  | TokenExpiredError
  | JsonWebTokenError
  | OtherError (e : string).

Class JsonWebToken : Type := {
  (** [jwt.sign(payload, secret, { expiresIn })] *)
  jwt_sign : JwtPayload -> string -> string -> Exc string;
  (** [jwt.verify(token, secret)] *)
  jwt_verify : string -> string -> JwtVerify;
  (** [process.env.JWT_SECRET] *)
  env_JWT_SECRET : option string
}.

(** ** mongoose: what the authentication controller asks of [User] *)

(** The argument of [new User({...})]. *)
Record UserInput : Type := mkUserInput {
  ui_email : string;
  ui_passwordHash : string;
  ui_publicKey : string;
  ui_encryptedPrivateKey : string;
  ui_iv : string;
  ui_salt : string
}.

Class UserModel {DBI : Mongoose} : Type := {
  (** [User.findOne({ email })] *)
  User_findOne_email : DB -> string -> Exc (option IUser);
  (** [new User(input).save()]: the stored document and the database
      after it, or a rejection that leaves the database as it was. *)
  User_save : DB -> UserInput -> Exc (IUser * DB)
}.

(* ====================================================================== *)
(** * authController.ts *)

Module AuthController.

Record UserResponse : Type := mkUserResponse {
  ur_id : string;
  ur_email : string;
  ur_publicKey : string
}.

Record AuthResponse : Type := mkAuthResponse {
  ar_success : bool;
  ar_message : option string;
  ar_token : option string;
  ar_user : option UserResponse
}.

Record AuthReply : Type := mkAuthReply {
  ar_status : nat;
  ar_json : AuthResponse
}.

Definition reject (code : nat) (msg : string) : AuthReply :=
  mkAuthReply code (mkAuthResponse false (Some msg) None None).

(** The body of a signup or login request; an absent field and the empty
    text are both falsy. *)
Record Credentials : Type := mkCredentials {
  c_email : string;
  c_password : string
}.

(** What the three calls of [randomBytes] during a signup return: the
    salt, the private key and the nonce. *)
Record Entropy : Type := mkEntropy {
  e_salt : bytes;
  e_key : bytes;
  e_iv : bytes
}.

Definition JWT_EXPIRES_IN : string := "7d".
Definition BCRYPT_ROUNDS : N := 12.

Section WithLibs.
Context {DBI : Mongoose} {UM : UserModel} {NC : NodeCrypto} {ED : Ed25519}
        {BC : Bcrypt} {JWT : JsonWebToken}.

Definition JWT_SECRET : string :=
  JS.or_default env_JWT_SECRET "default-secret-change-in-production".

Definition generateToken (userId email : string) : Exc string :=
  jwt_sign (mkJwtPayload userId email) JWT_SECRET JWT_EXPIRES_IN.

Definition formatUserResponse (user : IUser) : UserResponse :=
  mkUserResponse (u_id user) (u_email user) (u_publicKey user).

Definition signup (entropy : Entropy) (body : Credentials) : M World AuthReply :=
  try_catch
    (let email := c_email body in
     let password := c_password body in
     if negb (JS.truthy email) || negb (JS.truthy password) then
       ret (reject 400 "Email and password are required")
     else if (String.length password <? 8)%nat then
       ret (reject 400 "Password must be at least 8 characters long")
     else
       existingUser <- query (fun d => User_findOne_email d (JSText.toLowerCase email)) ;;
       match existingUser with
       | Some _ => ret (reject 409 "An account with this email already exists")
       | None =>
       (* Step 1 *)
       let derived := CryptoUtils.deriveKeyFromPassword (e_salt entropy) password None in
       let dek := fst derived in
       let salt := snd derived in
       (* Step 2 *)
       keys <- lift (CryptoUtils.generateKeyPair (e_key entropy)) ;;
       (* Step 3 *)
       wrapped <- lift (CryptoUtils.encryptPrivateKey (e_iv entropy)
                          (CryptoUtils.kp_privateKey keys) dek) ;;
       (* Step 4 *)
       passwordHash <- lift (bcrypt_hash password BCRYPT_ROUNDS) ;;
       (* Step 5 *)
       user <- (fun w =>
                  match User_save (db w)
                          (mkUserInput (JSText.toLowerCase email) passwordHash
                             (CryptoUtils.kp_publicKey keys)
                             (CryptoUtils.ek_encryptedPrivateKey wrapped)
                             (CryptoUtils.ek_iv wrapped) salt) with
                  | Ret (u, d) => (Ret u, set_db w d)
                  | Throw e => (Throw e, w)
                  end) ;;
       token <- lift (generateToken (u_id user) (u_email user)) ;;
       ret (mkAuthReply 201 (mkAuthResponse true
              (Some "Account created successfully. Your cryptographic identity has been generated.")
              (Some token) (Some (formatUserResponse user))))
       end)%M
    (fun errorMessage =>
       ret (reject 500 ("An error occurred during registration: " +:+ errorMessage))).

Definition login (body : Credentials) : M World AuthReply :=
  try_catch
    (let email := c_email body in
     let password := c_password body in
     if negb (JS.truthy email) || negb (JS.truthy password) then
       ret (reject 400 "Email and password are required")
     else
       user <- query (fun d => User_findOne_email d (JSText.toLowerCase email)) ;;
       match user with
       | None => ret (reject 401 "Invalid email or password")
       | Some user =>
       isPasswordValid <- lift (bcrypt_compare password (u_passwordHash user)) ;;
       if negb isPasswordValid then
         ret (reject 401 "Invalid email or password")
       else
         token <- lift (generateToken (u_id user) (u_email user)) ;;
         ret (mkAuthReply 200 (mkAuthResponse true (Some "Login successful")
                (Some token) (Some (formatUserResponse user))))
       end)%M
    (fun error => ret (reject 500 "An error occurred during login")).

Definition getProfile (userId : string) : M World AuthReply :=
  try_catch
    (user <- query (fun d => User_findById d userId) ;;
     match user with
     | None => ret (reject 404 "User not found")
     | Some user =>
         ret (mkAuthReply 200 (mkAuthResponse true None None
                (Some (formatUserResponse user))))
     end)%M
    (fun error => ret (reject 500 "An error occurred while fetching profile")).

End WithLibs.
End AuthController.

(* ====================================================================== *)
(** * middleware/auth.ts *)

Module AuthMiddleware.

(** What [authenticate] has done when it returns: called [next()], with
    [req.userId] and [req.userEmail] set, or sent a response. *)
Inductive Outcome : Type :=
  | Next (userId userEmail : string)
  | Respond (r : Response).

Section WithLibs.
Context {JWT : JsonWebToken}.

Definition JWT_SECRET : string :=
  JS.or_default env_JWT_SECRET "default-secret-change-in-production".

(** [authorization] is [req.headers.authorization]. *)
Definition authenticate (authorization : option string) : Outcome :=
  match authorization with
  | Some (String _ _ as authHeader) =>
      match JS.split " " authHeader with
      | [scheme; token] =>
          if negb (String.eqb scheme "Bearer") then
            Respond (sign_json 401 "Invalid authorization format. Use: Bearer <token>")
          else
            match jwt_verify token JWT_SECRET with
            | Decoded decoded => Next (jp_userId decoded) (jp_email decoded)
            | TokenExpiredError =>
                Respond (sign_json 401 "Token expired. Please log in again.")
            | JsonWebTokenError =>
                Respond (sign_json 401 "Invalid token. Please log in again.")
            | OtherError _ =>
                Respond (sign_json 500 "Authentication error.")
            end
      | _ => Respond (sign_json 401 "Invalid authorization format. Use: Bearer <token>")
      end
  | _ => Respond (sign_json 401 "Authentication required. Please provide a valid token.")
  end.

(** [optionalAuthenticate] calls [next()] on every path; the result is
    the pair [req.userId], [req.userEmail] it has set, if it has. *)
Definition optionalAuthenticate (authorization : option string)
    : option (string * string) :=
  match authorization with
  | Some (String _ _ as authHeader) =>
      match JS.split " " authHeader with
      | [scheme; token] =>
          if String.eqb scheme "Bearer" then
            match jwt_verify token JWT_SECRET with
            | Decoded decoded => Some (jp_userId decoded, jp_email decoded)
            | _ => None
            end
          else None
      | _ => None
      end
  | _ => None
  end.

End WithLibs.
End AuthMiddleware.

(* ====================================================================== *)
(** * routes/index.ts and the error handler of the server *)

(** multer's decision that an uploaded file is larger than
    [limits.fileSize] allows. *)
Class Multer : Type := {
  exceeds_fileSize : N -> File -> bool
}.

Module Routes.

Definition fileSize : N := 50 * 1024 * 1024.

(** [cb(null, true)] or [cb(new Error(...))] *)
Definition fileFilter (file : File) : Exc bool :=
  if String.eqb (mimetype file) "application/pdf" then Ret true
  else Throw "Only PDF files are allowed".

(** The global error handler of the server. *)
Definition errorHandler (err_message : string) : Response :=
  if String.eqb err_message "Only PDF files are allowed" then
    sign_json 400 "Only PDF files are allowed"
  else sign_json 500 "Internal server error".

(** A multipart request to one of the two document routes: the
    [Authorization] header, the part named [file] if the form has one, and
    the field [password]. *)
Record DocumentRequest : Type := mkDocumentRequest {
  authorization : option string;
  file_part : option File;
  password_field : string
}.

Section WithLibs.
Context {DBI : Mongoose} {JWT : JsonWebToken} {MU : Multer}.

(** [upload.single('file')]: the filter is asked when the part begins; a
    file it refuses with an error, or one that is too large, ends the
    request with that error, which express hands to the error handler. *)
Definition upload_single (part : option File) : Exc (option File) :=
  match part with
  | None => Ret None
  | Some file =>
      (accepted <- fileFilter file ;;
       if (accepted : bool) then
         if exceeds_fileSize fileSize file then Throw "File too large"
         else Ret (Some file)
       else Ret None)%exc
  end.

(** [router.post('/documents/sign', authenticate, upload.single('file'),
    signDocument)] *)
Definition documents_sign (signDocument : SignRequest -> M SignFrame Response)
    (req : DocumentRequest) : M SignFrame Response :=
  match AuthMiddleware.authenticate (authorization req) with
  | AuthMiddleware.Respond r => ret r
  | AuthMiddleware.Next userId _ =>
      match upload_single (file_part req) with
      | Throw e => ret (errorHandler e)
      | Ret file => signDocument (mkSignRequest userId file (password_field req))
      end
  end.

(** [router.post('/documents/verify', authenticate, upload.single('file'),
    verifyDocument)] *)
Definition documents_verify (verifyDocument : VerifyRequest -> M World Response)
    (req : DocumentRequest) : M World Response :=
  match AuthMiddleware.authenticate (authorization req) with
  | AuthMiddleware.Respond r => ret r
  | AuthMiddleware.Next _ _ =>
      match upload_single (file_part req) with
      | Throw e => ret (errorHandler e)
      | Ret file => verifyDocument (mkVerifyRequest file)
      end
  end.

End WithLibs.
End Routes.

(* ====================================================================== *)
(** * DigitalIdCard.tsx: the two helpers *)

Module DigitalIdCard.

Definition colors : list string :=
  ["from-indigo-500 to-purple-500";
   "from-cyan-500 to-blue-500";
   "from-emerald-500 to-teal-500";
   "from-amber-500 to-orange-500";
   "from-pink-500 to-rose-500"].

(** [colors[colorIndex]]: [undefined] for [NaN] and for a negative index. *)
Definition generateIdenticon (publicKey : string) : list (option string) :=
  let seed := JSText.parseInt16 (JSText.substring publicKey 0 8) in
  let colorIndex :=
    match seed with
    | Some n => Some (Z.rem n (Z.of_nat (length colors)))
    | None => None
    end in
  [match colorIndex with
   | Some i => if (i <? 0)%Z then None else colors !! Z.to_nat i
   | None => None
   end].

Definition formatPublicKey (key : string) : string :=
  if (String.length key <=? 20)%nat then key
  else JSText.substring key 0 12 +:+ "..." +:+
       JSText.substring_from key (Z.of_nat (String.length key) - 12).

End DigitalIdCard.

(* ====================================================================== *)
(** * What the authentication code relies on *)

(** [save] stores the cryptographic fields as they were given: the schema
    has setters ([lowercase], [trim]) on [email] only. *)
Class UserModelLaws {DBI : Mongoose} {UM : UserModel} : Prop := {
  save_fields : forall d i u d',
    User_save d i = Ret (u, d') ->
    u_passwordHash u = ui_passwordHash i /\
    u_publicKey u = ui_publicKey i /\
    u_encryptedPrivateKey u = ui_encryptedPrivateKey i /\
    u_iv u = ui_iv i /\
    u_salt u = ui_salt i
}.

(** Ed25519: a public key has 32 bytes, a signature is not empty, and a
    signature made with a private key verifies under its public key. *)
Class Ed25519Laws {ED : Ed25519} : Prop := {
  ed_publicKey_length : forall sk pk,
    ed_getPublicKey sk = Ret pk -> length pk = 32;
  ed_sign_nonempty : forall msg sk sig,
    ed_sign msg sk = Ret sig -> sig <> [];
  ed_verify_sign : forall msg sk pk sig,
    ed_getPublicKey sk = Ret pk ->
    ed_sign msg sk = Ret sig ->
    ed_verify sig msg pk = Ret true
}.

(* ====================================================================== *)
(** * Stand-ins for the packages of the authentication code *)

Module AuthSim.
Import Sim.

(** The hash is the password behind the cost. *)
#[export] Instance bcrypt : Bcrypt := {|
  bcrypt_hash := fun password rounds => Ret ("$2b$12$" +:+ password);
  bcrypt_compare := fun password hash =>
    Ret (String.eqb hash ("$2b$12$" +:+ password))
|}.

(** A token is the identifier, the address and the secret, separated by
    colons; the token [expired] has expired. *)
Definition verify_token (token secret : string) : JwtVerify :=
  if String.eqb token "expired" then TokenExpiredError
  else match JS.split ":" token with
       | [userId; email; s] =>
           if String.eqb s secret then Decoded (mkJwtPayload userId email)
           else JsonWebTokenError
       | _ => JsonWebTokenError
       end.

#[export] Instance jwt : JsonWebToken := {|
  jwt_sign := fun payload secret expiresIn =>
    Ret (jp_userId payload +:+ ":" +:+ jp_email payload +:+ ":" +:+ secret);
  jwt_verify := verify_token;
  env_JWT_SECRET := None
|}.

(** The identifier of the n-th user. *)
Definition user_id (n : nat) : string :=
  "u" +:+ JS.toString_hex [JS.byte_of_N (N.of_nat n)].

(** [save] runs the validators of the schema and the unique index on
    [email]. *)
Definition save_user (s : Store) (i : UserInput) : Exc (IUser * Store) :=
  let email := JS.trim (JSText.toLowerCase (ui_email i)) in
  if negb (Schema.publicKey_match (ui_publicKey i) &&
           Schema.iv_match (ui_iv i) && Schema.salt_match (ui_salt i) &&
           JS.truthy (ui_passwordHash i) && JS.truthy (ui_encryptedPrivateKey i))
  then Throw "User validation failed"
  else match find_user (fun u => String.eqb (u_email u) email) s with
       | Some _ => Throw "E11000 duplicate key error"
       | None =>
           let u := mkUser (user_id (length (users s))) email (ui_passwordHash i)
                      (ui_publicKey i) (ui_encryptedPrivateKey i) (ui_iv i)
                      (ui_salt i) in
           Ret (u, mkStore (users s ++ [u]) (documents s))
       end.

#[export] Instance users_model : @UserModel store := {|
  User_findOne_email := fun s email =>
    Ret (find_user (fun u => String.eqb (u_email u) email) s);
  User_save := save_user
|}.

(** Primitives with outputs of the real lengths: a digest of 32 bytes
    and a signature of 64. *)
Definition crypto32 : NodeCrypto := {|
  createHash_sha256 := pad32;
  pbkdf2Sync := fun password salt _ _ _ =>
    pad32 (list_byte_of_string password ++ salt);
  aes_256_gcm_encrypt := seal;
  aes_256_gcm_decrypt := unseal
|}.

Definition ed64 : Ed25519 := {|
  ed_getPublicKey := fun sk =>
    if Nat.eqb (length sk) 32 then Ret sk else Throw "invalid private key";
  ed_sign := fun msg sk =>
    if Nat.eqb (length sk) 32 then Ret (pad32 msg ++ sk)
    else Throw "invalid private key";
  ed_verify := fun sig msg pk =>
    if Nat.eqb (length pk) 32 then Ret (bytes_eqb sig (pad32 msg ++ pk))
    else Throw "invalid public key"
|}.

(** A file is too large when it has more bytes than the limit. *)
#[export] Instance multer : Multer := {|
  exceeds_fileSize := fun limit file => (limit <? N.of_nat (length (buffer file)))%N
|}.

End AuthSim.

(** One registration on the stand-ins. *)
Module AuthScenario.
Import Sim AuthSim.

Definition entropy : AuthController.Entropy :=
  AuthController.mkEntropy (replicate 32 Init.Byte.xa5) Scenario.rawKey Scenario.nonce.

Definition credentials : AuthController.Credentials :=
  AuthController.mkCredentials "Carol@Example.com" "correct horse".

Definition registration : Exc AuthController.AuthReply * World :=
  AuthController.signup entropy credentials Scenario.empty_world.

Definition registered : AuthController.AuthReply :=
  Eval vm_compute in
    match fst registration with
    | Ret reply => reply
    | Throw _ => AuthController.reject 500 ""
    end.

Definition store_carol : Store :=
  Eval vm_compute in db (snd registration).

Definition world_carol : World :=
  mkWorld store_carol [] (fun n => replicate (N.to_nat n) Init.Byte.x00) [].

Definition carol : IUser :=
  Eval vm_compute in
    match users store_carol with
    | u :: _ => u
    | [] => Scenario.alice
    end.

Definition token_carol : string :=
  Eval vm_compute in
    match fst registration with
    | Ret reply => JS.or_default (AuthController.ar_token (AuthController.ar_json reply)) ""
    | Throw _ => ""
    end.

(** What Alice is answered when she signs [titled] through the
    registry-backed controller, on the stand-ins of [Sim] and on the
    primitives with outputs of the real lengths. *)
Definition alice_signed : Response :=
  Eval vm_compute in
    match fst (RegistryController.signDocument
                 (Scenario.sign_request Scenario.titled_bytes Scenario.password)
                 (mkSignFrame Scenario.world0 None)) with
    | Ret r => r
    | Throw _ => sign_json 500 ""
    end.

Definition alice_signed32 : Response :=
  Eval vm_compute in
    match fst (RegistryController.signDocument (NC := crypto32) (ED := ed64)
                 (Scenario.sign_request Scenario.titled_bytes Scenario.password)
                 (mkSignFrame Scenario.world0 None)) with
    | Ret r => r
    | Throw _ => sign_json 500 ""
    end.

(** A request to a document route with Carol's token and a picture. *)
Definition picture_request : Routes.DocumentRequest :=
  Routes.mkDocumentRequest (Some ("Bearer " +:+ token_carol))
    (Some (mkFile [] "image/png" "scan.png")) "correct horse".

(** A document whose Keywords are separated by a comma. *)
Definition listed : PDFDocument :=
  mkPDFDocument (Some "Lease") (Some "Flat 3") (Some "lease, flat") (Some "Writer")
    (Some "Alice")
    [Init.Byte.x25; Init.Byte.x50; Init.Byte.x44; Init.Byte.x46].

End AuthScenario.

(* ====================================================================== *)
(** * Properties *)

(** ** Buffers and hexadecimal text *)

Module JSFacts.

Lemma Buffer_from_hex_byte (x : byte) (r : string) :
  JS.Buffer_from_hex
    (String (JS.hex_digit (Strings.Byte.to_N x / 16))
       (String (JS.hex_digit (Strings.Byte.to_N x mod 16)) r))
  = x :: JS.Buffer_from_hex r.
Proof. destruct x; reflexivity. Qed.

(** Decoding what [toString('hex')] wrote gives the bytes back. *)
Lemma Buffer_from_hex_toString (b : bytes) :
  JS.Buffer_from_hex (JS.toString_hex b) = b.
Proof.
  induction b as [|x b IH]; [reflexivity|].
  cbn [JS.toString_hex]. rewrite Buffer_from_hex_byte. by rewrite IH.
Qed.

(** Decoding stops at the first pair that is not hexadecimal and drops a
    trailing odd digit; upper-case digits are accepted. *)
Example Buffer_from_hex_stops :
  JS.Buffer_from_hex "AB0fzz12" = [Init.Byte.xab; Init.Byte.x0f] /\
  JS.Buffer_from_hex "abc" = [Init.Byte.xab].
Proof. split; reflexivity. Qed.

(** On a buffer shorter than a tag, [length - 16] is negative and counts
    from the end: the "tag" is the whole buffer, the "data" is empty. *)
Example subarray_short_buffer :
  JS.subarray_from [Init.Byte.x01; Init.Byte.x02; Init.Byte.x03] (3 - 16)
    = [Init.Byte.x01; Init.Byte.x02; Init.Byte.x03] /\
  JS.subarray [Init.Byte.x01; Init.Byte.x02; Init.Byte.x03] 0 (3 - 16) = [].
Proof. split; reflexivity. Qed.

Example split_then_trim :
  map JS.trim (JS.split "," "a, b ,,c ") = ["a"; "b"; ""; "c"] /\
  JS.split "," "" = [""].
Proof. split; reflexivity. Qed.

Example replace_first_only :
  JS.replace ".pdf" "_signed.pdf" "scan.pdf.pdf" = "scan_signed.pdf.pdf".
Proof. reflexivity. Qed.

(** The leftmost match wins, and its digits run as far as they can. *)
Example regexp_exec_leftmost :
  PdfUtils.regexp_exec "AegisSign_Signature"
    "pdf-lib||AegisSign_Signature:||AegisSign_Signature:12abXY||AegisSign_Signature:99"
  = Some (PdfUtils.mkMatch "pdf-lib||AegisSign_Signature:" "12ab"
            "XY||AegisSign_Signature:99").
Proof. reflexivity. Qed.

Lemma clamp_index_nonneg (len i : Z) :
  (0 <= i <= len)%Z -> JS.clamp_index len i = Z.to_nat i.
Proof.
  intros Hi. unfold JS.clamp_index.
  destruct (Z.ltb_spec i 0); [lia|]. f_equal. lia.
Qed.

(** The last [n] bytes, when the buffer has that many. *)
Lemma subarray_from_app (a t : bytes) :
  JS.subarray_from (a ++ t) (Z.of_nat (length (a ++ t)) - Z.of_nat (length t)) = t.
Proof.
  unfold JS.subarray_from, JS.subarray.
  rewrite !clamp_index_nonneg by (rewrite length_app; lia).
  rewrite length_app.
  replace (Z.to_nat (Z.of_nat (length a + length t) - Z.of_nat (length t)))
    with (length a) by lia.
  rewrite drop_app_length. rewrite Nat2Z.id.
  apply take_ge. lia.
Qed.

(** Everything but the last [n] bytes. *)
Lemma subarray_0_app (a t : bytes) :
  JS.subarray (a ++ t) 0 (Z.of_nat (length (a ++ t)) - Z.of_nat (length t)) = a.
Proof.
  unfold JS.subarray.
  rewrite !clamp_index_nonneg by (rewrite length_app; lia).
  rewrite length_app.
  replace (Z.to_nat (Z.of_nat (length a + length t) - Z.of_nat (length t)))
    with (length a) by lia.
  cbn [Z.to_nat drop]. rewrite Nat.sub_0_r. apply take_app_length.
Qed.

Lemma fill0_length (b : bytes) : length (JS.fill0 b) = length b.
Proof. unfold JS.fill0. apply length_replicate. Qed.

Lemma fill0_all_zero (b : bytes) : Forall (fun x => x = Init.Byte.x00) (JS.fill0 b).
Proof. unfold JS.fill0. apply Forall_replicate. reflexivity. Qed.

Lemma fill0_idemp (b : bytes) : JS.fill0 (JS.fill0 b) = JS.fill0 b.
Proof. unfold JS.fill0. by rewrite length_replicate. Qed.

End JSFacts.

(** ** The stand-ins meet the laws *)

Module SimFacts.

Lemma read_write_string (s : string) (rest : bytes) :
  Sim.read_string (Sim.write_string s ++ rest) = Some (s, rest).
Proof.
  induction s as [|c s IH]; [reflexivity|].
  cbn. rewrite IH. by rewrite ascii_of_byte_of_ascii.
Qed.

Lemma read_write_field (o : option string) (rest : bytes) :
  Sim.read_field (Sim.write_field o ++ rest) = Some (o, rest).
Proof.
  destruct o as [s|]; [|reflexivity].
  cbn. by rewrite read_write_string.
Qed.

Lemma parse_save (d : PDFDocument) : Sim.parse (Sim.save d) = Some d.
Proof.
  destruct d as [t s k p c o]. unfold Sim.parse, Sim.save. cbn [Title Subject Keywords Producer Creator objects].
  by rewrite !read_write_field.
Qed.

#[export] Instance pdf_laws : @PdfLibLaws Sim.pdf.
Proof.
  constructor. intros d. cbn. unfold Sim.load. by rewrite parse_save.
Qed.

Lemma bytes_eqb_eq (a b : bytes) : Sim.bytes_eqb a b = true <-> a = b.
Proof.
  revert b. induction a as [|x a IH]; intros [|y b]; cbn; try (split; congruence).
  rewrite andb_true_iff, IH. split.
  - intros [Hx ->]. by rewrite (Strings.Byte.byte_dec_bl _ _ Hx).
  - intros [= -> ->]. split; [by apply Strings.Byte.byte_dec_lb | done].
Qed.

Lemma seal_inv (key iv pt ct tag : bytes) :
  Sim.seal key iv pt = Ret (ct, tag) ->
  length key = 32 /\ ct = key ++ pt /\ tag = replicate 16 Init.Byte.x00.
Proof.
  unfold Sim.seal. destruct (Nat.eqb_spec (length key) 32); [|discriminate].
  intros [= <- <-]. done.
Qed.

Lemma take_drop_key (key pt : bytes) :
  length key = 32 -> take 32 (key ++ pt) = key /\ drop 32 (key ++ pt) = pt.
Proof.
  intros <-. split; [apply take_app_length | apply drop_app_length].
Qed.

#[export] Instance crypto_laws : @NodeCryptoLaws Sim.crypto.
Proof.
  constructor; cbn.
  - intros key iv pt ct tag (_ & _ & ->)%seal_inv. reflexivity.
  - intros key iv pt ct tag (Hk & -> & ->)%seal_inv.
    destruct (take_drop_key key pt Hk) as [Ht Hd].
    unfold Sim.unseal. rewrite Hk, Ht, Hd. cbn [Nat.eqb negb length replicate].
    by rewrite !(proj2 (bytes_eqb_eq _ _) eq_refl).
  - intros key key' iv pt ct tag (Hk & -> & ->)%seal_inv Hne.
    destruct (take_drop_key key pt Hk) as [Ht Hd].
    unfold Sim.unseal. rewrite Ht.
    destruct (Nat.eqb_spec (length key') 32) as [Hk'|]; cbn [negb]; [|eauto].
    destruct (Sim.bytes_eqb key key') eqn:E.
    + apply bytes_eqb_eq in E. congruence.
    + cbn. eauto.
Qed.

End SimFacts.

(** ** The signature engine: [verifySignature] *)

Section VerifySignature.
Context {ED : Ed25519}.

Lemma verifySignature_eq (signature : string) (hash : bytes) (publicKey : string) :
  CryptoUtils.verifySignature signature hash publicKey =
  Ret (match ed_verify (JS.Buffer_from_hex signature) hash
               (JS.Buffer_from_hex publicKey) with
       | Ret b => b
       | Throw _ => false
       end).
Proof.
  unfold CryptoUtils.verifySignature, exc_catch.
  by destruct (ed_verify _ _ _).
Qed.

Lemma verifySignature_total (signature : string) (hash : bytes) (publicKey : string) :
  exists b, CryptoUtils.verifySignature signature hash publicKey = Ret b.
Proof. rewrite verifySignature_eq. eauto. Qed.

(** C6. For every signature text, digest and public-key text, well formed
    or not, [verifySignature] returns a boolean and does not throw: it
    returns what [ed.verify] returns on the decoded buffers, and [false]
    whenever [ed.verify] throws. *)
Theorem C6_verifySignature_returns_boolean :
  forall (signature : string) (hash : bytes) (publicKey : string),
    exists b : bool,
      CryptoUtils.verifySignature signature hash publicKey = Ret b /\
      b = match ed_verify (JS.Buffer_from_hex signature) hash
                  (JS.Buffer_from_hex publicKey) with
          | Ret r => r
          | Throw _ => false
          end.
Proof.
  intros signature hash publicKey. eexists. split; [apply verifySignature_eq | done].
Qed.

End VerifySignature.

(** A key text that is not hexadecimal decodes to the empty buffer, the
    stand-in for [ed.verify] throws on it, and the answer is [false]. *)
Example verifySignature_malformed :
  ed_verify (Ed25519 := Sim.ed) (JS.Buffer_from_hex "zz") [] (JS.Buffer_from_hex "not hex")
    = Throw "invalid public key" /\
  CryptoUtils.verifySignature (ED := Sim.ed) "zz" [] "not hex" = Ret false.
Proof. split; reflexivity. Qed.

(** ** The canonicalizer and the envelope codec *)

Section Envelope.
Context {PDF : PdfLib}.

Lemma normalizePdf_inv (x c : bytes) :
  PdfUtils.normalizePdf x = Ret c ->
  exists d, PDFDocument_load x false = Ret d /\ c = PDFDocument_save d.
Proof.
  unfold PdfUtils.normalizePdf, exc_bind.
  destruct (PDFDocument_load x false) as [d|e]; [|discriminate].
  intros [= <-]. eauto.
Qed.

(** What [injectSignature] saves, entry by entry. *)
Lemma injectSignature_saves (pdfBuffer : bytes) (d : PDFDocument) (s k : string) :
  PDFDocument_load pdfBuffer false = Ret d ->
  exists d',
    PdfUtils.injectSignature pdfBuffer s k = Ret (PDFDocument_save d') /\
    getTitle d' = Some (JS.or_default (getTitle d) "Signed Document") /\
    getSubject d' = Some (JS.or_default (getSubject d) "") /\
    getProducer d' =
      Some (JS.or_default (getProducer d) "" +:+ "||AegisSign_Signature:" +:+ s) /\
    getCreator d' =
      Some (JS.or_default (getCreator d) "" +:+ "||AegisSign_Owner:" +:+ k) /\
    objects d' = objects d.
Proof.
  intros Hload. unfold PdfUtils.injectSignature, exc_bind. rewrite Hload.
  eexists. split; [reflexivity|]. cbn. done.
Qed.

(** What [extractAndStripSignature] saves when it finds an envelope: the
    Title stays as it was loaded. *)
Lemma extractAndStripSignature_keeps_title (signedBytes : bytes) (d : PDFDocument)
    (e : PdfUtils.ExtractedSignatureData) :
  PDFDocument_load signedBytes false = Ret d ->
  PdfUtils.extractAndStripSignature signedBytes = Ret (Some e) ->
  exists d', PdfUtils.strippedPdfBuffer e = PDFDocument_save d' /\
             getTitle d' = getTitle d.
Proof.
  intros Hload. unfold PdfUtils.extractAndStripSignature, exc_bind. rewrite Hload.
  destruct (PdfUtils.regexp_exec PdfUtils.SIGNATURE_KEY _) as [sm|]; [|discriminate].
  destruct (PdfUtils.regexp_exec PdfUtils.OWNER_KEY _) as [pm|]; [|discriminate].
  intros [= <-]. eexists. split; [reflexivity|]. reflexivity.
Qed.

(** C3 (as amended). For every parsable document, signature text and key
    text, [injectSignature] saves a document whose Producer entry is the
    previous Producer value (the empty string when there was none) followed
    by [||AegisSign_Signature:] and the signature, and whose Creator entry
    is the previous Creator value followed by [||AegisSign_Owner:] and the
    public key. *)
Theorem C3_envelope_tokens :
  forall (pdfBuffer : bytes) (d : PDFDocument) (s k : string),
    PDFDocument_load pdfBuffer false = Ret d ->
    exists d',
      PdfUtils.injectSignature pdfBuffer s k = Ret (PDFDocument_save d') /\
      getProducer d' =
        Some (JS.or_default (getProducer d) "" +:+ "||AegisSign_Signature:" +:+ s) /\
      getCreator d' =
        Some (JS.or_default (getCreator d) "" +:+ "||AegisSign_Owner:" +:+ k).
Proof.
  intros pdfBuffer d s k Hload.
  destruct (injectSignature_saves pdfBuffer d s k Hload)
    as (d' & Hinj & _ & _ & Hp & Hc & _).
  eauto.
Qed.

Context {LAWS : PdfLibLaws}.

Lemma save_inj (d1 d2 : PDFDocument) :
  PDFDocument_save d1 = PDFDocument_save d2 -> d1 = d2.
Proof.
  intros Heq. pose proof (load_save d1) as H1. rewrite Heq, load_save in H1.
  congruence.
Qed.

Lemma normalizePdf_fixed (x c : bytes) :
  PdfUtils.normalizePdf x = Ret c -> PdfUtils.normalizePdf c = Ret c.
Proof.
  intros (d & _ & ->)%normalizePdf_inv.
  unfold PdfUtils.normalizePdf, exc_bind. by rewrite load_save.
Qed.

(** C8. Canonicalisation is idempotent: when [normalizePdf] turns the
    parsable bytes [x] into [c], it turns [c] into [c] byte for byte, so
    that normalising twice is normalising once. *)
Theorem C8_normalizePdf_idempotent :
  forall (x c : bytes),
    PdfUtils.normalizePdf x = Ret c ->
    PdfUtils.normalizePdf c = Ret c /\
    exc_bind (PdfUtils.normalizePdf x) PdfUtils.normalizePdf = PdfUtils.normalizePdf x.
Proof.
  intros x c Hx. split; [by eapply normalizePdf_fixed|].
  rewrite Hx. cbn. by eapply normalizePdf_fixed.
Qed.

Lemma roundtrip_sets_title (d : PDFDocument) (s k : string)
    (e : PdfUtils.ExtractedSignatureData) :
  exc_bind (PdfUtils.injectSignature (PDFDocument_save d) s k)
     PdfUtils.extractAndStripSignature = Ret (Some e) ->
  exists d', PdfUtils.strippedPdfBuffer e = PDFDocument_save d' /\
             getTitle d' = Some (JS.or_default (getTitle d) "Signed Document").
Proof.
  destruct (injectSignature_saves (PDFDocument_save d) d s k (load_save d))
    as (d1 & -> & Ht & _).
  cbn [exc_bind]. intros Hex.
  destruct (extractAndStripSignature_keeps_title _ d1 e (load_save d1) Hex)
    as (d2 & Hs & Ht2).
  exists d2. split; [done|]. by rewrite Ht2.
Qed.

(** C2 (the code at its failing inputs). For a canonical document that has
    no Title entry, whatever the signature and the key, embedding and then
    extracting and stripping does not give back the signature, the key and
    the canonical bytes: the Title that [injectSignature] wrote stays. *)
Theorem C2_roundtrip_fails_without_title :
  forall (d : PDFDocument) (s k : string),
    getTitle d = None ->
    exc_bind (PdfUtils.injectSignature (PDFDocument_save d) s k)
       PdfUtils.extractAndStripSignature
    <> Ret (Some (PdfUtils.mkExtracted s k (PDFDocument_save d))).
Proof.
  intros d s k Hnone Hrt.
  destruct (roundtrip_sets_title d s k _ Hrt) as (d' & Hs & Ht).
  cbn in Hs. apply save_inj in Hs. subst d'.
  rewrite Hnone in Ht. discriminate.
Qed.

End Envelope.

(** ** When the round trip does hold *)

Section EnvelopeRoundTrip.
Context {PDF : PdfLib} {LAWS : PdfLibLaws}.

Lemma append_cons (x : ascii) (a b : string) : String x a +:+ b = String x (a +:+ b).
Proof. reflexivity. Qed.

Lemma append_empty_l (b : string) : "" +:+ b = b.
Proof. reflexivity. Qed.

Lemma append_assoc (a b c : string) : (a +:+ b) +:+ c = a +:+ (b +:+ c).
Proof.
  induction a as [|x a IH]; [done|].
  by rewrite !append_cons, IH.
Qed.


Lemma strip_prefix_app (p r : string) : JS.strip_prefix p (p +:+ r) = Some r.
Proof.
  induction p as [|x p IH]; [by destruct r|].
  rewrite append_cons. cbn. by rewrite Ascii.eqb_refl.
Qed.

Lemma span_hex_all (s : string) :
  Texts.all_chars PdfUtils.is_hex s = true -> PdfUtils.span_hex s = (s, "").
Proof.
  induction s as [|c s IH]; cbn; [done|].
  intros [Hc Hs]%andb_true_iff. rewrite Hc, (IH Hs). done.
Qed.

Lemma or_default_empty (x : string) : JS.or_default (Some x) "" = x.
Proof. by destruct x. Qed.







End EnvelopeRoundTrip.

Section EnvelopeRuns.
Import Sim SimFacts.

(** On the stand-in, for the document without Info entries. *)
Lemma C3_envelope_tokens_witness :
  PDFDocument_load Scenario.bare_bytes false = Ret Scenario.bare /\
  exists d',
    PdfUtils.injectSignature Scenario.bare_bytes "ab" "cd"
      = Ret (PDFDocument_save d') /\
    getProducer d' = Some "||AegisSign_Signature:ab" /\
    getCreator d' = Some "||AegisSign_Owner:cd".
Proof.
  split; [reflexivity|].
  apply (C3_envelope_tokens Scenario.bare_bytes Scenario.bare "ab" "cd").
  reflexivity.
Defined.

(** C3 as worded fails: the tokens that [injectSignature] writes do not
    carry the tags [SIG:] and [KEY:]. *)
Lemma C3_tags_are_not_SIG_KEY :
  exists (out : bytes) (d' : PDFDocument),
    PdfUtils.injectSignature Scenario.bare_bytes "ab" "cd" = Ret out /\
    PDFDocument_load out false = Ret d' /\
    getProducer d' = Some "||AegisSign_Signature:ab" /\
    getProducer d' <> Some ("" +:+ "||SIG:" +:+ "ab") /\
    getCreator d' = Some "||AegisSign_Owner:cd" /\
    getCreator d' <> Some ("" +:+ "||KEY:" +:+ "cd").
Proof.
  eexists. eexists. split; [reflexivity|]. split; [vm_compute; reflexivity|].
  cbn. repeat split; discriminate.
Qed.

Lemma C8_normalizePdf_idempotent_witness :
  PdfUtils.normalizePdf Scenario.titled_bytes = Ret Scenario.titled_bytes /\
  PdfUtils.normalizePdf Scenario.titled_bytes = Ret Scenario.titled_bytes /\
  exc_bind (PdfUtils.normalizePdf Scenario.titled_bytes)
    (PdfUtils.normalizePdf)
  = PdfUtils.normalizePdf Scenario.titled_bytes.
Proof.
  split; [reflexivity|].
  apply (C8_normalizePdf_idempotent
           Scenario.titled_bytes Scenario.titled_bytes).
  reflexivity.
Defined.

(** Idempotence is a property of the serialiser: with one that does not
    meet [load_save], normalising twice differs from normalising once. *)
Example normalizePdf_needs_load_save :
  exists c,
    PdfUtils.normalizePdf (PDF := pdf_appending) Scenario.bare_bytes = Ret c /\
    PdfUtils.normalizePdf (PDF := pdf_appending) c <> Ret c.
Proof. eexists. split; [vm_compute; reflexivity | vm_compute; discriminate]. Qed.

Lemma C2_roundtrip_fails_without_title_witness :
  getTitle Scenario.bare = None /\
  exc_bind (PdfUtils.injectSignature
              (PDFDocument_save Scenario.bare) "ab" "cd")
     (PdfUtils.extractAndStripSignature)
  <> Ret (Some (PdfUtils.mkExtracted "ab" "cd"
                  (PDFDocument_save Scenario.bare))).
Proof.
  split; [reflexivity|].
  apply (C2_roundtrip_fails_without_title
           Scenario.bare "ab" "cd").
  reflexivity.
Defined.

(** The same run, computed: the signature and the key come back, the
    stripped document has gained a Title, a Subject, Keywords, a Producer
    and a Creator that the canonical document did not have. *)
Example roundtrip_bare :
  exists e,
    exc_bind (PdfUtils.injectSignature Scenario.bare_bytes "ab" "cd")
      (PdfUtils.extractAndStripSignature) = Ret (Some e) /\
    PdfUtils.signature e = "ab" /\ PdfUtils.publicKey e = "cd" /\
    PDFDocument_load (PdfUtils.strippedPdfBuffer e) false =
      Ret (mkPDFDocument (Some "Signed Document") (Some "") (Some "") (Some "") (Some "")
             (objects Scenario.bare)) /\
    PdfUtils.strippedPdfBuffer e <> Scenario.bare_bytes.
Proof.
  eexists. split; [vm_compute; reflexivity|]. cbn [PdfUtils.signature PdfUtils.publicKey PdfUtils.strippedPdfBuffer].
  repeat split; discriminate.
Qed.

(** On the stand-in, a document that already has every entry does
    round-trip. *)
Example roundtrip_titled :
  exc_bind (PdfUtils.injectSignature Scenario.titled_bytes "ab" "cd")
    (PdfUtils.extractAndStripSignature)
  = Ret (Some (PdfUtils.mkExtracted "ab" "cd" Scenario.titled_bytes)).
Proof. vm_compute. reflexivity. Qed.

(** A document that already carries an envelope keeps it: after a second
    embedding, extraction finds the first token, returns the earlier
    signature and key, and leaves the new token in the stripped bytes. *)
Example roundtrip_already_signed :
  exists e,
    exc_bind (PdfUtils.injectSignature Scenario.signed_titled "ab" "cd")
      PdfUtils.extractAndStripSignature = Ret (Some e) /\
    PdfUtils.signature e = PdfUtils.signature Scenario.extracted_signed /\
    PdfUtils.signature e <> "ab" /\
    PdfUtils.publicKey e <> "cd" /\
    PdfUtils.strippedPdfBuffer e <> Scenario.signed_titled.
Proof.
  eexists. split; [vm_compute; reflexivity|].
  split; [vm_compute; reflexivity|].
  repeat split; vm_compute; discriminate.
Qed.

End EnvelopeRuns.

(** ** Running the controllers *)

(** Unfolds the monad and the state operations. *)
Ltac run :=
  unfold try_catch, bind, in_world, query, update, lift, traced, ret, alloc,
    get_privateKeyBytes, set_privateKeyBytes,
    CryptoUtils.decryptPrivateKey, CryptoUtils.signHash, CryptoUtils.secureWipe in *.

Lemma heap_alloc_lookup (h : list bytes) (k : bytes) :
  (h ++ [k]) !! length h = Some k.
Proof. by rewrite lookup_app_r, Nat.sub_diag. Qed.

Lemma heap_alloc_alter (h : list bytes) (k : bytes) (f : bytes -> bytes) :
  alter f (length h) (h ++ [k]) = h ++ [f k].
Proof. rewrite alter_app_r_alt by lia. by rewrite Nat.sub_diag. Qed.

Section SignDocument.
Context {DBI : Mongoose} {PDF : PdfLib} {NC : NodeCrypto} {ED : Ed25519}.

(** The file, the user and the normalised bytes of a request are
    determined by the request and the world. *)
Lemma reaches_unwrap_fun (req : SignRequest) (w : World)
    (file file' : File) (user user' : IUser) (n n' : bytes) :
  reaches_unwrap req w file user n -> reaches_unwrap req w file' user' n' ->
  file = file' /\ user = user' /\ n = n'.
Proof.
  intros (Hf & _ & _ & Hu & Hn) (Hf' & _ & _ & Hu' & Hn').
  rewrite Hf in Hf'. injection Hf' as <-.
  rewrite Hu in Hu'. injection Hu' as <-.
  rewrite Hn in Hn'. injection Hn' as <-. done.
Qed.

(** [decryptPrivateKey] puts the key it unwrapped into a new array. *)
Lemma decryptPrivateKey_allocates (enc iv : string) (dek key : bytes) (w : World) :
  CryptoUtils.decryptPrivateKey_bytes enc iv dek = Ret key ->
  CryptoUtils.decryptPrivateKey enc iv dek w =
    (Ret (length (heap w)), set_heap w (heap w ++ [key])).
Proof. intros Hk. run. by rewrite Hk. Qed.

Lemma decryptPrivateKey_throws (enc iv : string) (dek : bytes) (e : string) (w : World) :
  CryptoUtils.decryptPrivateKey_bytes enc iv dek = Throw e ->
  CryptoUtils.decryptPrivateKey enc iv dek w = (Throw e, w).
Proof. intros Hk. run. by rewrite Hk. Qed.

Ltac early :=
  intros; simplify_eq/=;
  split; [eauto | left; split; [intros ? ? ? (?&?&?&?&?); simplify_eq/=; congruence | done]].

Lemma registry_signDocument_exits (req : SignRequest) (w : World)
    (r : Exc Response) (f' : SignFrame) :
  RegistryController.signDocument req (mkSignFrame w None) = (r, f') ->
  (exists resp, r = Ret resp) /\ sign_exits req w r f'.
Proof.
  unfold RegistryController.signDocument, sign_exits, reaches_unwrap, unwrap_attempt. run.
  cbn -[String.eqb].
  destruct (sr_file req) as [file|] eqn:Hfile; [|early].
  destruct (JS.truthy (sr_password req)) eqn:Hpw; [|early].
  destruct (String.eqb_spec (mimetype file) "application/pdf") as [Hm|]; [|early].
  cbn -[String.eqb].
  destruct (User_findById _ _) as [[user|]|] eqn:Huser; [|early..].
  destruct (PdfUtils.normalizePdf _) as [n|] eqn:Hn; [|early].
  cbn -[String.eqb].
  destruct (CryptoUtils.decryptPrivateKey_bytes _ _ _) as [key|e] eqn:Hd.
  - cbn -[String.eqb]. rewrite heap_alloc_lookup. cbn -[String.eqb].
    intros Hrun. split.
    + repeat (case_match; simplify_eq/=); eauto.
    + right; right. exists file, user, n, key.
      repeat (case_match; simplify_eq/=);
        rewrite ?heap_alloc_alter, <- ?app_assoc; done.
  - intros; simplify_eq/=. split; [eauto|].
    right; left. exists file, user, n, e. done.
Qed.

Lemma crypto_signDocument_exits (req : SignRequest) (w : World)
    (r : Exc Response) (f' : SignFrame) :
  CryptoController.signDocument req (mkSignFrame w None) = (r, f') ->
  (exists resp, r = Ret resp) /\ sign_exits req w r f'.
Proof.
  unfold CryptoController.signDocument, sign_exits, reaches_unwrap, unwrap_attempt. run.
  cbn -[String.eqb].
  destruct (sr_file req) as [file|] eqn:Hfile; [|early].
  destruct (JS.truthy (sr_password req)) eqn:Hpw; [|early].
  destruct (String.eqb_spec (mimetype file) "application/pdf") as [Hm|]; [|early].
  cbn -[String.eqb].
  destruct (User_findById _ _) as [[user|]|] eqn:Huser; [|early..].
  destruct (PdfUtils.normalizePdf _) as [n|] eqn:Hn; [|early].
  cbn -[String.eqb].
  destruct (CryptoUtils.decryptPrivateKey_bytes _ _ _) as [key|e] eqn:Hd.
  - cbn -[String.eqb]. rewrite heap_alloc_lookup. cbn -[String.eqb].
    intros Hrun. split.
    + repeat (case_match; simplify_eq/=); eauto.
    + right; right. exists file, user, n, key.
      repeat (case_match; simplify_eq/=);
        rewrite ?heap_alloc_alter, <- ?app_assoc; done.
  - intros; simplify_eq/=. split; [eauto|].
    right; left. exists file, user, n, e. done.
Qed.

End SignDocument.

(** ** Zeroization of the unwrapped key *)

Section Zeroization.
Context {DBI : Mongoose} {PDF : PdfLib} {NC : NodeCrypto} {ED : Ed25519}.

Lemma sign_exits_key_wiped (req : SignRequest) (w : World)
    (r : Exc Response) (f' : SignFrame)
    (file : File) (user : IUser) (n key : bytes) :
  sign_exits req w r f' ->
  reaches_unwrap req w file user n ->
  unwrap_attempt req w user = Ret key ->
  heap (world f') !! length (heap w) = Some (JS.fill0 key) /\
  In (CallFill0 (length (heap w))) (calls (world f')).
Proof.
  intros [[Hno _] | [(file' & user' & n' & e & Hr & Hu & _) |
                     (file' & user' & n' & key' & Hr & Hu & Hheap & Hcalls)]] Hreach Hkey.
  - by destruct (Hno file user n).
  - destruct (reaches_unwrap_fun _ _ _ _ _ _ _ _ Hreach Hr) as (_ & <- & _). congruence.
  - destruct (reaches_unwrap_fun _ _ _ _ _ _ _ _ Hreach Hr) as (_ & <- & _).
    assert (key' = key) as -> by congruence.
    rewrite Hheap, Hcalls. split; [apply heap_alloc_lookup|].
    apply in_or_app. right. cbn. auto.
Qed.

Lemma sign_exits_new_buffers_zero (req : SignRequest) (w : World)
    (r : Exc Response) (f' : SignFrame) (l : nat) (b : bytes) :
  sign_exits req w r f' ->
  heap w !! l = None ->
  heap (world f') !! l = Some b ->
  b = JS.fill0 b /\ In (CallFill0 l) (calls (world f')).
Proof.
  intros [[_ ->] | [(file' & user' & n' & e & _ & _ & _ & ->) |
                    (file' & user' & n' & key' & _ & _ & Hheap & Hcalls)]] Hnew Hb.
  - congruence.
  - cbn in Hb. congruence.
  - rewrite Hheap in Hb. apply lookup_ge_None in Hnew.
    assert (l = length (heap w)) as ->.
    { apply lookup_lt_Some in Hb. rewrite length_app in Hb. cbn in Hb. lia. }
    rewrite heap_alloc_lookup in Hb. injection Hb as <-.
    rewrite JSFacts.fill0_idemp. split; [done|].
    rewrite Hcalls. apply in_or_app. right. cbn. auto.
Qed.

(** C5. Every run of [signDocument], in either revision, returns a
    response and does not throw; and whenever the run got as far as
    unwrapping the key and the unwrapping succeeded, so that the raw key
    was put into a new array, then when the handler returns that array
    holds zeros only and [fill(0)] has been called on it, whether the rest
    of the run succeeded or threw. No other array is created by the run:
    every array that exists when the handler returns and did not exist
    before holds zeros only. *)
Theorem C5_private_key_zeroized_on_every_exit :
  forall (req : SignRequest) (w : World) (r : Exc Response) (f' : SignFrame),
    RegistryController.signDocument req (mkSignFrame w None) = (r, f') \/
    CryptoController.signDocument req (mkSignFrame w None) = (r, f') ->
    (exists resp, r = Ret resp) /\
    (forall file user n key,
       reaches_unwrap req w file user n ->
       unwrap_attempt req w user = Ret key ->
       heap (world f') !! length (heap w) = Some (JS.fill0 key) /\
       In (CallFill0 (length (heap w))) (calls (world f'))) /\
    (forall l b,
       heap w !! l = None ->
       heap (world f') !! l = Some b ->
       b = JS.fill0 b /\ In (CallFill0 l) (calls (world f'))).
Proof.
  intros req w r f' Hrun.
  assert ((exists resp, r = Ret resp) /\ sign_exits req w r f') as [Hret Hexits].
  { destruct Hrun as [Hrun|Hrun];
      [by apply registry_signDocument_exits | by apply crypto_signDocument_exits]. }
  split; [done|]. split.
  - intros file user n key. by apply (sign_exits_key_wiped req w r f').
  - intros l b. by apply (sign_exits_new_buffers_zero req w r f').
Qed.

End Zeroization.

(** ** Wrapping and unwrapping the private key *)

Section KeyWrapping.
Context {DBI : Mongoose} {PDF : PdfLib} {NC : NodeCrypto} {ED : Ed25519}.

Lemma encryptPrivateKey_inv (random12 : bytes) (privateKey : string) (dek : bytes)
    (wrapped : CryptoUtils.EncryptedKey) :
  CryptoUtils.encryptPrivateKey random12 privateKey dek = Ret wrapped ->
  exists ct tag,
    aes_256_gcm_encrypt dek random12 (JS.Buffer_from_hex privateKey) = Ret (ct, tag) /\
    CryptoUtils.ek_encryptedPrivateKey wrapped = JS.toString_hex (ct ++ tag) /\
    CryptoUtils.ek_iv wrapped = JS.toString_hex random12.
Proof.
  unfold CryptoUtils.encryptPrivateKey, exc_bind.
  destruct (aes_256_gcm_encrypt _ _ _) as [[ct tag]|]; [|discriminate].
  intros [= <-]. by exists ct, tag.
Qed.

(** [decryptPrivateKey] splits a stored text into the ciphertext and the
    sixteen bytes of the tag that [encryptPrivateKey] appended. *)
Lemma decryptPrivateKey_bytes_sealed (ct tag iv dek : bytes) :
  length tag = 16 ->
  CryptoUtils.decryptPrivateKey_bytes
    (JS.toString_hex (ct ++ tag)) (JS.toString_hex iv) dek
  = aes_256_gcm_decrypt dek iv ct tag.
Proof.
  intros Htag. unfold CryptoUtils.decryptPrivateKey_bytes.
  rewrite !JSFacts.Buffer_from_hex_toString.
  replace 16%Z with (Z.of_nat (length tag)) by lia.
  by rewrite JSFacts.subarray_from_app, JSFacts.subarray_0_app.
Qed.

Context {LAWS : NodeCryptoLaws}.

Lemma unwrap_wrap (rawKey dek random12 : bytes) (wrapped : CryptoUtils.EncryptedKey) :
  CryptoUtils.encryptPrivateKey random12 (JS.toString_hex rawKey) dek = Ret wrapped ->
  CryptoUtils.decryptPrivateKey_bytes
    (CryptoUtils.ek_encryptedPrivateKey wrapped) (CryptoUtils.ek_iv wrapped) dek
  = Ret rawKey.
Proof.
  intros (ct & tag & Henc & -> & ->)%encryptPrivateKey_inv.
  rewrite JSFacts.Buffer_from_hex_toString in Henc.
  rewrite decryptPrivateKey_bytes_sealed by (by eapply gcm_tag_length).
  by eapply gcm_decrypt_encrypt.
Qed.

Lemma unwrap_wrong_key (rawKey dek dek' random12 : bytes)
    (wrapped : CryptoUtils.EncryptedKey) :
  CryptoUtils.encryptPrivateKey random12 (JS.toString_hex rawKey) dek = Ret wrapped ->
  dek' <> dek ->
  exists e,
    CryptoUtils.decryptPrivateKey_bytes
      (CryptoUtils.ek_encryptedPrivateKey wrapped) (CryptoUtils.ek_iv wrapped) dek'
    = Throw e.
Proof.
  intros (ct & tag & Henc & -> & ->)%encryptPrivateKey_inv Hne.
  rewrite decryptPrivateKey_bytes_sealed by (by eapply gcm_tag_length).
  by eapply gcm_wrong_key.
Qed.

(** A request whose unwrapping throws is answered 401, and nothing is
    left on the heap. *)
Lemma sign_exits_unwrap_failed (req : SignRequest) (w : World)
    (r : Exc Response) (f' : SignFrame)
    (file : File) (user : IUser) (n : bytes) (e : string) :
  sign_exits req w r f' ->
  reaches_unwrap req w file user n ->
  unwrap_attempt req w user = Throw e ->
  r = Ret (sign_json 401 "Invalid password. Unable to decrypt signing key.") /\
  heap (world f') = heap w.
Proof.
  intros [[Hno _] | [(file' & user' & n' & e' & _ & _ & -> & ->) |
                     (file' & user' & n' & key' & Hr & Hu & _)]] Hreach Hthrow.
  - by destruct (Hno file user n).
  - done.
  - destruct (reaches_unwrap_fun _ _ _ _ _ _ _ _ Hreach Hr) as (_ & <- & _). congruence.
Qed.


(** With a stored salt, the derived key does not depend on the random
    bytes that would have made a fresh one. *)
Lemma deriveKeyFromPassword_salted (r r' : bytes) (p salt : string) :
  JS.truthy salt = true ->
  CryptoUtils.deriveKeyFromPassword r p (Some salt) =
  CryptoUtils.deriveKeyFromPassword r' p (Some salt).
Proof. by destruct salt. Qed.

(** C7. A raw key wrapped under the key derived from a password and a
    stored (non-empty) salt is what unwrapping under the key derived from
    the same password and salt returns, for every nonce, in a new array;
    under the key derived
    from another password, when that key differs, unwrapping throws, and a
    [signDocument] request made with that password, in either revision,
    is answered with status 401 and the message for a wrong password, and
    leaves no key behind. *)
Theorem C7_unwrap_wrap_and_wrong_password :
  forall (rawKey : bytes) (pw salt : string) (random12 random32 : bytes)
         (wrapped : CryptoUtils.EncryptedKey),
    let derive p := fst (CryptoUtils.deriveKeyFromPassword random32 p (Some salt)) in
    JS.truthy salt = true ->
    CryptoUtils.encryptPrivateKey random12 (JS.toString_hex rawKey) (derive pw)
      = Ret wrapped ->
    CryptoUtils.decryptPrivateKey_bytes
      (CryptoUtils.ek_encryptedPrivateKey wrapped) (CryptoUtils.ek_iv wrapped)
      (derive pw) = Ret rawKey /\
    (forall w : World,
       CryptoUtils.decryptPrivateKey
         (CryptoUtils.ek_encryptedPrivateKey wrapped) (CryptoUtils.ek_iv wrapped)
         (derive pw) w
       = (Ret (length (heap w)), set_heap w (heap w ++ [rawKey]))) /\
    (forall wrongPw : string,
       derive wrongPw <> derive pw ->
       (exists e,
          CryptoUtils.decryptPrivateKey_bytes
            (CryptoUtils.ek_encryptedPrivateKey wrapped) (CryptoUtils.ek_iv wrapped)
            (derive wrongPw) = Throw e) /\
       (forall (req : SignRequest) (w : World) file user n r f',
          reaches_unwrap req w file user n ->
          sr_password req = wrongPw ->
          u_salt user = salt ->
          u_encryptedPrivateKey user = CryptoUtils.ek_encryptedPrivateKey wrapped ->
          u_iv user = CryptoUtils.ek_iv wrapped ->
          RegistryController.signDocument req (mkSignFrame w None) = (r, f') \/
          CryptoController.signDocument req (mkSignFrame w None) = (r, f') ->
          r = Ret (sign_json 401 "Invalid password. Unable to decrypt signing key.") /\
          heap (world f') = heap w)).
Proof.
  intros rawKey pw salt random12 random32 wrapped derive Hsalted Hwrap.
  pose proof (unwrap_wrap _ _ _ _ Hwrap) as Hunwrap.
  split; [done|]. split.
  - intros w. by apply decryptPrivateKey_allocates.
  - intros wrongPw Hne.
    destruct (unwrap_wrong_key _ _ _ _ _ Hwrap Hne) as [e He].
    split; [by exists e|].
    intros req w file user n r f' Hreach Hpw Hsalt Henc Hiv Hrun.
    assert (sign_exits req w r f') as Hexits.
    { destruct Hrun as [Hrun|Hrun];
        [by apply registry_signDocument_exits | by apply crypto_signDocument_exits]. }
    apply (sign_exits_unwrap_failed req w r f' file user n e); [done..|].
    unfold unwrap_attempt. rewrite Hpw, Hsalt, Henc, Hiv.
    by rewrite (deriveKeyFromPassword_salted _ random32 _ _ Hsalted).
Qed.

End KeyWrapping.

(** ** The verification workflow *)

Section VerifyDocument.
Context {DBI : Mongoose} {PDF : PdfLib} {NC : NodeCrypto} {ED : Ed25519}.

(** What [extractAndStripSignature] returns was written by [save]. *)
Lemma extractAndStripSignature_saved (b : bytes) (ex : PdfUtils.ExtractedSignatureData) :
  PdfUtils.extractAndStripSignature b = Ret (Some ex) ->
  exists d, PdfUtils.strippedPdfBuffer ex = PDFDocument_save d.
Proof.
  unfold PdfUtils.extractAndStripSignature, exc_bind.
  destruct (PDFDocument_load b false) as [d|]; [|discriminate].
  destruct (PdfUtils.regexp_exec PdfUtils.SIGNATURE_KEY _); [|discriminate].
  destruct (PdfUtils.regexp_exec PdfUtils.OWNER_KEY _); [|discriminate].
  intros [= <-]. eexists. reflexivity.
Qed.

(** *** With the registry *)

(** The registry-backed [verifyDocument] responds, and changes nothing:
    in particular it makes no call of SHA-256 and none of [ed.verify]. *)
Lemma registry_verifyDocument_pure (req : VerifyRequest) (w : World)
    (r : Exc Response) (w' : World) :
  RegistryController.verifyDocument req w = (r, w') ->
  (exists resp, r = Ret resp) /\ w' = w.
Proof.
  unfold RegistryController.verifyDocument. run. intros Hrun.
  repeat (case_match; simplify_eq/=); eauto.
Qed.

(** Two uploads with the same envelope get the same answer. *)
Lemma registry_verifyDocument_same (w : World) (file1 file2 : File)
    (ex1 ex2 : PdfUtils.ExtractedSignatureData) :
  mimetype file1 = "application/pdf" ->
  mimetype file2 = "application/pdf" ->
  PdfUtils.extractAndStripSignature (buffer file1) = Ret (Some ex1) ->
  PdfUtils.extractAndStripSignature (buffer file2) = Ret (Some ex2) ->
  PdfUtils.signature ex1 = PdfUtils.signature ex2 ->
  PdfUtils.publicKey ex1 = PdfUtils.publicKey ex2 ->
  RegistryController.verifyDocument (mkVerifyRequest (Some file1)) w =
  RegistryController.verifyDocument (mkVerifyRequest (Some file2)) w.
Proof.
  intros Hm1 Hm2 Hex1 Hex2 Hsig Hpk.
  unfold RegistryController.verifyDocument. run.
  cbn [vr_file]. rewrite Hm1, Hm2, Hex1, Hex2, Hsig, Hpk. reflexivity.
Qed.

(** A signature without a record, or with a record whose signer is gone,
    is answered "not registered". *)
Lemma registry_verifyDocument_unregistered (w : World) (file : File)
    (ex : PdfUtils.ExtractedSignatureData) :
  mimetype file = "application/pdf" ->
  PdfUtils.extractAndStripSignature (buffer file) = Ret (Some ex) ->
  DocumentModel_findOne_signature (db w) (PdfUtils.signature ex) = Ret None \/
  (exists t, DocumentModel_findOne_signature (db w) (PdfUtils.signature ex)
             = Ret (Some (mkRecord None t))) ->
  RegistryController.verifyDocument (mkVerifyRequest (Some file)) w =
  (Ret (mkResponse 200 [] (JsonVerify (mkVerifyResponse true
          "Document signature not found in registry."
          (Some false) None None None
          (Some "Signature not registered in database.")))), w).
Proof.
  intros Hm Hex Hdb.
  unfold RegistryController.verifyDocument. run.
  cbn [vr_file]. rewrite Hm, Hex. cbn.
  by destruct Hdb as [-> | [t ->]].
Qed.

(** *** With the signature check only *)

(** The check that step 3 of [verifyDocument] makes on an extracted
    envelope. *)
Lemma crypto_verifyDocument_exits (req : VerifyRequest) (w : World)
    (r : Exc Response) (w' : World) :
  CryptoController.verifyDocument req w = (r, w') ->
  (exists resp, r = Ret resp) /\
  ((w' = w /\
    forall resp, r = Ret resp -> Outcomes.outcome_of resp <> Some Outcomes.Valid) \/
   (exists file ex b,
      vr_file req = Some file /\
      mimetype file = "application/pdf" /\
      PdfUtils.extractAndStripSignature (buffer file) = Ret (Some ex) /\
      CryptoUtils.verifySignature (PdfUtils.signature ex)
        (PdfUtils.hashPdfBuffer (PdfUtils.strippedPdfBuffer ex))
        (PdfUtils.publicKey ex) = Ret b /\
      calls w' = calls w ++
        [CallSha256 (PdfUtils.strippedPdfBuffer ex);
         CallEdVerify (PdfUtils.signature ex)
           (PdfUtils.hashPdfBuffer (PdfUtils.strippedPdfBuffer ex))
           (PdfUtils.publicKey ex)] /\
      (forall resp, r = Ret resp ->
         (Outcomes.outcome_of resp = Some Outcomes.Valid -> b = true) /\
         (b = false -> Outcomes.outcome_of resp = Some Outcomes.Invalid)))).
Proof.
  unfold CryptoController.verifyDocument. run.
  destruct (vr_file req) as [file|];
    [|intros; simplify_eq/=; split; [eauto|left; split; [done|by intros ? [= <-]]]].
  destruct (String.eqb_spec (mimetype file) "application/pdf") as [Hm|];
    [|intros; simplify_eq/=; split; [eauto|left; split; [done|by intros ? [= <-]]]].
  cbn [negb].
  destruct (PdfUtils.extractAndStripSignature (buffer file)) as [[ex|]|] eqn:Hex;
    [|intros; simplify_eq/=; split; [eauto|left; split; [done|by intros ? [= <-]]]..].
  destruct ex as [sig pk stripped].
  destruct (verifySignature_total sig (PdfUtils.hashPdfBuffer stripped) pk) as [b Hb].
  rewrite Hb. intros Hrun. split.
  - destruct b; simplify_eq/=; repeat (case_match; simplify_eq/=); eauto.
  - right. exists file, (PdfUtils.mkExtracted sig pk stripped), b.
    destruct b; simplify_eq/=; repeat (case_match; simplify_eq/=);
      rewrite <- ?app_assoc;
      (repeat split; try done;
       simplify_eq; by vm_compute).
Qed.

(** A valid signature by a key that no stored user has is reported as
    verified, without a signer. *)
Lemma crypto_verifyDocument_unattributed (w : World) (file : File)
    (ex : PdfUtils.ExtractedSignatureData) :
  mimetype file = "application/pdf" ->
  PdfUtils.extractAndStripSignature (buffer file) = Ret (Some ex) ->
  CryptoUtils.verifySignature (PdfUtils.signature ex)
    (PdfUtils.hashPdfBuffer (PdfUtils.strippedPdfBuffer ex))
    (PdfUtils.publicKey ex) = Ret true ->
  User_findOne_publicKey (db w) (PdfUtils.publicKey ex) = Ret None ->
  fst (CryptoController.verifyDocument (mkVerifyRequest (Some file)) w) =
  Ret (mkResponse 200 [] (JsonVerify (mkVerifyResponse true
         "Document verified! Signature is valid."
         (Some true) None (Some (PdfUtils.publicKey ex)) None None))).
Proof.
  intros Hm Hex Hsig Hdb. destruct ex as [sig pk stripped]. cbn in *.
  unfold CryptoController.verifyDocument. run.
  cbn [vr_file]. rewrite Hm, Hex. cbn. rewrite Hsig.
  unfold record_call. cbn [db]. by rewrite Hdb.
Qed.

(** It classifies as Valid only what passed the signature check, and as
    Invalid what failed it. *)
Lemma crypto_valid_only_if_signature_verifies (req : VerifyRequest) (w w' : World)
    (resp : Response) :
  CryptoController.verifyDocument req w = (Ret resp, w') ->
  Outcomes.outcome_of resp = Some Outcomes.Valid ->
  exists file ex,
    vr_file req = Some file /\
    PdfUtils.extractAndStripSignature (buffer file) = Ret (Some ex) /\
    CryptoUtils.verifySignature (PdfUtils.signature ex)
      (PdfUtils.hashPdfBuffer (PdfUtils.strippedPdfBuffer ex))
      (PdfUtils.publicKey ex) = Ret true.
Proof.
  intros Hrun Hvalid.
  destruct (crypto_verifyDocument_exits _ _ _ _ Hrun)
    as [_ [[_ Hno] | (file & ex & b & Hf & _ & Hex & Hb & _ & Hout)]].
  - by destruct (Hno resp eq_refl).
  - exists file, ex. destruct (Hout resp eq_refl) as [Htrue _].
    rewrite (Htrue Hvalid) in Hb. done.
Qed.

Lemma crypto_invalid_if_signature_fails (w w' : World) (file : File)
    (ex : PdfUtils.ExtractedSignatureData) (resp : Response) :
  mimetype file = "application/pdf" ->
  PdfUtils.extractAndStripSignature (buffer file) = Ret (Some ex) ->
  CryptoUtils.verifySignature (PdfUtils.signature ex)
    (PdfUtils.hashPdfBuffer (PdfUtils.strippedPdfBuffer ex))
    (PdfUtils.publicKey ex) = Ret false ->
  CryptoController.verifyDocument (mkVerifyRequest (Some file)) w = (Ret resp, w') ->
  Outcomes.outcome_of resp = Some Outcomes.Invalid.
Proof.
  intros Hm Hex Hsig. destruct ex as [sig pk stripped]. cbn in Hsig.
  unfold CryptoController.verifyDocument. run.
  cbn [vr_file]. rewrite Hm, Hex. cbn. rewrite Hsig.
  by intros [= <- _].
Qed.

(** The registry-backed revision classifies as Valid whatever carries a
    registered signature and its signer's key; the signature check plays no
    part in it. *)
Lemma registry_valid_from_registry_alone (w : World) (file : File)
    (ex : PdfUtils.ExtractedSignatureData) (signer : PopulatedSigner) (t : N) :
  mimetype file = "application/pdf" ->
  PdfUtils.extractAndStripSignature (buffer file) = Ret (Some ex) ->
  DocumentModel_findOne_signature (db w) (PdfUtils.signature ex)
    = Ret (Some (mkRecord (Some signer) t)) ->
  PdfUtils.publicKey ex = ps_publicKey signer ->
  exists resp,
    RegistryController.verifyDocument (mkVerifyRequest (Some file)) w = (Ret resp, w) /\
    Outcomes.outcome_of resp = Some Outcomes.Valid.
Proof.
  intros Hm Hex Hdb Hpk. destruct ex as [sig pk stripped]. cbn in Hdb, Hpk.
  unfold RegistryController.verifyDocument. run.
  cbn [vr_file]. rewrite Hm, Hex, String.eqb_refl. cbn -[String.eqb].
  rewrite Hdb, Hpk, String.eqb_refl. cbn.
  eexists. split; reflexivity.
Qed.

End VerifyDocument.

(** ** What is hashed *)

Section Digests.
Context {DBI : Mongoose} {PDF : PdfLib} {NC : NodeCrypto} {ED : Ed25519}.

(** The calls a run of [signDocument] adds: none, the hash of the
    normalised upload, or that hash, the signature over it and the wipe. *)
Lemma sign_exits_calls (req : SignRequest) (w : World)
    (r : Exc Response) (f' : SignFrame) :
  sign_exits req w r f' ->
  calls (world f') = calls w \/
  exists file n,
    sr_file req = Some file /\
    PdfUtils.normalizePdf (buffer file) = Ret n /\
    (calls (world f') = calls w ++ [CallSha256 n] \/
     calls (world f') = calls w ++
       [CallSha256 n;
        CallEdSign (CryptoUtils.sha256 n) (length (heap w));
        CallFill0 (length (heap w))]).
Proof.
  intros [[_ ->] | [(file & user & n & e & Hr & _ & _ & ->) |
                    (file & user & n & key & Hr & _ & _ & Hcalls)]].
  - by left.
  - right. exists file, n. destruct Hr as (Hf & _ & _ & _ & Hn). by eauto.
  - right. exists file, n. destruct Hr as (Hf & _ & _ & _ & Hn). by eauto.
Qed.

(** C9. Every SHA-256 digest that the workflows compute is taken over bytes
    that [save] wrote, not over the upload: a run of [signDocument], in
    either revision, hashes nothing or exactly the normalised (parsed and
    saved) upload, and what it signs is that digest; a run of the
    signature-checking [verifyDocument] hashes nothing or exactly the
    stripped bytes that [extractAndStripSignature] saved, and then checks
    the extracted signature against that digest; the registry-backed
    [verifyDocument] hashes nothing. *)
Theorem C9_digests_over_canonical_bytes :
  forall (w : World),
    (forall req r f',
       RegistryController.signDocument req (mkSignFrame w None) = (r, f') \/
       CryptoController.signDocument req (mkSignFrame w None) = (r, f') ->
       calls (world f') = calls w \/
       exists file d,
         sr_file req = Some file /\
         PDFDocument_load (buffer file) false = Ret d /\
         (calls (world f') = calls w ++ [CallSha256 (PDFDocument_save d)] \/
          calls (world f') = calls w ++
            [CallSha256 (PDFDocument_save d);
             CallEdSign (CryptoUtils.sha256 (PDFDocument_save d)) (length (heap w));
             CallFill0 (length (heap w))])) /\
    (forall req r w',
       CryptoController.verifyDocument req w = (r, w') ->
       calls w' = calls w \/
       exists file ex d,
         vr_file req = Some file /\
         PdfUtils.extractAndStripSignature (buffer file) = Ret (Some ex) /\
         PdfUtils.strippedPdfBuffer ex = PDFDocument_save d /\
         calls w' = calls w ++
           [CallSha256 (PDFDocument_save d);
            CallEdVerify (PdfUtils.signature ex)
              (CryptoUtils.sha256 (PDFDocument_save d))
              (PdfUtils.publicKey ex)]) /\
    (forall req r w',
       RegistryController.verifyDocument req w = (r, w') ->
       calls w' = calls w).
Proof.
  intros w. split; [|split].
  - intros req r f' Hrun.
    assert (sign_exits req w r f') as Hexits.
    { destruct Hrun as [Hrun|Hrun];
        [by apply registry_signDocument_exits | by apply crypto_signDocument_exits]. }
    destruct (sign_exits_calls _ _ _ _ Hexits) as [Hsame | (file & n & Hf & Hn & Hc)];
      [by left|].
    right. apply normalizePdf_inv in Hn as (d & Hload & ->). by exists file, d.
  - intros req r w' Hrun.
    destruct (crypto_verifyDocument_exits _ _ _ _ Hrun)
      as [_ [[-> _] | (file & ex & b & Hf & _ & Hex & _ & Hc & _)]]; [by left|].
    right. destruct (extractAndStripSignature_saved _ _ Hex) as [d Hd].
    exists file, ex, d. rewrite <- Hd. done.
  - intros req r w' Hrun.
    by destruct (registry_verifyDocument_pure _ _ _ _ Hrun) as [_ ->].
Qed.

End Digests.

(** ** The registry-backed verification reads the envelope only *)

Section RegistryVerification.
Context {DBI : Mongoose} {PDF : PdfLib} {NC : NodeCrypto} {ED : Ed25519}.

(** C10. In the registry-backed [verifyDocument], two uploads from which
    extraction yields the same signature and the same public key get the
    same response in the same world, whatever else their bytes hold; the
    run leaves the world as it was, so no digest of the stripped content
    is computed. *)
Theorem C10_registry_answer_ignores_content :
  forall (w : World) (file1 file2 : File)
         (ex1 ex2 : PdfUtils.ExtractedSignatureData),
    mimetype file1 = "application/pdf" ->
    mimetype file2 = "application/pdf" ->
    PdfUtils.extractAndStripSignature (buffer file1) = Ret (Some ex1) ->
    PdfUtils.extractAndStripSignature (buffer file2) = Ret (Some ex2) ->
    PdfUtils.signature ex1 = PdfUtils.signature ex2 ->
    PdfUtils.publicKey ex1 = PdfUtils.publicKey ex2 ->
    RegistryController.verifyDocument (mkVerifyRequest (Some file1)) w =
    RegistryController.verifyDocument (mkVerifyRequest (Some file2)) w /\
    snd (RegistryController.verifyDocument (mkVerifyRequest (Some file1)) w) = w.
Proof.
  intros w file1 file2 ex1 ex2 Hm1 Hm2 Hex1 Hex2 Hsig Hpk. split.
  - by apply (registry_verifyDocument_same w file1 file2 ex1 ex2).
  - destruct (RegistryController.verifyDocument _ w) as [r w'] eqn:Hrun.
    by destruct (registry_verifyDocument_pure _ _ _ _ Hrun) as [_ ->].
Qed.

(** C4 (as amended). The registry-backed [verifyDocument] answers an upload
    whose extracted signature has no record in the registry, or a record
    whose signer no longer exists, with [verified: false] and the error
    "Signature not registered in database.": the outcome Unregistered,
    which is neither Valid nor Invalid. The signature-checking
    [verifyDocument] has no such outcome: an upload whose signature
    verifies and whose public key belongs to no stored user is answered
    [verified: true], "Document verified! Signature is valid.", the
    outcome Valid. *)
Theorem C4_unregistered_only_with_registry :
  forall (w : World) (file : File) (ex : PdfUtils.ExtractedSignatureData),
    mimetype file = "application/pdf" ->
    PdfUtils.extractAndStripSignature (buffer file) = Ret (Some ex) ->
    (DocumentModel_findOne_signature (db w) (PdfUtils.signature ex) = Ret None \/
     (exists t, DocumentModel_findOne_signature (db w) (PdfUtils.signature ex)
                = Ret (Some (mkRecord None t))) ->
     exists resp j,
       RegistryController.verifyDocument (mkVerifyRequest (Some file)) w = (Ret resp, w) /\
       body resp = JsonVerify j /\
       verified j = Some false /\
       error j = Some "Signature not registered in database." /\
       Outcomes.outcome_of resp = Some Outcomes.Unregistered) /\
    (CryptoUtils.verifySignature (PdfUtils.signature ex)
       (PdfUtils.hashPdfBuffer (PdfUtils.strippedPdfBuffer ex))
       (PdfUtils.publicKey ex) = Ret true ->
     User_findOne_publicKey (db w) (PdfUtils.publicKey ex) = Ret None ->
     exists resp j,
       fst (CryptoController.verifyDocument (mkVerifyRequest (Some file)) w) = Ret resp /\
       body resp = JsonVerify j /\
       verified j = Some true /\
       message j = "Document verified! Signature is valid." /\
       Outcomes.outcome_of resp = Some Outcomes.Valid).
Proof.
  intros w file ex Hm Hex. split.
  - intros Hdb.
    rewrite (registry_verifyDocument_unregistered w file ex Hm Hex Hdb).
    eexists. eexists. split; [reflexivity|]. by vm_compute.
  - intros Hsig Hdb.
    rewrite (crypto_verifyDocument_unattributed w file ex Hm Hex Hsig Hdb).
    eexists. eexists. split; [reflexivity|]. by cbn.
Qed.

End RegistryVerification.

(** ** The properties on the concrete run *)

Section Runs.
Import Sim SimFacts Scenario.

(** Bob's request: the key is unwrapped, [ed.sign] throws, the handler
    answers 500, and the array that held the key holds 31 zero bytes. *)
Example bob_key_wiped_in_catch :
  CryptoController.signDocument sign_request_bob (mkSignFrame world_bob None) =
  (Ret (sign_json 500 "An error occurred while signing the document."),
   mkSignFrame
     (mkWorld (db world_bob) [replicate 31 Init.Byte.x00] (random world_bob)
        [CallSha256 titled_bytes; CallEdSign titled_bytes 0; CallFill0 0])
     (Some 0)).
Proof. vm_compute. reflexivity. Qed.

Lemma C5_private_key_zeroized_on_every_exit_witness :
  (exists resp, fst bob_run = Ret resp) /\
  (forall file user n key,
     reaches_unwrap sign_request_bob world_bob file user n ->
     unwrap_attempt sign_request_bob world_bob user = Ret key ->
     heap (world (snd bob_run)) !! length (heap world_bob) = Some (JS.fill0 key) /\
     In (CallFill0 (length (heap world_bob))) (calls (world (snd bob_run)))) /\
  (forall l b,
     heap world_bob !! l = None ->
     heap (world (snd bob_run)) !! l = Some b ->
     b = JS.fill0 b /\ In (CallFill0 l) (calls (world (snd bob_run)))).
Proof.
  apply (C5_private_key_zeroized_on_every_exit sign_request_bob world_bob
           (fst bob_run) (snd bob_run)).
  right. vm_compute. reflexivity.
Defined.

Lemma C7_unwrap_wrap_and_wrong_password_witness :
  CryptoUtils.encryptPrivateKey nonce (JS.toString_hex rawKey) dek = Ret wrapped /\
  CryptoUtils.decryptPrivateKey_bytes
    (CryptoUtils.ek_encryptedPrivateKey wrapped) (CryptoUtils.ek_iv wrapped) dek
  = Ret rawKey /\
  (exists e,
     CryptoUtils.decryptPrivateKey_bytes
       (CryptoUtils.ek_encryptedPrivateKey wrapped) (CryptoUtils.ek_iv wrapped)
       (fst (CryptoUtils.deriveKeyFromPassword [] "wrong horse" (Some saltHex)))
     = Throw e) /\
  fst (RegistryController.signDocument (sign_request titled_bytes "wrong horse")
         (mkSignFrame world0 None))
  = Ret (sign_json 401 "Invalid password. Unable to decrypt signing key.").
Proof.
  assert (CryptoUtils.encryptPrivateKey nonce (JS.toString_hex rawKey) dek = Ret wrapped)
    as Hwrap by (vm_compute; reflexivity).
  destruct (C7_unwrap_wrap_and_wrong_password rawKey password saltHex nonce []
              wrapped eq_refl Hwrap) as (Hsame & _ & Hwrong).
  destruct (Hwrong "wrong horse") as [Hthrow H401]; [vm_compute; discriminate|].
  split; [exact Hwrap|]. split; [exact Hsame|]. split; [exact Hthrow|].
  apply (H401 (sign_request titled_bytes "wrong horse") world0
           (upload titled_bytes) alice titled_bytes
           (fst (RegistryController.signDocument
                   (sign_request titled_bytes "wrong horse") (mkSignFrame world0 None)))
           (snd (RegistryController.signDocument
                   (sign_request titled_bytes "wrong horse") (mkSignFrame world0 None))));
    try (vm_compute; reflexivity).
  - repeat split; vm_compute; reflexivity.
  - left. vm_compute. reflexivity.
Defined.

(** Alice's request with another password. *)
Example alice_wrong_password :
  fst (RegistryController.signDocument (sign_request titled_bytes "wrong horse")
         (mkSignFrame world0 None))
  = Ret (sign_json 401 "Invalid password. Unable to decrypt signing key.").
Proof. vm_compute. reflexivity. Qed.

Lemma C9_digests_over_canonical_bytes_witness :
  calls (snd (CryptoController.verifyDocument (verify_request signed_titled) world1))
    = calls world1 \/
  exists file ex d,
    vr_file (verify_request signed_titled) = Some file /\
    PdfUtils.extractAndStripSignature (buffer file) = Ret (Some ex) /\
    PdfUtils.strippedPdfBuffer ex = PDFDocument_save d /\
    calls (snd (CryptoController.verifyDocument (verify_request signed_titled) world1))
      = calls world1 ++
        [CallSha256 (PDFDocument_save d);
         CallEdVerify (PdfUtils.signature ex)
           (CryptoUtils.sha256 (PDFDocument_save d))
           (PdfUtils.publicKey ex)].
Proof.
  apply (proj1 (proj2 (C9_digests_over_canonical_bytes world1))
           (verify_request signed_titled)
           (fst (CryptoController.verifyDocument (verify_request signed_titled) world1))).
  vm_compute. reflexivity.
Defined.

Lemma C10_registry_answer_ignores_content_witness :
  mimetype (upload signed_titled) = "application/pdf" /\
  mimetype (upload forged) = "application/pdf" /\
  PdfUtils.extractAndStripSignature (buffer (upload signed_titled))
    = Ret (Some extracted_signed) /\
  PdfUtils.extractAndStripSignature (buffer (upload forged))
    = Ret (Some extracted_forged) /\
  PdfUtils.signature extracted_signed = PdfUtils.signature extracted_forged /\
  PdfUtils.publicKey extracted_signed = PdfUtils.publicKey extracted_forged /\
  PdfUtils.strippedPdfBuffer extracted_signed
    <> PdfUtils.strippedPdfBuffer extracted_forged /\
  RegistryController.verifyDocument (mkVerifyRequest (Some (upload signed_titled))) world1 =
  RegistryController.verifyDocument (mkVerifyRequest (Some (upload forged))) world1 /\
  snd (RegistryController.verifyDocument
         (mkVerifyRequest (Some (upload signed_titled))) world1) = world1.
Proof.
  do 6 (split; [vm_compute; reflexivity|]).
  split; [vm_compute; discriminate|].
  apply (C10_registry_answer_ignores_content world1 (upload signed_titled) (upload forged)
           extracted_signed extracted_forged); vm_compute; reflexivity.
Defined.

Lemma C4_unregistered_only_with_registry_witness :
  (exists resp j,
     RegistryController.verifyDocument (mkVerifyRequest (Some (upload signed_titled)))
       empty_world = (Ret resp, empty_world) /\
     body resp = JsonVerify j /\
     verified j = Some false /\
     error j = Some "Signature not registered in database." /\
     Outcomes.outcome_of resp = Some Outcomes.Unregistered) /\
  (exists resp j,
     fst (CryptoController.verifyDocument (mkVerifyRequest (Some (upload signed_titled)))
            empty_world) = Ret resp /\
     body resp = JsonVerify j /\
     verified j = Some true /\
     message j = "Document verified! Signature is valid." /\
     Outcomes.outcome_of resp = Some Outcomes.Valid).
Proof.
  destruct (C4_unregistered_only_with_registry empty_world (upload signed_titled)
              extracted_signed) as [Hreg Hcrypto].
  - reflexivity.
  - vm_compute. reflexivity.
  - split.
    + apply Hreg. left. vm_compute. reflexivity.
    + apply Hcrypto; vm_compute; reflexivity.
Defined.

(** C4 as worded fails on the signature-checking [verifyDocument]: the
    signature verifies, the registry knows neither the signature nor the
    key, and the upload is reported verified, not unregistered. *)
Lemma C4_valid_signature_without_registry_entry :
  exists resp,
    fst (CryptoController.verifyDocument (verify_request signed_titled) empty_world)
      = Ret resp /\
    PdfUtils.extractAndStripSignature signed_titled = Ret (Some extracted_signed) /\
    CryptoUtils.verifySignature (PdfUtils.signature extracted_signed)
      (PdfUtils.hashPdfBuffer (PdfUtils.strippedPdfBuffer extracted_signed))
      (PdfUtils.publicKey extracted_signed) = Ret true /\
    DocumentModel_findOne_signature (db empty_world)
      (PdfUtils.signature extracted_signed) = Ret None /\
    User_findOne_publicKey (db empty_world)
      (PdfUtils.publicKey extracted_signed) = Ret None /\
    Outcomes.outcome_of resp = Some Outcomes.Valid /\
    Outcomes.outcome_of resp <> Some Outcomes.Unregistered.
Proof.
  eexists. split; [vm_compute; reflexivity|].
  do 4 (split; [vm_compute; reflexivity|]).
  split; [vm_compute; reflexivity | vm_compute; discriminate].
Qed.

(** C1 (the code at its failing input). The registry-backed
    [verifyDocument] classifies the forged file, whose pages differ from
    what Alice signed, as Valid, although the extracted signature does not
    verify over the digest of the stripped bytes under the extracted key;
    the signature-checking [verifyDocument] classifies the same file as
    Invalid. *)
Theorem C1_registry_valid_without_signature_check :
  exists resp resp',
    RegistryController.verifyDocument (verify_request forged) world1
      = (Ret resp, world1) /\
    Outcomes.outcome_of resp = Some Outcomes.Valid /\
    PdfUtils.extractAndStripSignature forged = Ret (Some extracted_forged) /\
    CryptoUtils.verifySignature (PdfUtils.signature extracted_forged)
      (PdfUtils.hashPdfBuffer (PdfUtils.strippedPdfBuffer extracted_forged))
      (PdfUtils.publicKey extracted_forged) = Ret false /\
    fst (CryptoController.verifyDocument (verify_request forged) world1) = Ret resp' /\
    Outcomes.outcome_of resp' = Some Outcomes.Invalid.
Proof.
  eexists. eexists. split; [vm_compute; reflexivity|].
  do 3 (split; [vm_compute; reflexivity|]).
  split; vm_compute; reflexivity.
Qed.

(** The signature-checking revision signs the document without Info
    entries and then rejects its own output: the stripped bytes are not the
    bytes that were hashed (see C2). *)
Example crypto_rejects_own_signature :
  exists signed resp,
    fst (CryptoController.signDocument (sign_request bare_bytes password)
           (mkSignFrame world0 None))
      = Ret (mkResponse 200
               [("Content-Type", "application/pdf");
                ("Content-Disposition",
                 "attachment; filename=" +:+ double_quote +:+ "lease_signed.pdf"
                   +:+ double_quote);
                ("X-AegisSign-Signature",
                 JS.toString_hex (bare_bytes ++ rawKey));
                ("X-AegisSign-PublicKey", JS.toString_hex rawKey)]
               (Send signed)) /\
    fst (CryptoController.verifyDocument (verify_request signed) world0) = Ret resp /\
    Outcomes.outcome_of resp = Some Outcomes.Invalid.
Proof.
  eexists. eexists. split; [vm_compute; reflexivity|].
  split; vm_compute; reflexivity.
Qed.

End Runs.

(* ====================================================================== *)
(** * Further properties *)

(** ** pdfUtils.ts: reading an envelope *)

Section EnvelopeReading.
Context {PDF : PdfLib} {NC : NodeCrypto}.


Lemma includes_cons (pat : string) (c : ascii) (s : string) :
  JS.includes pat s = true -> JS.includes pat (String c s) = true.
Proof.
  intros H. cbn [JS.includes]. by destruct (JS.strip_prefix pat (String c s)).
Qed.

Lemma strip_prefix_inv (p s r : string) :
  JS.strip_prefix p s = Some r -> s = p +:+ r.
Proof.
  revert s. induction p as [|a p IH]; intros s; cbn.
  - by intros [= ->].
  - destruct s as [|b s]; [done|].
    destruct (Ascii.eqb_spec a b) as [->|]; [|done].
    intros ->%IH. done.
Qed.

Lemma includes_app (a pat r : string) : JS.includes pat (a +:+ pat +:+ r) = true.
Proof.
  induction a as [|c a IH].
  - rewrite append_empty_l.
    destruct (pat +:+ r) eqn:E; cbn [JS.includes]; rewrite <- E;
      by rewrite strip_prefix_app.
  - rewrite append_cons. by apply includes_cons.
Qed.

Lemma match_here_includes (key s h t : string) :
  PdfUtils.match_here key s = Some (h, t) -> JS.includes key s = true.
Proof.
  unfold PdfUtils.match_here.
  destruct (JS.strip_prefix _ s) as [r|] eqn:E; [|done].
  intros _. apply strip_prefix_inv in E. subst s.
  rewrite !append_cons, append_empty_l, append_assoc.
  apply includes_cons, includes_cons.
  apply (includes_app "" key).
Qed.

Lemma regexp_exec_includes (key s : string) (m : PdfUtils.RegExpMatch) :
  PdfUtils.regexp_exec key s = Some m -> JS.includes key s = true.
Proof.
  revert m. induction s as [|c s IH]; intros m.
  - cbn [PdfUtils.regexp_exec].
    destruct (PdfUtils.match_here key "") as [[h t]|] eqn:E; [|done].
    intros _. by eapply match_here_includes.
  - cbn [PdfUtils.regexp_exec].
    destruct (PdfUtils.match_here key (String c s)) as [[h t]|] eqn:E.
    + intros _. by eapply match_here_includes.
    + destruct (PdfUtils.regexp_exec key s) as [m'|]; [|done].
      intros _. apply includes_cons. by eapply IH.
Qed.

Lemma isSignedDocument_of_extraction (pdfBuffer : bytes)
    (e : PdfUtils.ExtractedSignatureData) :
  PdfUtils.extractAndStripSignature pdfBuffer = Ret (Some e) ->
  PdfUtils.isSignedDocument pdfBuffer = Ret true.
Proof.
  unfold PdfUtils.isSignedDocument, PdfUtils.extractAndStripSignature,
    exc_catch, exc_bind.
  destruct (PDFDocument_load pdfBuffer false) as [d|]; [|done].
  destruct (PdfUtils.regexp_exec PdfUtils.SIGNATURE_KEY _) as [sm|] eqn:Hs; [|done].
  destruct (PdfUtils.regexp_exec PdfUtils.OWNER_KEY _) as [pm|] eqn:Hp; [|done].
  intros _.
  by rewrite (regexp_exec_includes _ _ _ Hs), (regexp_exec_includes _ _ _ Hp).
Qed.

(** X2. [isSignedDocument] never throws, it answers [false] for bytes
    that cannot be parsed, and it answers [true] for every file in which
    [extractAndStripSignature] finds an envelope. *)
Theorem isSignedDocument_covers_extraction :
  forall pdfBuffer : bytes,
    (exists b, PdfUtils.isSignedDocument pdfBuffer = Ret b) /\
    (forall msg, PDFDocument_load pdfBuffer false = Throw msg ->
       PdfUtils.isSignedDocument pdfBuffer = Ret false) /\
    (forall e, PdfUtils.extractAndStripSignature pdfBuffer = Ret (Some e) ->
       PdfUtils.isSignedDocument pdfBuffer = Ret true).
Proof.
  intros pdfBuffer. split; [|split].
  - unfold PdfUtils.isSignedDocument, exc_catch, exc_bind.
    destruct (PDFDocument_load pdfBuffer false); eauto.
  - intros msg Hload. unfold PdfUtils.isSignedDocument, exc_catch, exc_bind.
    by rewrite Hload.
  - apply isSignedDocument_of_extraction.
Qed.

End EnvelopeReading.

(** ** pdfUtils.ts: embedding followed by extraction *)

Section EnvelopeRecovery.
Context {PDF : PdfLib} {LAWS : PdfLibLaws}.

Lemma match_here_empty (key : string) : PdfUtils.match_here key "" = None.
Proof. unfold PdfUtils.match_here. by rewrite !append_cons. Qed.





(** *** An empty signature or key *)



End EnvelopeRecovery.

(** ** pdfUtils.ts: a file that is signed again *)

(** One character of a text against one of a literal that does not
    overlap itself: a text that does not begin with the literal does not
    begin with it either when the literal is put behind it. *)
Ltac border s :=
  let c := fresh "c" in
  destruct s as [|c s];
  [ intros _; by vm_compute
  | rewrite ?append_cons; cbn [JS.strip_prefix];
    match goal with
    | |- context [Ascii.eqb ?a c] => destruct (Ascii.eqb_spec a c) as [<-|]; [|done]
    end ].

Section SignedAgain.
Context {PDF : PdfLib} {LAWS : PdfLibLaws}.

Lemma span_hex_app_bar (r t : string) :
  PdfUtils.span_hex (r +:+ String "|" t) =
  (fst (PdfUtils.span_hex r), snd (PdfUtils.span_hex r) +:+ String "|" t).
Proof.
  induction r as [|c r IH]; [reflexivity|].
  rewrite append_cons. cbn [PdfUtils.span_hex].
  destruct (PdfUtils.is_hex c); [|reflexivity].
  rewrite IH. by destruct (PdfUtils.span_hex r).
Qed.

(** The literal part of the expression for one of the two keys. *)
Local Abbreviation token_head key := ("||" +:+ key +:+ ":") (only parsing).

Lemma token_head_bar (key x : string) :
  token_head key +:+ x = String "|" (String "|" ((key +:+ ":") +:+ x)).
Proof. reflexivity. Qed.

Lemma match_here_app_token (key s h t0 x : string) :
  PdfUtils.match_here key s = Some (h, t0) ->
  PdfUtils.match_here key (s +:+ token_head key +:+ x)
  = Some (h, t0 +:+ token_head key +:+ x).
Proof.
  unfold PdfUtils.match_here.
  destruct (JS.strip_prefix (token_head key) s) as [r|] eqn:E; [|done].
  apply strip_prefix_inv in E. subst s.
  rewrite append_assoc, strip_prefix_app.
  rewrite !(token_head_bar key x), span_hex_app_bar.
  destruct (PdfUtils.span_hex r) as [[|c h'] t']; [done|].
  cbn [fst snd]. by intros [= <- <-].
Qed.

Lemma strip_prefix_signature_border (s x : string) :
  s <> "" ->
  JS.strip_prefix (token_head PdfUtils.SIGNATURE_KEY) s = None ->
  JS.strip_prefix (token_head PdfUtils.SIGNATURE_KEY)
    (s +:+ token_head PdfUtils.SIGNATURE_KEY +:+ x) = None.
Proof.
  intros Hne.
  change (token_head PdfUtils.SIGNATURE_KEY) with "||AegisSign_Signature:".
  destruct s as [|c0 s]; [done|]. clear Hne.
  rewrite ?append_cons; cbn [JS.strip_prefix].
  destruct (Ascii.eqb_spec "|" c0) as [<-|]; [|done].
  do 21 (border s).
  done.
Qed.

Lemma strip_prefix_owner_border (s x : string) :
  s <> "" ->
  JS.strip_prefix (token_head PdfUtils.OWNER_KEY) s = None ->
  JS.strip_prefix (token_head PdfUtils.OWNER_KEY)
    (s +:+ token_head PdfUtils.OWNER_KEY +:+ x) = None.
Proof.
  intros Hne.
  change (token_head PdfUtils.OWNER_KEY) with "||AegisSign_Owner:".
  destruct s as [|c0 s]; [done|]. clear Hne.
  rewrite ?append_cons; cbn [JS.strip_prefix].
  destruct (Ascii.eqb_spec "|" c0) as [<-|]; [|done].
  do 17 (border s).
  done.
Qed.

Lemma match_here_none_app_token (key s x : string) :
  key = PdfUtils.SIGNATURE_KEY \/ key = PdfUtils.OWNER_KEY ->
  s <> "" ->
  PdfUtils.match_here key s = None ->
  PdfUtils.match_here key (s +:+ token_head key +:+ x) = None.
Proof.
  intros Hkey Hne. unfold PdfUtils.match_here.
  destruct (JS.strip_prefix (token_head key) s) as [r|] eqn:E.
  - apply strip_prefix_inv in E. subst s.
    rewrite append_assoc, strip_prefix_app.
    rewrite !(token_head_bar key x), span_hex_app_bar.
    by destruct (PdfUtils.span_hex r) as [[|c h'] t'].
  - intros _.
    destruct Hkey as [-> | ->];
      [rewrite strip_prefix_signature_border | rewrite strip_prefix_owner_border];
      done.
Qed.

Lemma regexp_exec_app_token (key p x : string) (m : PdfUtils.RegExpMatch) :
  key = PdfUtils.SIGNATURE_KEY \/ key = PdfUtils.OWNER_KEY ->
  PdfUtils.regexp_exec key p = Some m ->
  PdfUtils.regexp_exec key (p +:+ token_head key +:+ x)
  = Some (PdfUtils.mkMatch (PdfUtils.m_before m) (PdfUtils.m_group1 m)
            (PdfUtils.m_after m +:+ token_head key +:+ x)).
Proof.
  intros Hkey. revert m. induction p as [|c p IH]; intros m.
  - cbn [PdfUtils.regexp_exec]. by rewrite match_here_empty.
  - cbn [PdfUtils.regexp_exec]. rewrite append_cons. cbn [PdfUtils.regexp_exec].
    rewrite <- append_cons.
    destruct (PdfUtils.match_here key (String c p)) as [[h t0]|] eqn:E.
    + intros [= <-]. by rewrite (match_here_app_token _ _ _ _ _ E).
    + rewrite (match_here_none_app_token key (String c p) x Hkey) by done.
      destruct (PdfUtils.regexp_exec key p) as [m'|]; [|done].
      intros [= <-]. by rewrite (IH m' eq_refl).
Qed.

Lemma token_head_app (key x : string) :
  "||" +:+ key +:+ ":" +:+ x = token_head key +:+ x.
Proof.
  change (String "|" (String "|" (key +:+ ":" +:+ x)) =
          String "|" (String "|" ((key +:+ ":") +:+ x))).
  by rewrite append_assoc.
Qed.

(** X6. Signing does not replace an envelope. When extraction already
    finds an envelope in a file, then after [injectSignature] has put any
    other signature and key into it, extraction still finds the earlier
    signature and the earlier key. *)
Theorem first_envelope_wins :
  forall (pdfBuffer : bytes) (e0 : PdfUtils.ExtractedSignatureData) (s k : string),
    PdfUtils.extractAndStripSignature pdfBuffer = Ret (Some e0) ->
    exists signed e,
      PdfUtils.injectSignature pdfBuffer s k = Ret signed /\
      PdfUtils.extractAndStripSignature signed = Ret (Some e) /\
      PdfUtils.signature e = PdfUtils.signature e0 /\
      PdfUtils.publicKey e = PdfUtils.publicKey e0.
Proof.
  intros pdfBuffer e0 s k.
  unfold PdfUtils.extractAndStripSignature at 1. unfold exc_bind.
  destruct (PDFDocument_load pdfBuffer false) as [d|] eqn:Hload; [|done].
  destruct (PdfUtils.regexp_exec PdfUtils.SIGNATURE_KEY _) as [sm|] eqn:Hsm; [|done].
  destruct (PdfUtils.regexp_exec PdfUtils.OWNER_KEY _) as [pm|] eqn:Hpm; [|done].
  intros [= <-].
  unfold PdfUtils.injectSignature, exc_bind. rewrite Hload.
  destruct d as [dt ds dk dp dc o].
  eexists. eexists. split; [reflexivity|].
  unfold PdfUtils.extractAndStripSignature, exc_bind. rewrite !load_save.
  cbn [getTitle getSubject getKeywords getProducer getCreator
       setTitle setSubject setKeywords setProducer setCreator
       Title Subject Keywords Producer Creator objects] in *.
  rewrite !or_default_empty, !token_head_app.
  rewrite (regexp_exec_app_token _ _ _ _ (or_introl eq_refl) Hsm).
  rewrite (regexp_exec_app_token _ _ _ _ (or_intror eq_refl) Hpm).
  split; [reflexivity|]. done.
Qed.

End SignedAgain.

(** ** pdfUtils.ts: Keywords that contain a comma *)

Section KeywordsRewritten.
Context {PDF : PdfLib}.

Local Abbreviation no_comma := (Texts.all_chars (fun c => negb (Ascii.eqb c ","))).

Lemma all_chars_app (p : ascii -> bool) (a b : string) :
  Texts.all_chars p a = true -> Texts.all_chars p b = true ->
  Texts.all_chars p (a +:+ b) = true.
Proof.
  intros Ha Hb. induction a as [|c a IH]; [done|].
  cbn in Ha. apply andb_true_iff in Ha as [Hc Ha].
  rewrite append_cons. cbn. by rewrite Hc, (IH Ha).
Qed.

Lemma all_chars_trimStart (p : ascii -> bool) (s : string) :
  Texts.all_chars p s = true -> Texts.all_chars p (JS.trimStart s) = true.
Proof.
  induction s as [|c s IH]; [done|].
  intros H. cbn [JS.trimStart]. destruct (JS.is_space c); [|done].
  cbn in H. apply andb_true_iff in H as [_ H]. by apply IH.
Qed.

Lemma all_chars_trimEnd (p : ascii -> bool) (s : string) :
  Texts.all_chars p s = true -> Texts.all_chars p (JS.trimEnd s) = true.
Proof.
  induction s as [|c s IH]; [done|].
  intros H. cbn in H. apply andb_true_iff in H as [Hc H]. specialize (IH H).
  cbn [JS.trimEnd]. destruct (JS.trimEnd s) as [|c' r'].
  - destruct (JS.is_space c); [done|]. cbn. by rewrite Hc.
  - change (p c && Texts.all_chars p (String c' r') = true). by rewrite Hc, IH.
Qed.

Lemma all_chars_trim (p : ascii -> bool) (s : string) :
  Texts.all_chars p s = true -> Texts.all_chars p (JS.trim s) = true.
Proof. intros H. by apply all_chars_trimEnd, all_chars_trimStart. Qed.

Lemma split_no_sep (sep : ascii) (s : string) :
  Forall (fun w => Texts.all_chars (fun c => negb (Ascii.eqb c sep)) w = true)
    (JS.split sep s).
Proof.
  induction s as [|c s IH]; [by repeat constructor|].
  cbn [JS.split]. destruct (Ascii.eqb c sep) eqn:E.
  - by constructor.
  - destruct (JS.split sep s) as [|w ws].
    + repeat constructor. cbn. by rewrite E.
    + inversion IH as [|? ? Hw Hws]; subst. constructor; [|done].
      cbn. by rewrite E, Hw.
Qed.

Lemma join_no_comma (l : list string) :
  Forall (fun w => no_comma w = true) l -> no_comma (JS.join " " l) = true.
Proof.
  induction 1 as [|w ws Hw Hws IH]; [done|].
  cbn [JS.join]. destruct ws as [|w' ws']; [done|].
  apply all_chars_app; [done|]. by apply (all_chars_app _ " ").
Qed.

Lemma no_comma_includes (s : string) :
  no_comma s = true -> JS.includes "," s = false.
Proof.
  induction s as [|c s IH]; [done|].
  intros H. cbn [Texts.all_chars] in H. apply andb_true_iff in H as [Hc Hs].
  apply negb_true_iff in Hc. cbn [JS.includes JS.strip_prefix].
  rewrite Ascii.eqb_sym, Hc. by apply IH.
Qed.

(** What [injectSignature] stores as Keywords contains no comma. *)
Lemma rewritten_keywords_no_comma (kw : string) :
  JS.includes "," (JS.join " " (map JS.trim (JS.split "," kw))) = false.
Proof.
  apply no_comma_includes, join_no_comma.
  apply Forall_map. eapply Forall_impl; [apply (split_no_sep ",")|].
  intros w Hw. by apply all_chars_trim.
Qed.

(** [extractAndStripSignature] leaves the Title, the Subject, the
    Keywords and the page content as it loaded them. *)
Lemma extractAndStripSignature_frame (signedBytes : bytes) (d : PDFDocument)
    (e : PdfUtils.ExtractedSignatureData) :
  PDFDocument_load signedBytes false = Ret d ->
  PdfUtils.extractAndStripSignature signedBytes = Ret (Some e) ->
  exists d', PdfUtils.strippedPdfBuffer e = PDFDocument_save d' /\
             getTitle d' = getTitle d /\ getSubject d' = getSubject d /\
             getKeywords d' = getKeywords d /\ objects d' = objects d.
Proof.
  intros Hload. unfold PdfUtils.extractAndStripSignature, exc_bind. rewrite Hload.
  destruct (PdfUtils.regexp_exec PdfUtils.SIGNATURE_KEY _) as [sm|]; [|discriminate].
  destruct (PdfUtils.regexp_exec PdfUtils.OWNER_KEY _) as [pm|]; [|discriminate].
  intros [= <-]. eexists. split; [reflexivity|]. done.
Qed.

Context {LAWS : PdfLibLaws}.

(** X7. A canonical document whose Keywords entry contains a comma does
    not survive the round trip either: [injectSignature] stores the
    keywords again, separated by spaces, extraction leaves them so, and
    the stripped bytes are not the canonical bytes, whatever the signature
    and the key. *)
Theorem roundtrip_fails_with_comma_in_keywords :
  forall (d : PDFDocument) (kw s k : string),
    getKeywords d = Some kw ->
    JS.includes "," kw = true ->
    exc_bind (PdfUtils.injectSignature (PDFDocument_save d) s k)
       PdfUtils.extractAndStripSignature
    <> Ret (Some (PdfUtils.mkExtracted s k (PDFDocument_save d))).
Proof.
  intros d kw s k Hkw Hcomma Hrt.
  unfold PdfUtils.injectSignature, exc_bind in Hrt. rewrite load_save in Hrt.
  match type of Hrt with
  | PdfUtils.extractAndStripSignature (PDFDocument_save ?d1) = _ =>
      destruct (extractAndStripSignature_frame _ d1 _ (load_save d1) Hrt)
        as (d' & Hs & _ & _ & Hk' & _)
  end.
  cbn [PdfUtils.strippedPdfBuffer] in Hs. apply save_inj in Hs. subst d'.
  cbn in Hk'. unfold getKeywords in Hkw, Hk'. rewrite !Hkw in Hk'.
  injection Hk' as Hk'.
  pose proof (rewritten_keywords_no_comma kw) as Hno.
  rewrite <- Hk' in Hno. congruence.
Qed.

End KeywordsRewritten.

(** ** cryptoUtils.ts: hexadecimal texts *)

Section HexTexts.
Context {ED : Ed25519}.

Lemma toString_hex_length (b : bytes) :
  String.length (JS.toString_hex b) = 2 * length b.
Proof. induction b as [|x b IH]; [done|]. cbn. rewrite IH. lia. Qed.

Lemma hex_digit_is_hex (x : byte) :
  PdfUtils.is_hex (JS.hex_digit (Strings.Byte.to_N x / 16)) = true /\
  PdfUtils.is_hex (JS.hex_digit (Strings.Byte.to_N x mod 16)) = true.
Proof. destruct x; split; reflexivity. Qed.

Lemma toString_hex_all_hex (b : bytes) :
  Texts.all_chars PdfUtils.is_hex (JS.toString_hex b) = true.
Proof.
  induction b as [|x b IH]; [done|].
  cbn [JS.toString_hex Texts.all_chars].
  destruct (hex_digit_is_hex x) as [-> ->]. by rewrite IH.
Qed.

Lemma toString_hex_hex_of_length (n : nat) (b : bytes) :
  length b = n -> Schema.hex_of_length (2 * n) (JS.toString_hex b) = true.
Proof.
  intros <-. unfold Schema.hex_of_length.
  rewrite toString_hex_length, Nat.eqb_refl. apply toString_hex_all_hex.
Qed.


Lemma Buffer_from_hex_app (b : bytes) (r : string) :
  JS.Buffer_from_hex (JS.toString_hex b +:+ r) = b ++ JS.Buffer_from_hex r.
Proof.
  induction b as [|x b IH]; [done|].
  cbn [JS.toString_hex]. rewrite !append_cons, JSFacts.Buffer_from_hex_byte.
  by rewrite IH.
Qed.

Lemma hex_value_lower_char (c : ascii) :
  JS.hex_value (JSText.lower_char c) = JS.hex_value c.
Proof. destruct c as [[] [] [] [] [] [] [] []]; reflexivity. Qed.

Lemma Buffer_from_hex_toLowerCase_aux (n : nat) (s : string) :
  String.length s <= n ->
  JS.Buffer_from_hex (JSText.toLowerCase s) = JS.Buffer_from_hex s.
Proof.
  revert s. induction n as [|n IH]; intros s Hn.
  - destruct s; [done | cbn in Hn; lia].
  - destruct s as [|a [|b r]]; [reflexivity..|].
    cbn [JSText.toLowerCase JS.Buffer_from_hex].
    rewrite !hex_value_lower_char, IH by (cbn in Hn; lia). done.
Qed.

Lemma Buffer_from_hex_toLowerCase (s : string) :
  JS.Buffer_from_hex (JSText.toLowerCase s) = JS.Buffer_from_hex s.
Proof. by apply (Buffer_from_hex_toLowerCase_aux (String.length s)). Qed.

(** X8. The text of a signature is not unique. [verifySignature] gives
    the same answer when the letters of the signature and of the key are
    put in lower case, and when one more character is put behind the
    hexadecimal text of a signature: [Buffer.from] reads both cases and
    drops a last digit that has no partner. *)
Theorem verifySignature_reads_more_than_one_text :
  forall (signature publicKey : string) (sig hash : bytes) (c : ascii),
    CryptoUtils.verifySignature
      (JSText.toLowerCase signature) hash (JSText.toLowerCase publicKey)
    = CryptoUtils.verifySignature signature hash publicKey /\
    CryptoUtils.verifySignature
      (JS.toString_hex sig +:+ String c "") hash publicKey
    = CryptoUtils.verifySignature (JS.toString_hex sig) hash publicKey.
Proof.
  intros signature publicKey sig hash c. split.
  - rewrite !verifySignature_eq. by rewrite !Buffer_from_hex_toLowerCase.
  - rewrite !verifySignature_eq.
    rewrite Buffer_from_hex_app, JSFacts.Buffer_from_hex_toString.
    cbn [JS.Buffer_from_hex]. by rewrite app_nil_r.
Qed.

End HexTexts.

(** ** authController.ts: registration *)

Section Signup.
Context {DBI : Mongoose} {UM : UserModel} {NC : NodeCrypto} {ED : Ed25519}
        {BC : Bcrypt} {JWT : JsonWebToken}.

(** The record that a registration hands to [save]. *)
Lemma signup_inv (entropy : AuthController.Entropy) (body : AuthController.Credentials)
    (w : World) (r : Exc AuthController.AuthReply) (w' : World) :
  AuthController.signup entropy body w = (r, w') ->
  exists reply,
    r = Ret reply /\ heap w' = heap w /\ calls w' = calls w /\
    ((db w' = db w /\ AuthController.ar_status reply <> 201) \/
     (JS.truthy (AuthController.c_email body) = true /\
      8 <= String.length (AuthController.c_password body) /\
      User_findOne_email (db w) (JSText.toLowerCase (AuthController.c_email body))
        = Ret None /\
      exists kp wrapped passwordHash u,
        CryptoUtils.generateKeyPair (AuthController.e_key entropy) = Ret kp /\
        CryptoUtils.encryptPrivateKey (AuthController.e_iv entropy)
          (CryptoUtils.kp_privateKey kp)
          (fst (CryptoUtils.deriveKeyFromPassword (AuthController.e_salt entropy)
                  (AuthController.c_password body) None)) = Ret wrapped /\
        bcrypt_hash (AuthController.c_password body) 12 = Ret passwordHash /\
        User_save (db w)
          (mkUserInput (JSText.toLowerCase (AuthController.c_email body)) passwordHash
             (CryptoUtils.kp_publicKey kp)
             (CryptoUtils.ek_encryptedPrivateKey wrapped)
             (CryptoUtils.ek_iv wrapped)
             (snd (CryptoUtils.deriveKeyFromPassword (AuthController.e_salt entropy)
                     (AuthController.c_password body) None)))
          = Ret (u, db w') /\
        ((exists token,
            AuthController.generateToken (u_id u) (u_email u) = Ret token /\
            reply = AuthController.mkAuthReply 201
              (AuthController.mkAuthResponse true
                 (Some "Account created successfully. Your cryptographic identity has been generated.")
                 (Some token) (Some (AuthController.formatUserResponse u)))) \/
         (exists e,
            AuthController.generateToken (u_id u) (u_email u) = Throw e /\
            reply = AuthController.reject 500
              ("An error occurred during registration: " +:+ e))))).
Proof.
  unfold AuthController.signup. run.
  destruct (JS.truthy (AuthController.c_email body)) eqn:Hemail; cbn [negb orb];
    [|intros [= <- <-]; eexists; repeat split; left; done].
  destruct (JS.truthy (AuthController.c_password body)) eqn:Hpw; cbn [negb orb];
    [|intros [= <- <-]; eexists; repeat split; left; done].
  destruct (Nat.ltb_spec (String.length (AuthController.c_password body)) 8) as [|Hlen];
    [intros [= <- <-]; eexists; repeat split; left; done|].
  destruct (User_findOne_email _ _) as [[existing|]|] eqn:Hfind;
    [intros [= <- <-]; eexists; repeat split; left; done| |
     intros [= <- <-]; eexists; repeat split; left; done].
  destruct (CryptoUtils.generateKeyPair _) as [kp|] eqn:Hkp;
    [|intros [= <- <-]; eexists; repeat split; left; done].
  destruct (CryptoUtils.encryptPrivateKey _ _ _) as [wrapped|] eqn:Hwrap;
    [|intros [= <- <-]; eexists; repeat split; left; done].
  destruct (bcrypt_hash _ _) as [passwordHash|] eqn:Hhash;
    [|intros [= <- <-]; eexists; repeat split; left; done].
  destruct (User_save _ _) as [[u d']|] eqn:Hsave;
    [|intros [= <- <-]; eexists; repeat split; left; done].
  destruct (AuthController.generateToken _ _) as [token|e] eqn:Htoken.
  - intros [= <- <-]. eexists. repeat split. right.
    repeat split; [done..|].
    exists kp, wrapped, passwordHash, u. repeat split; [done..|].
    left. by exists token.
  - intros [= <- <-]. eexists. repeat split. right.
    repeat split; [done..|].
    exists kp, wrapped, passwordHash, u. repeat split; [done..|].
    right. by exists e.
Qed.

(** X9. A registration always answers and never throws; it touches no
    array and makes no recorded call. It leaves the database as it was,
    and does not answer 201, unless the address is not empty, the password
    has at least eight characters, no user has the address in lower case,
    and [save] has stored a user under that address; once [save] has
    stored the user the answer is 201 with that user, or 500 when signing
    the token threw. *)
Theorem signup_stores_only_after_its_checks :
  forall (entropy : AuthController.Entropy) (body : AuthController.Credentials)
         (w : World) (r : Exc AuthController.AuthReply) (w' : World),
    AuthController.signup entropy body w = (r, w') ->
    exists reply,
      r = Ret reply /\ heap w' = heap w /\ calls w' = calls w /\
      ((db w' = db w /\ AuthController.ar_status reply <> 201) \/
       (JS.truthy (AuthController.c_email body) = true /\
        8 <= String.length (AuthController.c_password body) /\
        User_findOne_email (db w) (JSText.toLowerCase (AuthController.c_email body))
          = Ret None /\
        exists i u,
          ui_email i = JSText.toLowerCase (AuthController.c_email body) /\
          User_save (db w) i = Ret (u, db w') /\
          (AuthController.ar_status reply = 500 \/
           (AuthController.ar_status reply = 201 /\
            AuthController.ar_user (AuthController.ar_json reply)
              = Some (AuthController.formatUserResponse u))))).
Proof.
  intros entropy body w r w' Hrun.
  destruct (signup_inv _ _ _ _ _ Hrun)
    as (reply & -> & Hheap & Hcalls &
        [Hsame | (Hemail & Hlen & Hfind & kp & wrapped & ph & u & _ & _ & _ & Hsave & Hreply)]).
  - exists reply. repeat split; [done..|]. by left.
  - exists reply. repeat split; [done..|]. right.
    repeat split; [done..|]. eexists. exists u. split; [|split; [exact Hsave|]].
    + reflexivity.
    + destruct Hreply as [(token & _ & ->) | (e & _ & ->)]; [by right | by left].
Qed.

Context {EDL : Ed25519Laws}.

(** X10. With 32 bytes of salt and 12 bytes of nonce, as the calls
    of [randomBytes] give them, the record of a successful registration
    meets the patterns of the schema: the public key and the salt are 64
    hexadecimal digits, the nonce 24. *)
Theorem signup_record_meets_schema :
  forall (entropy : AuthController.Entropy) (body : AuthController.Credentials)
         (w w' : World) (reply : AuthController.AuthReply),
    length (AuthController.e_salt entropy) = 32 ->
    length (AuthController.e_iv entropy) = 12 ->
    AuthController.signup entropy body w = (Ret reply, w') ->
    AuthController.ar_status reply = 201 ->
    exists i u,
      User_save (db w) i = Ret (u, db w') /\
      Schema.publicKey_match (ui_publicKey i) = true /\
      Schema.iv_match (ui_iv i) = true /\
      Schema.salt_match (ui_salt i) = true.
Proof.
  intros entropy body w w' reply Hsalt Hiv Hrun H201.
  destruct (signup_inv _ _ _ _ _ Hrun)
    as (reply' & [= <-] & _ & _ &
        [[_ Hno] | (_ & _ & _ & kp & wrapped & ph & u & Hkp & Hwrap & _ & Hsave & _)]);
    [done|].
  eexists. exists u. split; [exact Hsave|]. cbn [ui_publicKey ui_iv ui_salt].
  unfold CryptoUtils.generateKeyPair, exc_bind in Hkp.
  destruct (ed_getPublicKey _) as [pk|] eqn:Hpk; [|done]. injection Hkp as <-.
  apply encryptPrivateKey_inv in Hwrap as (ct & tag & _ & _ & ->).
  cbn [CryptoUtils.kp_publicKey CryptoUtils.deriveKeyFromPassword snd].
  repeat split.
  - apply (toString_hex_hex_of_length 32). by eapply ed_publicKey_length.
  - by apply (toString_hex_hex_of_length 12).
  - by apply (toString_hex_hex_of_length 32).
Qed.

End Signup.

(** ** From registration to signing *)

Section SignupThenSign.
Context {DBI : Mongoose} {UM : UserModel} {PDF : PdfLib} {NC : NodeCrypto}
        {ED : Ed25519} {BC : Bcrypt} {JWT : JsonWebToken}.
Context {NCL : NodeCryptoLaws} {UML : UserModelLaws}.



End SignupThenSign.

(** ** authController.ts: login and profile *)

Section Login.
Context {DBI : Mongoose} {UM : UserModel} {NC : NodeCrypto} {ED : Ed25519}
        {BC : Bcrypt} {JWT : JsonWebToken}.

(** X12. A login always answers, never throws and changes nothing. It
    answers 200 only when a user has the address in lower case and
    [bcrypt.compare] accepted the password against the stored hash; and
    an unknown address and a wrong password get one and the same answer. *)
Theorem login_needs_the_password :
  forall (body : AuthController.Credentials) (w : World)
         (r : Exc AuthController.AuthReply) (w' : World),
    AuthController.login body w = (r, w') ->
    w' = w /\
    exists reply,
      r = Ret reply /\
      (AuthController.ar_status reply = 200 ->
       exists u,
         User_findOne_email (db w) (JSText.toLowerCase (AuthController.c_email body))
           = Ret (Some u) /\
         bcrypt_compare (AuthController.c_password body) (u_passwordHash u) = Ret true /\
         AuthController.ar_user (AuthController.ar_json reply)
           = Some (AuthController.formatUserResponse u)) /\
      (JS.truthy (AuthController.c_email body) = true ->
       JS.truthy (AuthController.c_password body) = true ->
       User_findOne_email (db w) (JSText.toLowerCase (AuthController.c_email body))
         = Ret None \/
       (exists u,
          User_findOne_email (db w) (JSText.toLowerCase (AuthController.c_email body))
            = Ret (Some u) /\
          bcrypt_compare (AuthController.c_password body) (u_passwordHash u)
            = Ret false) ->
       reply = AuthController.reject 401 "Invalid email or password").
Proof.
  intros body w r w'. unfold AuthController.login. run.
  destruct (JS.truthy (AuthController.c_email body)) eqn:Hemail; cbn [negb orb];
    [|intros [= <- <-]; split; [done|]; eexists; split; [done|]; split; done].
  destruct (JS.truthy (AuthController.c_password body)) eqn:Hpw; cbn [negb orb];
    [|intros [= <- <-]; split; [done|]; eexists; split; [done|]; split; done].
  destruct (User_findOne_email _ _) as [[u|]|] eqn:Hfind.
  - destruct (bcrypt_compare _ _) as [[]|] eqn:Hcmp; cbn [negb].
    + destruct (AuthController.generateToken _ _) as [token|] eqn:Htoken.
      * intros [= <- <-]. split; [done|]. eexists. split; [done|]. split.
        -- intros _. by exists u.
        -- intros _ _ [? | (u' & [= <-] & ?)]; congruence.
      * intros [= <- <-]. split; [done|]. eexists. split; [done|]. split; [done|].
        intros _ _ [? | (u' & [= <-] & ?)]; congruence.
    + intros [= <- <-]. split; [done|]. eexists. split; [done|]. split; done.
    + intros [= <- <-]. split; [done|]. eexists. split; [done|]. split; [done|].
      intros _ _ [? | (u' & [= <-] & ?)]; congruence.
  - intros [= <- <-]. split; [done|]. eexists. split; [done|]. split; done.
  - intros [= <- <-]. split; [done|]. eexists. split; [done|]. split; [done|].
    intros _ _ [? | (u' & ? & ?)]; congruence.
Qed.

End Login.

(** ** middleware/auth.ts *)

Section Authenticate.
Context {JWT : JsonWebToken}.

Local Abbreviation no_space := (Texts.all_chars (fun c => negb (Ascii.eqb c " "))).

Lemma split_unsplit (sep : ascii) (s : string) :
  JS.join (String sep "") (JS.split sep s) = s.
Proof.
  induction s as [|c s IH]; [done|].
  cbn [JS.split]. destruct (Ascii.eqb_spec c sep) as [->|Hne].
  - cbn [JS.join]. destruct (JS.split sep s) as [|w ws] eqn:E.
    + by destruct s; cbn in E; repeat case_match.
    + rewrite append_empty_l, append_cons, append_empty_l. by rewrite IH.
  - destruct (JS.split sep s) as [|w ws] eqn:E.
    + by destruct s; cbn in E; repeat case_match.
    + destruct ws as [|w' ws'].
      * cbn in IH |- *. by rewrite IH.
      * cbn [JS.join] in IH |- *. rewrite append_cons. by rewrite IH.
Qed.

Lemma split_two (sep : ascii) (s a b : string) :
  JS.split sep s = [a; b] <->
  s = a +:+ String sep b /\
  Texts.all_chars (fun c => negb (Ascii.eqb c sep)) a = true /\
  Texts.all_chars (fun c => negb (Ascii.eqb c sep)) b = true.
Proof.
  split.
  - intros Hs. pose proof (split_unsplit sep s) as Hj.
    pose proof (split_no_sep sep s) as Hall. rewrite Hs in Hj, Hall.
    cbn [JS.join] in Hj. rewrite append_cons, append_empty_l in Hj.
    inversion Hall as [|? ? Ha Hb']; subst. inversion Hb' as [|? ? Hb _]; subst.
    done.
  - intros (-> & Ha & Hb).
    assert (JS.split sep b = [b]) as Hsb.
    { clear Ha. induction b as [|c b IH]; [done|].
      cbn in Hb. apply andb_true_iff in Hb as [Hc Hb]. apply negb_true_iff in Hc.
      cbn [JS.split]. by rewrite Hc, (IH Hb). }
    induction a as [|c a IH].
    + rewrite append_empty_l. cbn [JS.split]. by rewrite Ascii.eqb_refl, Hsb.
    + cbn in Ha. apply andb_true_iff in Ha as [Hc Ha]. apply negb_true_iff in Hc.
      rewrite append_cons. cbn [JS.split]. by rewrite Hc, (IH Ha).
Qed.

Lemma authenticate_next_iff (header : option string) (userId userEmail : string) :
  AuthMiddleware.authenticate header = AuthMiddleware.Next userId userEmail <->
  exists token,
    header = Some ("Bearer " +:+ token) /\
    no_space token = true /\
    jwt_verify token AuthMiddleware.JWT_SECRET
      = Decoded (mkJwtPayload userId userEmail).
Proof.
  unfold AuthMiddleware.authenticate. split.
  - destruct header as [[|c h]|]; [done| |done].
    destruct (JS.split " " (String c h)) as [|scheme [|token [|]]] eqn:Hsplit; [done..| |done].
    destruct (String.eqb_spec scheme "Bearer") as [->|]; [|done]. cbn [negb].
    destruct (jwt_verify token _) as [[u e]| | |] eqn:Hv; [|done..].
    intros [= <- <-]. exists token.
    apply split_two in Hsplit as (-> & _ & Ht). done.
  - intros (token & -> & Ht & Hv).
    assert (JS.split " " ("Bearer " +:+ token) = ["Bearer"; token]) as ->.
    { apply split_two. done. }
    cbn. by rewrite Hv.
Qed.

(** X13. [authenticate] lets a request through exactly when its
    [Authorization] header is the word [Bearer], one space and a token
    without a space that [jwt.verify] decodes under the secret; the user
    and the address it attaches are those of the token. *)
Theorem authenticate_admits_bearer_tokens_only :
  forall (header : option string) (userId userEmail : string),
    AuthMiddleware.authenticate header = AuthMiddleware.Next userId userEmail <->
    exists token,
      header = Some ("Bearer " +:+ token) /\
      no_space token = true /\
      jwt_verify token AuthMiddleware.JWT_SECRET
        = Decoded (mkJwtPayload userId userEmail).
Proof. apply authenticate_next_iff. Qed.

(** X14. [optionalAuthenticate] attaches a user exactly when
    [authenticate] lets the same header through, and then the same user;
    on every other header it goes on without one. *)
Theorem optionalAuthenticate_agrees_with_authenticate :
  forall (header : option string) (userId userEmail : string),
    AuthMiddleware.optionalAuthenticate header = Some (userId, userEmail) <->
    AuthMiddleware.authenticate header = AuthMiddleware.Next userId userEmail.
Proof.
  intros header userId userEmail.
  unfold AuthMiddleware.optionalAuthenticate, AuthMiddleware.authenticate.
  destruct header as [[|c h]|]; [done| |done].
  destruct (JS.split " " (String c h)) as [|scheme [|token [|]]]; [done..| |done].
  destruct (String.eqb scheme "Bearer"); [|done]. cbn [negb].
  destruct (jwt_verify token _) as [[u e]| | |]; [|done..].
  cbn. split; by intros [= <- <-].
Qed.

End Authenticate.

(** ** routes/index.ts: what reaches the controllers *)

Section DocumentRoutes.
Context {DBI : Mongoose} {PDF : PdfLib} {NC : NodeCrypto} {ED : Ed25519}
        {JWT : JsonWebToken} {MU : Multer}.

Local Abbreviation no_space := (Texts.all_chars (fun c => negb (Ascii.eqb c " "))).

(** What [authenticate] sends when it does not call [next()]. *)
Lemma authenticate_responds (header : option string) (r : Response) :
  AuthMiddleware.authenticate header = AuthMiddleware.Respond r ->
  (status r = 401 \/ status r = 500) /\ exists j, body r = JsonSign j.
Proof.
  unfold AuthMiddleware.authenticate. intros H.
  repeat (case_match; simplify_eq/=); eauto.
Qed.

(** X15. Without a bearer token that [jwt.verify] decodes, a request
    to either document route is answered 401 or 500 by [authenticate];
    the handler behind it is not run, whatever it is, and nothing
    changes. *)
Theorem document_routes_need_a_token :
  forall (req : Routes.DocumentRequest),
    (forall token payload,
       Routes.authorization req = Some ("Bearer " +:+ token) ->
       no_space token = true ->
       jwt_verify token AuthMiddleware.JWT_SECRET <> Decoded payload) ->
    exists r,
      (status r = 401 \/ status r = 500) /\
      (forall signDocument f,
         Routes.documents_sign signDocument req f = (Ret r, f)) /\
      (forall verifyDocument w,
         Routes.documents_verify verifyDocument req w = (Ret r, w)).
Proof.
  intros req Hno.
  destruct (AuthMiddleware.authenticate (Routes.authorization req)) as [uid em|r] eqn:Ha.
  - apply authenticate_next_iff in Ha as (token & Hh & Ht & Hv).
    by destruct (Hno token (mkJwtPayload uid em) Hh Ht).
  - exists r. split; [by apply authenticate_responds in Ha as [? _]|].
    unfold Routes.documents_sign, Routes.documents_verify. rewrite Ha. done.
Qed.

(** X16. An upload of another type than [application/pdf] does not
    reach a handler either: on both routes the filter of the upload
    refuses it, the error handler answers 400, and nothing changes. *)
Theorem document_routes_refuse_other_types :
  forall (req : Routes.DocumentRequest) (userId userEmail : string) (file : File),
    AuthMiddleware.authenticate (Routes.authorization req)
      = AuthMiddleware.Next userId userEmail ->
    Routes.file_part req = Some file ->
    mimetype file <> "application/pdf" ->
    (forall signDocument f,
       Routes.documents_sign signDocument req f
       = (Ret (sign_json 400 "Only PDF files are allowed"), f)) /\
    (forall verifyDocument w,
       Routes.documents_verify verifyDocument req w
       = (Ret (sign_json 400 "Only PDF files are allowed"), w)).
Proof.
  intros req userId userEmail file Ha Hf Hm.
  unfold Routes.documents_sign, Routes.documents_verify, Routes.upload_single,
    Routes.fileFilter. rewrite Ha, Hf.
  destruct (String.eqb_spec (mimetype file) "application/pdf"); [done|].
  done.
Qed.

(** The request that a handler sees behind [upload.single] has no file
    or a file that the filter accepted. *)
Lemma upload_single_accepts (part file : option File) :
  Routes.upload_single part = Ret file ->
  forall f, file = Some f -> mimetype f = "application/pdf".
Proof.
  unfold Routes.upload_single, Routes.fileFilter, exc_bind.
  destruct part as [p|]; [|by intros [= <-]].
  destruct (String.eqb_spec (mimetype p) "application/pdf") as [Hm|]; [|done].
  destruct (exceeds_fileSize _ _); [done|].
  by intros [= <-] f [= <-].
Qed.

Lemma errorHandler_json (e : string) : exists j, body (Routes.errorHandler e) = JsonSign j.
Proof. unfold Routes.errorHandler. destruct (String.eqb _ _); cbn; eauto. Qed.

Lemma errorHandler_message (e : string) :
  Routes.errorHandler e <> sign_json 400 "Only PDF documents can be signed.".
Proof. unfold Routes.errorHandler. by destruct (String.eqb _ _). Qed.

Lemma registry_sign_type_answer (req : SignRequest) (f f' : SignFrame) (r : Response) :
  RegistryController.signDocument req f = (Ret r, f') ->
  r = sign_json 400 "Only PDF documents can be signed." ->
  exists file, sr_file req = Some file /\ mimetype file <> "application/pdf".
Proof.
  unfold RegistryController.signDocument. run. cbn -[String.eqb].
  destruct (sr_file req) as [file|]; [|by intros [= <- <-]].
  destruct (JS.truthy (sr_password req)); [|by intros [= <- <-]].
  destruct (String.eqb_spec (mimetype file) "application/pdf") as [Hm|]; [|by eauto].
  cbn -[String.eqb]. intros Hrun Hr.
  repeat (case_match; simplify_eq/=).
Qed.

Lemma crypto_sign_type_answer (req : SignRequest) (f f' : SignFrame) (r : Response) :
  CryptoController.signDocument req f = (Ret r, f') ->
  r = sign_json 400 "Only PDF documents can be signed." ->
  exists file, sr_file req = Some file /\ mimetype file <> "application/pdf".
Proof.
  unfold CryptoController.signDocument. run. cbn -[String.eqb].
  destruct (sr_file req) as [file|]; [|by intros [= <- <-]].
  destruct (JS.truthy (sr_password req)); [|by intros [= <- <-]].
  destruct (String.eqb_spec (mimetype file) "application/pdf") as [Hm|]; [|by eauto].
  cbn -[String.eqb]. intros Hrun Hr.
  repeat (case_match; simplify_eq/=).
Qed.

Lemma registry_verify_type_answer (req : VerifyRequest) (w w' : World) (r : Response)
    (j : VerifyResponse) :
  RegistryController.verifyDocument req w = (Ret r, w') ->
  body r = JsonVerify j ->
  message j = "Only PDF documents can be verified." ->
  exists file, vr_file req = Some file /\ mimetype file <> "application/pdf".
Proof.
  unfold RegistryController.verifyDocument. run.
  destruct (vr_file req) as [file|]; [|by intros [= <- <-] [= <-]].
  destruct (String.eqb_spec (mimetype file) "application/pdf") as [Hm|]; [|by eauto].
  cbn -[String.eqb]. intros Hrun Hb Hmsg.
  repeat (case_match; simplify_eq/=).
Qed.

Lemma crypto_verify_type_answer (req : VerifyRequest) (w w' : World) (r : Response)
    (j : VerifyResponse) :
  CryptoController.verifyDocument req w = (Ret r, w') ->
  body r = JsonVerify j ->
  message j = "Only PDF documents can be verified." ->
  exists file, vr_file req = Some file /\ mimetype file <> "application/pdf".
Proof.
  unfold CryptoController.verifyDocument. run.
  destruct (vr_file req) as [file|]; [|by intros [= <- <-] [= <-]].
  destruct (String.eqb_spec (mimetype file) "application/pdf") as [Hm|]; [|by eauto].
  cbn -[String.eqb]. intros Hrun Hb Hmsg.
  repeat (case_match; simplify_eq/=).
Qed.

(** X17. Behind the routes the handlers never send their own answer to
    a file of another type: in either revision, no request to the signing
    route is answered [Only PDF documents can be signed.], and none to the
    verification route [Only PDF documents can be verified.]. *)
Theorem handlers_never_answer_for_the_type :
  forall (req : Routes.DocumentRequest),
    (forall f r f',
       Routes.documents_sign RegistryController.signDocument req f = (Ret r, f') \/
       Routes.documents_sign CryptoController.signDocument req f = (Ret r, f') ->
       r <> sign_json 400 "Only PDF documents can be signed.") /\
    (forall w r w' j,
       Routes.documents_verify RegistryController.verifyDocument req w = (Ret r, w') \/
       Routes.documents_verify CryptoController.verifyDocument req w = (Ret r, w') ->
       body r = JsonVerify j ->
       message j <> "Only PDF documents can be verified.").
Proof.
  intros req. split.
  - intros f r f'. unfold Routes.documents_sign.
    destruct (AuthMiddleware.authenticate _) as [uid em|resp] eqn:Ha.
    + destruct (Routes.upload_single _) as [file|e] eqn:Hu.
      * pose proof (upload_single_accepts _ _ Hu) as Hacc.
        intros [Hrun|Hrun] Hr;
          [apply registry_sign_type_answer in Hrun as (fl & Hf & Hm); [|done]
          |apply crypto_sign_type_answer in Hrun as (fl & Hf & Hm); [|done]];
          cbn in Hf; by specialize (Hacc fl Hf).
      * intros [[= <- <-]|[= <- <-]]; apply errorHandler_message.
    + apply authenticate_responds in Ha as [Hst _].
      intros [[= <- <-]|[= <- <-]] ->; cbn in Hst; by destruct Hst.
  - intros w r w' j. unfold Routes.documents_verify.
    destruct (AuthMiddleware.authenticate _) as [uid em|resp] eqn:Ha.
    + destruct (Routes.upload_single _) as [file|e] eqn:Hu.
      * pose proof (upload_single_accepts _ _ Hu) as Hacc.
        intros [Hrun|Hrun] Hb Hmsg;
          [apply (registry_verify_type_answer _ _ _ _ j) in Hrun as (fl & Hf & Hm); [|done..]
          |apply (crypto_verify_type_answer _ _ _ _ j) in Hrun as (fl & Hf & Hm); [|done..]];
          cbn in Hf; by specialize (Hacc fl Hf).
      * destruct (errorHandler_json e) as [j' Hj'].
        intros [[= <- <-]|[= <- <-]] Hb; congruence.
    + apply authenticate_responds in Ha as [_ [j' Hj']].
      intros [[= <- <-]|[= <- <-]] Hb; congruence.
Qed.

End DocumentRoutes.

(** ** The name of the signed file *)

Section SignedFileName.

Lemma replace_unfold (pat rep s : string) :
  JS.replace pat rep s =
  match JS.strip_prefix pat s with
  | Some r => rep +:+ r
  | None =>
      match s with
      | String c r => String c (JS.replace pat rep r)
      | EmptyString => EmptyString
      end
  end.
Proof. by destruct s. Qed.

Lemma strip_prefix_pdf_border (s x : string) :
  s <> "" ->
  JS.strip_prefix ".pdf" s = None ->
  JS.strip_prefix ".pdf" (s +:+ ".pdf" +:+ x) = None.
Proof.
  intros Hne.
  destruct s as [|c0 s]; [done|]. clear Hne.
  rewrite ?append_cons; cbn [JS.strip_prefix].
  destruct (Ascii.eqb_spec "." c0) as [<-|]; [|done].
  do 3 (border s).
  done.
Qed.

Lemma replace_absent (pat rep s : string) :
  JS.includes pat s = false -> JS.replace pat rep s = s.
Proof.
  induction s as [|c s IH]; cbn [JS.includes JS.replace].
  - by destruct (JS.strip_prefix pat "").
  - destruct (JS.strip_prefix pat (String c s)); [done|].
    intros H. by rewrite (IH H).
Qed.

Lemma replace_first_pdf (a b : string) :
  JS.includes ".pdf" a = false ->
  JS.replace ".pdf" "_signed.pdf" (a +:+ ".pdf" +:+ b) = a +:+ "_signed.pdf" +:+ b.
Proof.
  induction a as [|c a IH]; intros Ha.
  - rewrite !append_empty_l, replace_unfold. by rewrite strip_prefix_app.
  - cbn [JS.includes] in Ha.
    destruct (JS.strip_prefix ".pdf" (String c a)) eqn:E; [done|].
    rewrite replace_unfold, strip_prefix_pdf_border by done.
    rewrite (append_cons c a (".pdf" +:+ b)), (append_cons c a ("_signed.pdf" +:+ b)).
    by rewrite (IH Ha).
Qed.

(** X18. The name under which [signDocument] sends the signed file:
    an upload whose name does not contain [.pdf] as written, in lower
    case, keeps its name; otherwise [_signed] is put before the first
    [.pdf] of the name, wherever that is, and the rest stays. *)
Theorem signed_file_name :
  forall name : string,
    (JS.includes ".pdf" name = false ->
     JS.replace ".pdf" "_signed.pdf" name = name) /\
    (forall a b,
       name = a +:+ ".pdf" +:+ b ->
       JS.includes ".pdf" a = false ->
       JS.replace ".pdf" "_signed.pdf" name = a +:+ "_signed.pdf" +:+ b).
Proof.
  intros name. split.
  - apply replace_absent.
  - intros a b -> Ha. by apply replace_first_pdf.
Qed.

End SignedFileName.

(** ** DigitalIdCard.tsx *)

Section IdCard.

Lemma string_length_app (a b : string) :
  String.length (a +:+ b) = String.length a + String.length b.
Proof. induction a as [|c a IH]; [done|]. rewrite append_cons. cbn. by rewrite IH. Qed.

Lemma drop_chars_0 (s : string) : JSText.drop_chars 0 s = s.
Proof. by destruct s. Qed.

Lemma take_chars_length (n : nat) (s : string) :
  String.length (JSText.take_chars n s) = Nat.min n (String.length s).
Proof.
  revert s. induction n as [|n IH]; intros [|c s]; cbn; [done..|].
  by rewrite IH.
Qed.

Lemma drop_chars_length (n : nat) (s : string) :
  String.length (JSText.drop_chars n s) = String.length s - n.
Proof.
  revert s. induction n as [|n IH]; intros [|c s]; cbn; [done..|].
  by rewrite IH.
Qed.

Lemma take_chars_all (n : nat) (s : string) :
  String.length s <= n -> JSText.take_chars n s = s.
Proof.
  revert s. induction n as [|n IH]; intros [|c s]; cbn; [done|lia|done|].
  intros H. rewrite IH; [done|lia].
Qed.

Lemma take_drop_chars (n : nat) (s : string) :
  JSText.take_chars n s +:+ JSText.drop_chars n s = s.
Proof.
  revert s. induction n as [|n IH]; intros [|c s]; cbn; [done..|].
  rewrite append_cons. by rewrite IH.
Qed.

Lemma drop_chars_add (a b : nat) (s : string) :
  JSText.drop_chars (a + b) s = JSText.drop_chars b (JSText.drop_chars a s).
Proof.
  revert s. induction a as [|a IH]; intros s.
  - by rewrite drop_chars_0.
  - destruct s as [|c s]; cbn; [by destruct b|]. apply IH.
Qed.

Lemma all_chars_take_chars (p : ascii -> bool) (n : nat) (s : string) :
  Texts.all_chars p s = true -> Texts.all_chars p (JSText.take_chars n s) = true.
Proof.
  revert s. induction n as [|n IH]; intros [|c s]; cbn; [done..|].
  intros [Hc Hs]%andb_true_iff. by rewrite Hc, (IH s Hs).
Qed.

Lemma substring_0 (s : string) (n : nat) :
  JSText.substring s 0 (Z.of_nat n) = JSText.take_chars n s.
Proof.
  unfold JSText.substring.
  set (len := Z.of_nat (String.length s)).
  replace (Z.max 0 (Z.min 0 len)) with 0%Z by lia.
  replace (Z.to_nat (Z.min 0 (Z.max 0 (Z.min (Z.of_nat n) len)))) with 0 by lia.
  rewrite drop_chars_0, Nat.sub_0_r.
  destruct (Nat.le_gt_cases n (String.length s)).
  - f_equal. lia.
  - replace (Z.to_nat (Z.max 0 (Z.max 0 (Z.min (Z.of_nat n) len))))
      with (String.length s) by lia.
    by rewrite !take_chars_all by lia.
Qed.

Lemma substring_from_last (s : string) (n : nat) :
  n <= String.length s ->
  JSText.substring_from s (Z.of_nat (String.length s) - Z.of_nat n)
  = JSText.drop_chars (String.length s - n) s.
Proof.
  intros Hn. unfold JSText.substring_from, JSText.substring.
  set (len := Z.of_nat (String.length s)).
  replace (Z.to_nat (Z.min _ _)) with (String.length s - n) by lia.
  replace (Z.to_nat (Z.max _ _)) with (String.length s) by lia.
  apply take_chars_all. rewrite drop_chars_length. lia.
Qed.

(** X19. What [formatPublicKey] shows: a key of at most 20 characters
    as it is; of a longer key, its first twelve characters, three dots and
    its last twelve characters, which makes 27 characters whatever the
    length of the key, also when the key has fewer than 27. *)
Theorem formatPublicKey_shows_both_ends :
  forall key : string,
    (String.length key <= 20 -> DigitalIdCard.formatPublicKey key = key) /\
    (20 < String.length key ->
     exists first last rest1 rest2,
       key = first +:+ rest1 /\ key = rest2 +:+ last /\
       String.length first = 12 /\ String.length last = 12 /\
       DigitalIdCard.formatPublicKey key = first +:+ "..." +:+ last /\
       String.length (DigitalIdCard.formatPublicKey key) = 27).
Proof.
  intros key. unfold DigitalIdCard.formatPublicKey. split.
  - intros H. by destruct (Nat.leb_spec (String.length key) 20); [|lia].
  - intros H. destruct (Nat.leb_spec (String.length key) 20); [lia|].
    change 12%Z with (Z.of_nat 12).
    rewrite (substring_0 key 12), (substring_from_last key 12) by lia.
    exists (JSText.take_chars 12 key),
           (JSText.drop_chars (String.length key - 12) key),
           (JSText.drop_chars 12 key),
           (JSText.take_chars (String.length key - 12) key).
    assert (String.length (JSText.take_chars 12 key) = 12) as H1
      by (rewrite take_chars_length; lia).
    assert (String.length (JSText.drop_chars (String.length key - 12) key) = 12) as H2
      by (rewrite drop_chars_length; lia).
    repeat split; [by rewrite take_drop_chars..|done|done|].
    rewrite !string_length_app, H1, H2. done.
Qed.

Lemma is_hex_not_space (c : ascii) : PdfUtils.is_hex c = true -> JS.is_space c = false.
Proof. destruct c as [[] [] [] [] [] [] [] []]; by vm_compute. Qed.

Lemma parseInt16_hex (t : string) :
  Texts.hex_text t = true -> JSText.parseInt16 t = Some (JSText.hex_number 0 t).
Proof.
  intros [Hne Hhex]%andb_true_iff. destruct t as [|c r]; [done|].
  cbn [Texts.all_chars] in Hhex. apply andb_true_iff in Hhex as [Hc Hr].
  unfold JSText.parseInt16. cbn [JS.trimStart]. rewrite (is_hex_not_space c Hc).
  assert (PdfUtils.span_hex (String c r) = (String c r, "")) as Hspan.
  { apply span_hex_all. cbn. by rewrite Hc, Hr. }
  destruct c as [[] [] [] [] [] [] [] []]; try discriminate Hc;
    try (cbn [fst snd]; rewrite Hspan; cbn [fst snd]; f_equal; lia).
  destruct r as [|c2 r2]; [by vm_compute|].
  cbn [Texts.all_chars] in Hr. apply andb_true_iff in Hr as [Hc2 Hr2].
  destruct c2 as [[] [] [] [] [] [] [] []]; try discriminate Hc2;
    cbn [fst snd]; rewrite Hspan; cbn [fst snd]; f_equal; lia.
Qed.

Lemma hex_number_nonneg (s : string) (acc : Z) :
  (0 <= acc)%Z -> (0 <= JSText.hex_number acc s)%Z.
Proof.
  revert acc. induction s as [|c s IH]; intros acc Hacc; cbn; [done|].
  destruct (JS.hex_value c); [|done]. apply IH. lia.
Qed.

(** X20. [generateIdenticon] returns one of its five gradients for
    every text that is not empty and consists of hexadecimal digits, so
    for every public key that the schema admits. *)
Theorem generateIdenticon_defined_on_keys :
  forall publicKey : string,
    Texts.hex_text publicKey = true ->
    exists color,
      DigitalIdCard.generateIdenticon publicKey = [Some color] /\
      In color DigitalIdCard.colors.
Proof.
  intros publicKey Hkey. unfold DigitalIdCard.generateIdenticon.
  change 8%Z with (Z.of_nat 8).
  assert (Texts.hex_text (JSText.substring publicKey 0 (Z.of_nat 8)) = true) as Hsub.
  { apply andb_true_iff in Hkey as [Hne Hhex].
    rewrite (substring_0 publicKey 8). unfold Texts.hex_text.
    rewrite all_chars_take_chars by done. by destruct publicKey. }
  rewrite (parseInt16_hex _ Hsub).
  pose proof (hex_number_nonneg (JSText.substring publicKey 0 (Z.of_nat 8)) 0
                ltac:(lia)) as Hn.
  set (n := JSText.hex_number 0 _) in *.
  change (Z.of_nat (length DigitalIdCard.colors)) with 5%Z.
  pose proof (Z.rem_bound_pos n 5 Hn ltac:(lia)) as [Hlo Hhi].
  destruct (Z.ltb_spec (Z.rem n 5) 0); [lia|].
  destruct (DigitalIdCard.colors !! Z.to_nat (Z.rem n 5)) as [color|] eqn:E.
  - exists color. split; [done|]. apply list_elem_of_In. by eapply list_elem_of_lookup_2.
  - apply lookup_ge_None in E. cbn in E. lia.
Qed.

End IdCard.

(** ** documentController.ts: more exits *)

Section MoreExits.
Context {DBI : Mongoose} {PDF : PdfLib} {NC : NodeCrypto} {ED : Ed25519}.

(** X21. An upload that pdf-lib cannot parse is an internal error to
    all four handlers, not a refused request: verification answers 500,
    and so does signing for a known user with a password, before it has
    derived or unwrapped any key; nothing changes. *)
Theorem unparsable_upload_is_answered_500 :
  forall (file : File) (e : string),
    mimetype file = "application/pdf" ->
    PDFDocument_load (buffer file) false = Throw e ->
    (forall w,
       RegistryController.verifyDocument (mkVerifyRequest (Some file)) w
       = (Ret (mkResponse 500 [] (JsonVerify (mkVerifyResponse false
                 "An error occurred while verifying the document."
                 (Some false) None None None None))), w) /\
       CryptoController.verifyDocument (mkVerifyRequest (Some file)) w
       = (Ret (mkResponse 500 [] (JsonVerify (mkVerifyResponse false
                 "An error occurred while verifying the document."
                 (Some false) None None None None))), w)) /\
    (forall userId password user w,
       JS.truthy password = true ->
       User_findById (db w) userId = Ret (Some user) ->
       RegistryController.signDocument (mkSignRequest userId (Some file) password)
         (mkSignFrame w None)
       = (Ret (sign_json 500 "An error occurred while signing the document."),
          mkSignFrame w None) /\
       CryptoController.signDocument (mkSignRequest userId (Some file) password)
         (mkSignFrame w None)
       = (Ret (sign_json 500 "An error occurred while signing the document."),
          mkSignFrame w None)).
Proof.
  intros file e Hm Hload. split.
  - intros w.
    unfold RegistryController.verifyDocument, CryptoController.verifyDocument,
      PdfUtils.extractAndStripSignature, exc_bind. run.
    cbn [vr_file]. rewrite Hm, String.eqb_refl. cbn -[String.eqb]. by rewrite Hload.
  - intros userId password user w Hpw Hu.
    unfold RegistryController.signDocument, CryptoController.signDocument,
      PdfUtils.normalizePdf, exc_bind. run.
    cbn -[String.eqb]. rewrite Hpw. cbn -[String.eqb].
    rewrite Hm, String.eqb_refl. cbn -[String.eqb].
    by rewrite Hu, Hload.
Qed.

(** What the two revisions do once the key is unwrapped and the
    signature is made and embedded. *)
Local Ltac step :=
  cbn -[String.eqb CryptoUtils.deriveKeyFromPassword
       CryptoUtils.decryptPrivateKey_bytes PdfUtils.hashPdfBuffer
       PdfUtils.injectSignature JS.toString_hex].


(** X22. When the registry refuses the record, as the unique index on
    the signature does for a signature that is registered already, the
    registry-backed [signDocument] answers 500 and sends no file, although
    the signature was made and embedded; the database is as it was, and
    the array of the key holds zeros. *)
Theorem registry_refusal_is_answered_500 :
  forall (req : SignRequest) (w : World) (file : File) (user : IUser)
         (n key sig signed : bytes) (e : string),
    reaches_unwrap req w file user n ->
    unwrap_attempt req w user = Ret key ->
    ed_sign (PdfUtils.hashPdfBuffer n) key = Ret sig ->
    PdfUtils.injectSignature n (JS.toString_hex sig) (u_publicKey user) = Ret signed ->
    DocumentModel_create (db w)
      (mkDocumentInput (JS.toString_hex (PdfUtils.hashPdfBuffer n)) (JS.toString_hex sig)
         (u_id user) (originalname file)) = Throw e ->
    exists f',
      RegistryController.signDocument req (mkSignFrame w None)
      = (Ret (sign_json 500 "An error occurred while signing the document."), f') /\
      db (world f') = db w /\
      heap (world f') = heap w ++ [JS.fill0 key] /\
      privateKeyBytes f' = None.
Proof.
  intros req w file user n key sig signed e (Hf & Hpw & Hm & Hu & Hn) Hk Hs Hi Hc. unfold unwrap_attempt in Hk.
  unfold RegistryController.signDocument. run.
  step. rewrite Hf, Hpw. step.
  rewrite Hm, String.eqb_refl. step.
  rewrite Hu, Hn. step. rewrite Hk. step.
  rewrite heap_alloc_lookup. step.
  unfold CryptoUtils.signHash_bytes, exc_bind. rewrite Hs. step.
  rewrite Hi. step. unfold record_call, set_heap. step.
  rewrite Hc. step.
  eexists. split; [reflexivity|]. cbn. by rewrite heap_alloc_alter.
Qed.

End MoreExits.

(** ** Signing, then verifying *)

Section SignThenVerify.
Context {DBI : Mongoose} {PDF : PdfLib} {NC : NodeCrypto} {ED : Ed25519}.
Context {PDFL : PdfLibLaws} {EDL : Ed25519Laws}.




End SignThenVerify.

(** ** From registration to a verified signature *)

Section RegisterSignVerify.
Context {DBI : Mongoose} {UM : UserModel} {PDF : PdfLib} {NC : NodeCrypto}
        {ED : Ed25519} {BC : Bcrypt} {JWT : JsonWebToken}.
Context {NCL : NodeCryptoLaws} {UML : UserModelLaws}
        {PDFL : PdfLibLaws} {EDL : Ed25519Laws}.


End RegisterSignVerify.

(** ** The stand-ins of the authentication code meet the laws *)

Module AuthSimFacts.
Import Sim SimFacts AuthSim.

#[export] Instance ed_laws : @Ed25519Laws Sim.ed.
Proof.
  constructor; cbn.
  - intros sk pk. destruct (Nat.eqb_spec (length sk) 32); [|done]. by intros [= <-].
  - intros msg sk sig. destruct (Nat.eqb_spec (length sk) 32) as [Hl|]; [|done].
    intros [= <-]. destruct msg; [by destruct sk|done].
  - intros msg sk pk sig. destruct (Nat.eqb_spec (length sk) 32) as [Hl|]; [|done].
    intros [= <-] [= <-]. rewrite Hl. cbn. f_equal. by apply bytes_eqb_eq.
Qed.

#[export] Instance users_laws : @UserModelLaws Sim.store users_model.
Proof.
  constructor. intros d i u d'. cbn. unfold save_user.
  destruct (negb _); [done|].
  destruct (find_user _ d); [done|]. by intros [= <- <-].
Qed.

End AuthSimFacts.

(** ** Runs on the stand-ins *)

Section MoreRuns.
Import Sim SimFacts AuthSim AuthSimFacts Scenario AuthScenario.

Lemma isSignedDocument_covers_extraction_witness :
  PdfUtils.extractAndStripSignature signed_titled = Ret (Some extracted_signed) /\
  PdfUtils.isSignedDocument signed_titled = Ret true.
Proof.
  split; [vm_compute; reflexivity|].
  apply (proj2 (proj2 (isSignedDocument_covers_extraction signed_titled))
           extracted_signed).
  vm_compute. reflexivity.
Defined.

(** The converse fails: a file whose Producer and Creator only mention the
    two keys counts as signed, and has no envelope. *)
Example isSignedDocument_without_envelope :
  exists b : bytes,
    PdfUtils.isSignedDocument b = Ret true /\
    PdfUtils.extractAndStripSignature b = Ret None.
Proof.
  exists (PDFDocument_save
            (mkPDFDocument None None None (Some "made with AegisSign_Signature")
               (Some "AegisSign_Owner") [])).
  split; vm_compute; reflexivity.
Qed.




Lemma first_envelope_wins_witness :
  exists signed e,
    PdfUtils.injectSignature signed_titled "ab" "cd" = Ret signed /\
    PdfUtils.extractAndStripSignature signed = Ret (Some e) /\
    PdfUtils.signature e = PdfUtils.signature extracted_signed /\
    PdfUtils.publicKey e = PdfUtils.publicKey extracted_signed.
Proof.
  apply (first_envelope_wins signed_titled extracted_signed "ab" "cd").
  vm_compute. reflexivity.
Defined.

Lemma roundtrip_fails_with_comma_in_keywords_witness :
  JS.includes "," "lease, flat" = true /\
  exc_bind (PdfUtils.injectSignature (PDFDocument_save listed) "ab" "cd")
    PdfUtils.extractAndStripSignature
  <> Ret (Some (PdfUtils.mkExtracted "ab" "cd" (PDFDocument_save listed))).
Proof.
  split; [reflexivity|].
  apply (roundtrip_fails_with_comma_in_keywords listed "lease, flat" "ab" "cd");
    reflexivity.
Defined.

(** The same run, computed: the stripped document lists its keywords
    without the comma. *)
Example roundtrip_listed :
  exists e d',
    exc_bind (PdfUtils.injectSignature (PDFDocument_save listed) "ab" "cd")
      PdfUtils.extractAndStripSignature = Ret (Some e) /\
    PDFDocument_load (PdfUtils.strippedPdfBuffer e) false = Ret d' /\
    getKeywords d' = Some "lease flat".
Proof.
  eexists. eexists. split; [vm_compute; reflexivity|].
  split; [vm_compute; reflexivity|]. reflexivity.
Qed.

Lemma signup_stores_only_after_its_checks_witness :
  exists reply,
    fst registration = Ret reply /\
    heap (snd registration) = heap empty_world /\
    calls (snd registration) = calls empty_world /\
    ((db (snd registration) = db empty_world /\ AuthController.ar_status reply <> 201) \/
     (JS.truthy (AuthController.c_email credentials) = true /\
      8 <= String.length (AuthController.c_password credentials) /\
      User_findOne_email (db empty_world)
        (JSText.toLowerCase (AuthController.c_email credentials)) = Ret None /\
      exists i u,
        ui_email i = JSText.toLowerCase (AuthController.c_email credentials) /\
        User_save (db empty_world) i = Ret (u, db (snd registration)) /\
        (AuthController.ar_status reply = 500 \/
         (AuthController.ar_status reply = 201 /\
          AuthController.ar_user (AuthController.ar_json reply)
            = Some (AuthController.formatUserResponse u))))).
Proof.
  apply (signup_stores_only_after_its_checks entropy credentials empty_world
           (fst registration) (snd registration)).
  vm_compute. reflexivity.
Defined.

Lemma signup_record_meets_schema_witness :
  exists i u,
    User_save (db empty_world) i = Ret (u, db world_carol) /\
    Schema.publicKey_match (ui_publicKey i) = true /\
    Schema.iv_match (ui_iv i) = true /\
    Schema.salt_match (ui_salt i) = true.
Proof.
  apply (signup_record_meets_schema entropy credentials empty_world world_carol
           registered);
    vm_compute; reflexivity.
Defined.


(** A registration under an address that differs by case only is
    refused, and stores nothing. *)
Example signup_twice :
  exists reply,
    AuthController.signup entropy
      (AuthController.mkCredentials "CAROL@example.com" "another password")
      world_carol = (Ret reply, world_carol) /\
    AuthController.ar_status reply = 409.
Proof. eexists. split; [vm_compute; reflexivity|reflexivity]. Qed.

Lemma login_needs_the_password_witness :
  snd (AuthController.login credentials world_carol) = world_carol /\
  exists reply,
    fst (AuthController.login credentials world_carol) = Ret reply /\
    (AuthController.ar_status reply = 200 ->
     exists u,
       User_findOne_email (db world_carol)
         (JSText.toLowerCase (AuthController.c_email credentials)) = Ret (Some u) /\
       bcrypt_compare (AuthController.c_password credentials) (u_passwordHash u)
         = Ret true /\
       AuthController.ar_user (AuthController.ar_json reply)
         = Some (AuthController.formatUserResponse u)) /\
    (JS.truthy (AuthController.c_email credentials) = true ->
     JS.truthy (AuthController.c_password credentials) = true ->
     User_findOne_email (db world_carol)
       (JSText.toLowerCase (AuthController.c_email credentials)) = Ret None \/
     (exists u,
        User_findOne_email (db world_carol)
          (JSText.toLowerCase (AuthController.c_email credentials)) = Ret (Some u) /\
        bcrypt_compare (AuthController.c_password credentials) (u_passwordHash u)
          = Ret false) ->
     reply = AuthController.reject 401 "Invalid email or password").
Proof.
  apply (login_needs_the_password credentials world_carol
           (fst (AuthController.login credentials world_carol))
           (snd (AuthController.login credentials world_carol))).
  vm_compute. reflexivity.
Defined.

(** Carol logs in with her password, and not with another. *)
Example login_carol :
  (exists reply,
     fst (AuthController.login credentials world_carol) = Ret reply /\
     AuthController.ar_status reply = 200 /\
     AuthController.ar_token (AuthController.ar_json reply) = Some token_carol) /\
  fst (AuthController.login
         (AuthController.mkCredentials "carol@example.com" "wrong horse") world_carol)
  = Ret (AuthController.reject 401 "Invalid email or password") /\
  fst (AuthController.login
         (AuthController.mkCredentials "dave@example.com" "correct horse") world_carol)
  = Ret (AuthController.reject 401 "Invalid email or password").
Proof.
  split; [eexists; split; [vm_compute; reflexivity|split; reflexivity]|].
  split; vm_compute; reflexivity.
Qed.

Lemma authenticate_admits_bearer_tokens_only_witness :
  AuthMiddleware.authenticate (Some ("Bearer " +:+ token_carol))
  = AuthMiddleware.Next "u00" "carol@example.com".
Proof.
  apply (proj2 (authenticate_admits_bearer_tokens_only
                  (Some ("Bearer " +:+ token_carol)) "u00" "carol@example.com")).
  exists token_carol. repeat split; vm_compute; reflexivity.
Defined.

(** Two spaces, no scheme, another scheme, an expired token, a token made
    under another secret. *)
Example authenticate_rejects :
  AuthMiddleware.authenticate (Some ("Bearer  " +:+ token_carol))
    = AuthMiddleware.Respond
        (sign_json 401 "Invalid authorization format. Use: Bearer <token>") /\
  AuthMiddleware.authenticate (Some token_carol)
    = AuthMiddleware.Respond
        (sign_json 401 "Invalid authorization format. Use: Bearer <token>") /\
  AuthMiddleware.authenticate (Some ("bearer " +:+ token_carol))
    = AuthMiddleware.Respond
        (sign_json 401 "Invalid authorization format. Use: Bearer <token>") /\
  AuthMiddleware.authenticate (Some "Bearer expired")
    = AuthMiddleware.Respond (sign_json 401 "Token expired. Please log in again.") /\
  AuthMiddleware.authenticate (Some "Bearer u00:carol@example.com:guess")
    = AuthMiddleware.Respond (sign_json 401 "Invalid token. Please log in again.") /\
  AuthMiddleware.authenticate (Some "")
    = AuthMiddleware.Respond
        (sign_json 401 "Authentication required. Please provide a valid token.").
Proof. repeat split; vm_compute; reflexivity. Qed.

Lemma optionalAuthenticate_agrees_with_authenticate_witness :
  AuthMiddleware.optionalAuthenticate (Some ("Bearer " +:+ token_carol))
  = Some ("u00", "carol@example.com").
Proof.
  apply (proj2 (optionalAuthenticate_agrees_with_authenticate
                  (Some ("Bearer " +:+ token_carol)) "u00" "carol@example.com")).
  vm_compute. reflexivity.
Defined.

Lemma document_routes_need_a_token_witness :
  exists r,
    (status r = 401 \/ status r = 500) /\
    (forall signDocument f,
       Routes.documents_sign signDocument
         (Routes.mkDocumentRequest None (Some (upload titled_bytes)) "correct horse") f
       = (Ret r, f)) /\
    (forall verifyDocument w,
       Routes.documents_verify verifyDocument
         (Routes.mkDocumentRequest None (Some (upload titled_bytes)) "correct horse") w
       = (Ret r, w)).
Proof.
  apply (document_routes_need_a_token
           (Routes.mkDocumentRequest None (Some (upload titled_bytes)) "correct horse")).
  intros token payload H. discriminate H.
Defined.

Lemma document_routes_refuse_other_types_witness :
  (forall signDocument f,
     Routes.documents_sign signDocument picture_request f
     = (Ret (sign_json 400 "Only PDF files are allowed"), f)) /\
  (forall verifyDocument w,
     Routes.documents_verify verifyDocument picture_request w
     = (Ret (sign_json 400 "Only PDF files are allowed"), w)).
Proof.
  apply (document_routes_refuse_other_types picture_request "u00" "carol@example.com"
           (mkFile [] "image/png" "scan.png")).
  - vm_compute. reflexivity.
  - reflexivity.
  - vm_compute. discriminate.
Defined.

Lemma handlers_never_answer_for_the_type_witness :
  Routes.documents_sign RegistryController.signDocument picture_request
    (mkSignFrame world_carol None)
  = (Ret (sign_json 400 "Only PDF files are allowed"), mkSignFrame world_carol None) /\
  sign_json 400 "Only PDF files are allowed"
  <> sign_json 400 "Only PDF documents can be signed.".
Proof.
  split; [vm_compute; reflexivity|].
  apply (proj1 (handlers_never_answer_for_the_type picture_request)
           (mkSignFrame world_carol None)
           (sign_json 400 "Only PDF files are allowed")
           (mkSignFrame world_carol None)).
  left. vm_compute. reflexivity.
Defined.

(** Through the route, Carol signs and anybody with a token verifies. *)
Example carol_signs_through_the_route :
  exists signed resp,
    fst (Routes.documents_sign CryptoController.signDocument
           (Routes.mkDocumentRequest (Some ("Bearer " +:+ token_carol))
              (Some (upload titled_bytes)) "correct horse")
           (mkSignFrame world_carol None))
      = Ret (mkResponse 200
               [("Content-Type", "application/pdf");
                ("Content-Disposition",
                 "attachment; filename=" +:+ double_quote +:+ "lease_signed.pdf" +:+
                 double_quote);
                ("X-AegisSign-Signature", PdfUtils.signature extracted_signed);
                ("X-AegisSign-PublicKey", u_publicKey carol)]
               (Send signed)) /\
    fst (Routes.documents_verify CryptoController.verifyDocument
           (Routes.mkDocumentRequest (Some ("Bearer " +:+ token_carol))
              (Some (upload signed)) "")
           world_carol) = Ret resp /\
    Outcomes.outcome_of resp = Some Outcomes.Valid.
Proof.
  eexists. eexists. split; [vm_compute; reflexivity|].
  split; [vm_compute; reflexivity|]. reflexivity.
Qed.

Lemma signed_file_name_witness :
  JS.replace ".pdf" "_signed.pdf" "scan.pdf.pdf" = "scan" +:+ "_signed.pdf" +:+ ".pdf".
Proof.
  apply (proj2 (signed_file_name "scan.pdf.pdf") "scan" ".pdf"); reflexivity.
Defined.

(** An upper-case extension is not replaced. *)
Example upper_case_extension_is_kept :
  JS.replace ".pdf" "_signed.pdf" "LEASE.PDF" = "LEASE.PDF".
Proof. reflexivity. Qed.

Lemma formatPublicKey_shows_both_ends_witness :
  exists first last rest1 rest2,
    u_publicKey carol = first +:+ rest1 /\ u_publicKey carol = rest2 +:+ last /\
    String.length first = 12 /\ String.length last = 12 /\
    DigitalIdCard.formatPublicKey (u_publicKey carol) = first +:+ "..." +:+ last /\
    String.length (DigitalIdCard.formatPublicKey (u_publicKey carol)) = 27.
Proof.
  apply (proj2 (formatPublicKey_shows_both_ends (u_publicKey carol))).
  vm_compute. lia.
Defined.

(** A key of 21 characters is shown with 27. *)
Example formatPublicKey_lengthens :
  DigitalIdCard.formatPublicKey "0123456789abcdef01234" = "0123456789ab...9abcdef01234".
Proof. reflexivity. Qed.

Lemma generateIdenticon_defined_on_keys_witness :
  exists color,
    DigitalIdCard.generateIdenticon (u_publicKey carol) = [Some color] /\
    In color DigitalIdCard.colors.
Proof.
  apply (generateIdenticon_defined_on_keys (u_publicKey carol)).
  vm_compute. reflexivity.
Defined.

(** Without a digit at its beginning there is no gradient. *)
Example generateIdenticon_undefined :
  DigitalIdCard.generateIdenticon "" = [None] /\
  DigitalIdCard.generateIdenticon "key" = [None] /\
  DigitalIdCard.generateIdenticon "-1f" = [None] /\
  DigitalIdCard.generateIdenticon "-5" = [Some "from-indigo-500 to-purple-500"].
Proof. repeat split; reflexivity. Qed.

Lemma unparsable_upload_is_answered_500_witness :
  (forall w : World,
     RegistryController.verifyDocument
       (mkVerifyRequest (Some (mkFile [] "application/pdf" "empty.pdf"))) w
     = (Ret (mkResponse 500 [] (JsonVerify (mkVerifyResponse false
               "An error occurred while verifying the document."
               (Some false) None None None None))), w) /\
     CryptoController.verifyDocument
       (mkVerifyRequest (Some (mkFile [] "application/pdf" "empty.pdf"))) w
     = (Ret (mkResponse 500 [] (JsonVerify (mkVerifyResponse false
               "An error occurred while verifying the document."
               (Some false) None None None None))), w)) /\
  (forall userId password user (w : World),
     JS.truthy password = true ->
     User_findById (db w) userId = Ret (Some user) ->
     RegistryController.signDocument
       (mkSignRequest userId (Some (mkFile [] "application/pdf" "empty.pdf")) password)
       (mkSignFrame w None)
     = (Ret (sign_json 500 "An error occurred while signing the document."),
        mkSignFrame w None) /\
     CryptoController.signDocument
       (mkSignRequest userId (Some (mkFile [] "application/pdf" "empty.pdf")) password)
       (mkSignFrame w None)
     = (Ret (sign_json 500 "An error occurred while signing the document."),
        mkSignFrame w None)).
Proof.
  apply (unparsable_upload_is_answered_500 (mkFile [] "application/pdf" "empty.pdf")
           "Failed to parse PDF document"); reflexivity.
Defined.

(** Alice signs the document that she has signed before: the signature is
    the same, the registry has it, and she gets no file. *)
Lemma registry_refusal_is_answered_500_witness :
  exists f',
    RegistryController.signDocument (sign_request titled_bytes password)
      (mkSignFrame world1 None)
    = (Ret (sign_json 500 "An error occurred while signing the document."), f') /\
    db (world f') = db world1 /\
    heap (world f') = heap world1 ++ [JS.fill0 rawKey] /\
    privateKeyBytes f' = None.
Proof.
  apply (registry_refusal_is_answered_500 (sign_request titled_bytes password) world1
           (upload titled_bytes) alice titled_bytes rawKey
           (PdfUtils.hashPdfBuffer titled_bytes ++ rawKey) signed_titled
           "E11000 duplicate key error").
  - repeat split; vm_compute; reflexivity.
  - vm_compute. reflexivity.
  - vm_compute. reflexivity.
  - vm_compute. reflexivity.
  - vm_compute. reflexivity.
Defined.



End MoreRuns.

(** ** documentController.ts: what an answer 200 of [signDocument] means *)

Section SignedAnswer.
Context {DBI : Mongoose} {PDF : PdfLib} {NC : NodeCrypto} {ED : Ed25519}.

Local Ltac step :=
  cbn -[String.eqb CryptoUtils.deriveKeyFromPassword
       CryptoUtils.decryptPrivateKey_bytes PdfUtils.hashPdfBuffer
       PdfUtils.injectSignature JS.toString_hex].

Lemma registry_signDocument_200 (req : SignRequest) (w : World)
    (resp : Response) (f' : SignFrame) :
  RegistryController.signDocument req (mkSignFrame w None) = (Ret resp, f') ->
  status resp = 200 ->
  exists file user n key sig signed,
    reaches_unwrap req w file user n /\
    unwrap_attempt req w user = Ret key /\
    ed_sign (PdfUtils.hashPdfBuffer n) key = Ret sig /\
    PdfUtils.injectSignature n (JS.toString_hex sig) (u_publicKey user) = Ret signed /\
    DocumentModel_create (db w)
      (mkDocumentInput (JS.toString_hex (PdfUtils.hashPdfBuffer n))
         (JS.toString_hex sig) (u_id user) (originalname file))
      = Ret (db (world f')) /\
    body resp = Send signed.
Proof.
  unfold RegistryController.signDocument, reaches_unwrap, unwrap_attempt. run.
  cbn -[String.eqb].
  destruct (sr_file req) as [file|] eqn:Hfile; [|by intros [= <- <-]].
  destruct (JS.truthy (sr_password req)) eqn:Hpw; [|by intros [= <- <-]].
  destruct (String.eqb_spec (mimetype file) "application/pdf") as [Hm|];
    [|by intros [= <- <-]].
  cbn -[String.eqb].
  destruct (User_findById _ _) as [[user|]|] eqn:Huser; [|by intros [= <- <-]..].
  destruct (PdfUtils.normalizePdf _) as [n|] eqn:Hn; [|by intros [= <- <-]].
  step.
  destruct (CryptoUtils.decryptPrivateKey_bytes _ _ _) as [key|e] eqn:Hd;
    [|by intros [= <- <-]].
  step. rewrite heap_alloc_lookup. step.
  unfold CryptoUtils.signHash_bytes, exc_bind.
  destruct (ed_sign _ key) as [sig|] eqn:Hs; [|by intros [= <- <-]].
  step.
  destruct (PdfUtils.injectSignature n _ _) as [signed|] eqn:Hi; [|by intros [= <- <-]].
  step. unfold record_call, set_heap. step.
  destruct (DocumentModel_create _ _) as [d'|] eqn:Hc; [|by intros [= <- <-]].
  intros [= <- <-] _.
  exists file, user, n, key, sig, signed. done.
Qed.

(** X25. What an answer 200 of the registry-backed [signDocument]
    means: the request had a PDF upload, a password and a known user; the
    key unwrapped with that password made a signature over the SHA-256
    digest of the normalised upload; the file sent is the normalised
    upload with that signature and the user's stored public key embedded;
    and the registry has taken the record of the digest, the signature,
    the user and the file name. *)
Theorem signed_answer_is_backed :
  forall (req : SignRequest) (w : World) (resp : Response) (f' : SignFrame),
    RegistryController.signDocument req (mkSignFrame w None) = (Ret resp, f') ->
    status resp = 200 ->
    exists file user n key sig signed,
      reaches_unwrap req w file user n /\
      unwrap_attempt req w user = Ret key /\
      ed_sign (PdfUtils.hashPdfBuffer n) key = Ret sig /\
      PdfUtils.injectSignature n (JS.toString_hex sig) (u_publicKey user) = Ret signed /\
      DocumentModel_create (db w)
        (mkDocumentInput (JS.toString_hex (PdfUtils.hashPdfBuffer n))
           (JS.toString_hex sig) (u_id user) (originalname file))
        = Ret (db (world f')) /\
      body resp = Send signed.
Proof. apply registry_signDocument_200. Qed.

(** X26. With digests of 32 bytes and signatures of 64, the record
    that a signing answered 200 has put into the registry meets the
    patterns of the schema: the hash is 64 hexadecimal digits, the
    signature 128. *)
Theorem registry_record_meets_schema :
  forall (req : SignRequest) (w : World) (resp : Response) (f' : SignFrame),
    (forall data, length (createHash_sha256 data) = 32) ->
    (forall msg sk sig, ed_sign msg sk = Ret sig -> length sig = 64) ->
    RegistryController.signDocument req (mkSignFrame w None) = (Ret resp, f') ->
    status resp = 200 ->
    exists record,
      DocumentModel_create (db w) record = Ret (db (world f')) /\
      Schema.hash_match (di_hash record) = true /\
      Schema.signature_match (di_signature record) = true.
Proof.
  intros req w resp f' Hsha Hsign Hrun H200.
  destruct (registry_signDocument_200 _ _ _ _ Hrun H200)
    as (file & user & n & key & sig & signed & _ & _ & Hs & _ & Hc & _).
  eexists. split; [exact Hc|]. cbn [di_hash di_signature]. split.
  - apply (toString_hex_hex_of_length 32). apply Hsha.
  - apply (toString_hex_hex_of_length 64). by eapply Hsign.
Qed.

End SignedAnswer.

(** The primitives with outputs of the real lengths have them. *)
Module Lengths.
Import Sim AuthSim.

Lemma pad32_length (b : bytes) : length (pad32 b) = 32.
Proof.
  unfold pad32. rewrite length_take, length_app, length_replicate. lia.
Qed.

Lemma ed64_signature_length (msg sk sig : bytes) :
  ed_sign (Ed25519 := ed64) msg sk = Ret sig -> length sig = 64.
Proof.
  cbn. destruct (Nat.eqb_spec (length sk) 32) as [Hl|]; [|done].
  intros [= <-]. rewrite length_app, pad32_length. lia.
Qed.

End Lengths.

Section SignedAnswerRuns.
Import Sim SimFacts AuthSim AuthSimFacts Scenario AuthScenario.

Lemma signed_answer_is_backed_witness :
  exists file user n key sig signed,
    reaches_unwrap (sign_request titled_bytes password) world0 file user n /\
    unwrap_attempt (sign_request titled_bytes password) world0 user = Ret key /\
    ed_sign (PdfUtils.hashPdfBuffer n) key = Ret sig /\
    PdfUtils.injectSignature n (JS.toString_hex sig) (u_publicKey user) = Ret signed /\
    DocumentModel_create (db world0)
      (mkDocumentInput (JS.toString_hex (PdfUtils.hashPdfBuffer n))
         (JS.toString_hex sig) (u_id user) (originalname file))
      = Ret (db (world (snd (RegistryController.signDocument
                               (sign_request titled_bytes password)
                               (mkSignFrame world0 None))))) /\
    body alice_signed = Send signed.
Proof.
  apply (signed_answer_is_backed (sign_request titled_bytes password) world0
           alice_signed
           (snd (RegistryController.signDocument (sign_request titled_bytes password)
                   (mkSignFrame world0 None)))).
  - vm_compute. reflexivity.
  - reflexivity.
Defined.

Lemma registry_record_meets_schema_witness :
  exists record,
    DocumentModel_create (db world0) record
      = Ret (db (world (snd (RegistryController.signDocument
                               (NC := crypto32) (ED := ed64)
                               (sign_request titled_bytes password)
                               (mkSignFrame world0 None))))) /\
    Schema.hash_match (di_hash record) = true /\
    Schema.signature_match (di_signature record) = true.
Proof.
  apply (registry_record_meets_schema (NC := crypto32) (ED := ed64)
           (sign_request titled_bytes password) world0 alice_signed32
           (snd (RegistryController.signDocument (NC := crypto32) (ED := ed64)
                   (sign_request titled_bytes password) (mkSignFrame world0 None)))).
  - apply Lengths.pad32_length.
  - apply Lengths.ed64_signature_length.
  - vm_compute. reflexivity.
  - reflexivity.
Defined.

End SignedAnswerRuns.

(** ** documentController.ts: what the handlers leave alone *)

Section Frames.
Context {DBI : Mongoose} {PDF : PdfLib} {NC : NodeCrypto} {ED : Ed25519}.

Local Ltac step :=
  cbn -[String.eqb CryptoUtils.deriveKeyFromPassword
       CryptoUtils.decryptPrivateKey_bytes PdfUtils.hashPdfBuffer
       PdfUtils.injectSignature JS.toString_hex].

(** X27. Verification writes nothing: in either revision
    [verifyDocument] leaves the database and every array as they were,
    whatever the upload and whatever it answers. *)
Theorem verifyDocument_writes_nothing :
  forall (req : VerifyRequest) (w : World) (r : Exc Response) (w' : World),
    RegistryController.verifyDocument req w = (r, w') \/
    CryptoController.verifyDocument req w = (r, w') ->
    db w' = db w /\ heap w' = heap w.
Proof.
  intros req w r w' [Hrun|Hrun].
  - by destruct (registry_verifyDocument_pure _ _ _ _ Hrun) as [_ ->].
  - revert Hrun. unfold CryptoController.verifyDocument. run. intros Hrun.
    repeat (case_match; simplify_eq/=); done.
Qed.




End Frames.

Section FrameRuns.
Import Sim SimFacts AuthSim AuthSimFacts Scenario AuthScenario.

Lemma verifyDocument_writes_nothing_witness :
  db (snd (CryptoController.verifyDocument (verify_request signed_titled) world1))
    = db world1 /\
  heap (snd (CryptoController.verifyDocument (verify_request signed_titled) world1))
    = heap world1.
Proof.
  apply (verifyDocument_writes_nothing (verify_request signed_titled) world1
           (fst (CryptoController.verifyDocument (verify_request signed_titled) world1))
           (snd (CryptoController.verifyDocument (verify_request signed_titled) world1))).
  right. vm_compute. reflexivity.
Defined.


End FrameRuns.
